(** * Users and Tasks: the consistency engine of routes/users.js and routes/tasks.js

    A shallow embedding of the two Express routers.

    - The two Mongoose collections are finite maps from [_id] to document;
      an [_id] is a string, compared as written.
    - A handler is a computation in a state monad over the store, run from
      start to end with no other request in between; what it sends is its
      result.
    - Every operation a handler runs on a collection (the Mongoose call it
      awaits) is recorded, in order, in the store's list of calls, so that
      a property can say which were made, and in which order; building a
      query ([find], [select], [sort], [skip], [limit]) is not one.
    - [JSON.parse], [parseInt] and the calls of Mongoose's query builder
      ([find], [select], [sort], [skip], [limit], [exec],
      [countDocuments]) are parameters of the GET handlers; each call of
      the builder can throw.
    - [asyncHandler] only forwards a rejected promise to Express: a handler
      here is the function it wraps, and a GET handler that throws answers
      nothing itself.
    - [Task.find] returns the documents in the order of the model's map;
      the order Mongo returns them in is not modelled, and the properties
      speak of the ids a list holds, not of their order.
    - The schemas (models/user.js, models/task.js) are not among the
      sources: the fields are those the routers read and write, and the
      unique index on [email] is taken from the specification.

    The file has the model first, then the definitions the properties are
    stated with, then the properties, then their instances on small stores. *)

From Stdlib Require Import Ascii String ZArith.
From stdpp Require Import gmap strings list fin_maps.

Open Scope string_scope.
Open Scope list_scope.

(** ** Documents and the store *)

(** A User document without its [_id], which is its key in the collection. *)
Record User := mkUser {
  u_name : string;
  u_email : string;
  u_pendingTasks : list string
}.

(** A Task document without its [_id]. *)
Record Task := mkTask {
  t_name : string;
  t_description : string;
  t_deadline : string;
  t_completed : bool;
  t_assignedUser : string;
  t_assignedUserName : string
}.

(** The update documents of [User.updateOne]. *)
Inductive UserUpdate :=
| SetPendingTasks (l : list string)      (* { $set: { pendingTasks: l } } *)
| PullPendingTask (x : string)           (* { $pull: { pendingTasks: x } } *)
| AddToSetPendingTask (x : string).      (* { $addToSet: { pendingTasks: x } } *)

(** The filters of [Task.updateMany]. *)
Inductive TaskFilter :=
| IdIn (ids : list string)               (* { _id: { $in: ids } } *)
| IdInNotCompleted (ids : list string)   (* { _id: { $in: ids }, completed: false } *)
| AssignedTo (uid : string).             (* { assignedUser: uid } *)

(** The update documents of [Task.updateMany]. *)
Inductive TaskUpdate :=
| SetAssigned (uid uname : string)       (* { $set: { assignedUser, assignedUserName } } *)
| SetAssignedUserName (uname : string).  (* { $set: { assignedUserName } } *)

(** The Mongoose calls of the two routers. *)
Inductive StoreCall :=
| CUserFindById (id : string)
| CUserFind
| CUserCountDocuments
| CUserSave (id : string)
| CUserUpdateOne (id : string) (upd : UserUpdate)
| CUserDeleteOne (id : string)
| CTaskFindById (id : string)
| CTaskFind
| CTaskCountDocuments
| CTaskFindIn (ids : list string)
| CTaskSave (id : string)
| CTaskUpdateMany (flt : TaskFilter) (upd : TaskUpdate)
| CTaskDeleteOne (id : string).

(** The calls that write a document. *)
Definition is_write (c : StoreCall) : bool :=
  match c with
  | CUserSave _ | CUserUpdateOne _ _ | CUserDeleteOne _
  | CTaskSave _ | CTaskUpdateMany _ _ | CTaskDeleteOne _ => true
  | _ => false
  end.

Record Store := mkStore {
  users : gmap string User;
  tasks : gmap string Task;
  calls : list StoreCall
}.

(** ** The monad of handlers *)

Definition M (A : Type) : Type := Store -> A * Store.

Definition ret {A} (a : A) : M A := fun s => (a, s).

Definition bind {A B} (m : M A) (k : A -> M B) : M B :=
  fun s => let (a, s') := m s in k a s'.

Notation "x <- m ;; k" := (bind m (fun x => k))
  (at level 100, m at next level, right associativity).
Notation "m ;;; k" := (bind m (fun _ => k))
  (at level 100, right associativity).

Definition call (c : StoreCall) : M unit :=
  fun s => (tt, mkStore (users s) (tasks s) (calls s ++ [c])).

Definition get_users : M (gmap string User) := fun s => (users s, s).
Definition get_tasks : M (gmap string Task) := fun s => (tasks s, s).

Definition put_users (us : gmap string User) : M unit :=
  fun s => (tt, mkStore us (tasks s) (calls s)).
Definition put_tasks (ts : gmap string Task) : M unit :=
  fun s => (tt, mkStore (users s) ts (calls s)).

(** [for (const x of l) body(x)] *)
Fixpoint for_of {A} (l : list A) (body : A -> M unit) : M unit :=
  match l with
  | [] => ret tt
  | x :: l' => body x ;;; for_of l' body
  end.

(** ** JavaScript arrays of strings *)

(** [Array.from(new Set(l))]: a Set keeps its elements in insertion order and
    ignores the insertion of an element it already holds. *)
Definition Set_add (acc : list string) (x : string) : list string :=
  if bool_decide (x ∈ acc) then acc else acc ++ [x].

Definition Array_from_Set (l : list string) : list string :=
  foldl Set_add [] l.

(** [String(l[i])]: an index out of range reads [undefined]. *)
Definition String_at (l : list string) (i : nat) : string :=
  match l !! i with
  | Some v => v
  | None => "undefined"
  end.

(** [l.every((v, i) => p(v, i))], from index [i]. *)
Fixpoint every_from (p : string -> nat -> bool) (i : nat) (l : list string) : bool :=
  match l with
  | [] => true
  | v :: l' => p v i && every_from p (S i) l'
  end.

Definition every (p : string -> nat -> bool) (l : list string) : bool :=
  every_from p 0 l.

(** ** The Mongoose calls *)

(** The document [u] with [l] as its [pendingTasks]. *)
Definition set_pendingTasks (u : User) (l : list string) : User :=
  mkUser (u_name u) (u_email u) l.

(** [$pull] removes every occurrence of the value; [$addToSet] appends it
    unless the array holds it. *)
Definition apply_user_update (upd : UserUpdate) (u : User) : User :=
  match upd with
  | SetPendingTasks l => set_pendingTasks u l
  | PullPendingTask x =>
      set_pendingTasks u (filter (fun y => y ≠ x) (u_pendingTasks u))
  | AddToSetPendingTask x =>
      set_pendingTasks u
        (if bool_decide (x ∈ u_pendingTasks u) then u_pendingTasks u
         else u_pendingTasks u ++ [x])
  end.

(** The Task [t], of [_id] [id], matches the filter. *)
Definition task_matches (flt : TaskFilter) (id : string) (t : Task) : bool :=
  match flt with
  | IdIn ids => bool_decide (id ∈ ids)
  | IdInNotCompleted ids => bool_decide (id ∈ ids) && negb (t_completed t)
  | AssignedTo uid => bool_decide (t_assignedUser t = uid)
  end.

(** The Task after a [$set]. *)
Definition apply_task_update (upd : TaskUpdate) (t : Task) : Task :=
  match upd with
  | SetAssigned uid uname =>
      mkTask (t_name t) (t_description t) (t_deadline t) (t_completed t) uid uname
  | SetAssignedUserName uname =>
      mkTask (t_name t) (t_description t) (t_deadline t) (t_completed t)
        (t_assignedUser t) uname
  end.

(** [User.findById(id).exec()]: [None] is [null]. *)
Definition User_findById (id : string) : M (option User) :=
  call (CUserFindById id) ;;;
  us <- get_users ;;
  ret (us !! id).

(** [User.updateOne({ _id: id }, upd)]: nothing happens when no document has
    that [_id]. *)
Definition User_updateOne (id : string) (upd : UserUpdate) : M unit :=
  call (CUserUpdateOne id upd) ;;;
  us <- get_users ;;
  put_users (alter (apply_user_update upd) id us).

(** [User.deleteOne({ _id: id })] *)
Definition User_deleteOne (id : string) : M unit :=
  call (CUserDeleteOne id) ;;;
  us <- get_users ;;
  put_users (delete id us).

(** Modelled from the spec: the User schema (models/user.js) is not part of
    the sources; the spec makes [email] unique across Users, and the routers
    catch the duplicate-key error (code 11000) of [save].  [save] of the
    document [id] fails with that error, writing nothing, when another
    document holds the same email. *)
Definition email_taken (id : string) (email : string) (us : gmap string User) : bool :=
  bool_decide (Exists (fun kv => kv.1 ≠ id ∧ u_email kv.2 = email) (map_to_list us)).

(** What [save] does: it returns, or throws the duplicate-key error. *)
Inductive SaveResult := Saved | DuplicateKey.

(** [user.save()] on the document found under [id], now holding [u]. *)
Definition User_save (id : string) (u : User) : M SaveResult :=
  call (CUserSave id) ;;;
  us <- get_users ;;
  if email_taken id (u_email u) us then ret DuplicateKey
  else put_users (<[id := u]> us) ;;; ret Saved.

(** [Task.findById(id).exec()] *)
Definition Task_findById (id : string) : M (option Task) :=
  call (CTaskFindById id) ;;;
  ts <- get_tasks ;;
  ret (ts !! id).

(** [Task.find({ _id: { $in: ids } })]: the matching documents, each with
    its [_id].  They come in the order of the map's keys, which stands for
    the order the store returns them in: that order is not the request's,
    and the properties of the handlers are stated on the ids a list holds,
    not on their order. *)
Definition find_in (ids : list string) (ts : gmap string Task) : list (string * Task) :=
  filter (fun kv => kv.1 ∈ ids) (map_to_list ts).

Definition Task_find_in (ids : list string) : M (list (string * Task)) :=
  call (CTaskFindIn ids) ;;;
  ts <- get_tasks ;;
  ret (find_in ids ts).

(** [task.save()] on the document found under [id], now holding [t]. *)
Definition Task_save (id : string) (t : Task) : M unit :=
  call (CTaskSave id) ;;;
  ts <- get_tasks ;;
  put_tasks (<[id := t]> ts).

(** [Task.updateMany(flt, upd)] applies [upd] to every document that matches
    [flt]. *)
Definition updateMany_doc (flt : TaskFilter) (upd : TaskUpdate) (id : string) (t : Task) : Task :=
  if task_matches flt id t then apply_task_update upd t else t.

Definition updateMany_map (flt : TaskFilter) (upd : TaskUpdate)
    (ts : gmap string Task) : gmap string Task :=
  map_imap (fun id t => Some (updateMany_doc flt upd id t)) ts.

Definition Task_updateMany (flt : TaskFilter) (upd : TaskUpdate) : M unit :=
  call (CTaskUpdateMany flt upd) ;;;
  ts <- get_tasks ;;
  put_tasks (updateMany_map flt upd ts).

(** [Task.deleteOne({ _id: id })] *)
Definition Task_deleteOne (id : string) : M unit :=
  call (CTaskDeleteOne id) ;;;
  ts <- get_tasks ;;
  put_tasks (delete id ts).

(** ** normalizePendingTasksForUser *)

Definition normalizePendingTasksForUser (userId : string) : M unit :=
  u <- User_findById userId ;;
  match u with
  | None => ret tt
  | Some u =>
      let normalized := Array_from_Set (u_pendingTasks u) in
      let same :=
        Nat.eqb (length normalized) (length (u_pendingTasks u)) &&
        every (fun v i => String.eqb v (String_at (u_pendingTasks u) i)) normalized in
      if negb same
      then User_updateOne userId (SetPendingTasks normalized)
      else ret tt
  end.

(** ** Requests and responses *)

(** The values a request body holds in [pendingTasks] and [completed].  The
    elements of an array stand for their images under [String]; an object
    that is not an array is kept with the value of its [length] property,
    [JsUndefined] when it has none: it is all the handlers read of it. *)
Inductive jsval :=
| JsUndefined
| JsNull
| JsBool (b : bool)
| JsNum (n : Z)
| JsStr (s : string)
| JsArr (l : list string)
| JsObj (length_property : jsval).

(** The truth value JavaScript gives [v]. *)
Definition truthy (v : jsval) : bool :=
  match v with
  | JsUndefined | JsNull => false
  | JsBool b => b
  | JsNum n => negb (Z.eqb n 0)
  | JsStr s => bool_decide (s ≠ "")
  | JsArr _ | JsObj _ => true
  end.

(** [v.length], read for its truth value: [0] and [undefined] are falsy.  A
    string and an array have their length, an object has the value of its
    [length] property, a number and a boolean have none. *)
Definition truthy_length (v : jsval) : bool :=
  match v with
  | JsStr s => bool_decide (String.length s ≠ 0)
  | JsArr l => bool_decide (length l ≠ 0)
  | JsObj len => truthy len
  | _ => false
  end.

(** [v === 'true' || v === true] *)
Definition is_true (v : jsval) : bool :=
  match v with
  | JsStr s => bool_decide (s = "true")
  | JsBool b => b
  | _ => false
  end.

(** The text fields of a body are strings; the empty string also stands for
    a field that is absent (both are falsy). *)
Record UserBody := mkUserBody {
  ub_name : string;
  ub_email : string;
  ub_pendingTasks : jsval
}.

(** [tb_assignedUserName] is [None] when the body has no own property
    [assignedUserName]. *)
Record TaskBody := mkTaskBody {
  tb_name : string;
  tb_description : string;
  tb_deadline : string;
  tb_completed : jsval;
  tb_assignedUser : string;
  tb_assignedUserName : option string
}.

(** The [data] of a response. *)
Inductive Data :=
| DObj                                        (* {} *)
| DUserDoc (id : string) (u : option User)
| DUserList (l : list (string * User))
| DTaskDoc (id : string) (t : option Task)
| DTaskList (l : list (string * Task))
| DCount (n : nat)
| DMissing (missing : list string)            (* { missing } *)
| DError (e : SaveResult).

(** What a handler sends. *)
Inductive Response :=
| Json (status : nat) (message : string) (data : Data)   (* res.status(..).json({ message, data }) *)
| End (status : nat).                                    (* res.status(..).end() *)

Definition sendResponse (status : nat) (message : string) (data : Data) : Response :=
  Json status message data.

Definition status_of (r : Response) : nat :=
  match r with Json st _ _ => st | End st => st end.

(** [s.includes(c)] for a character [c]. *)
Fixpoint includes_char (c : ascii) (s : string) : bool :=
  match s with
  | EmptyString => false
  | String c' s' => bool_decide (c' = c) || includes_char c s'
  end.

Definition emailContainsAt (e : jsval) : bool :=
  match e with
  | JsStr s => includes_char "@"%char s
  | _ => false
  end.

(** [s.toLowerCase()] on the ASCII letters; the only strings whose lower-case
    form is ['unassigned'] are made of ASCII letters. *)
Definition lower_char (c : ascii) : ascii :=
  let n := nat_of_ascii c in
  if (65 <=? n)%nat && (n <=? 90)%nat then ascii_of_nat (n + 32) else c.

Fixpoint toLowerCase (s : string) : string :=
  match s with
  | EmptyString => EmptyString
  | String c s' => String (lower_char c) (toLowerCase s')
  end.

(** The truth value of a string: the empty string is falsy. *)
Definition truthy_str (s : string) : bool := bool_decide (s ≠ "").

(** ** routes/users.js *)

(** [newUser.save()]: the insertion fails on an [_id] or an email that is
    taken. *)
Definition User_save_new (id : string) (u : User) : M SaveResult :=
  call (CUserSave id) ;;;
  us <- get_users ;;
  if bool_decide (is_Some (us !! id)) || email_taken id (u_email u) us
  then ret DuplicateKey
  else put_users (<[id := u]> us) ;;; ret Saved.

(** POST /users; [oid] is the [_id] Mongoose gives the new document. *)
Definition post_users (oid : string) (body : UserBody) : M Response :=
  if negb (truthy_str (ub_name body)) || negb (truthy_str (ub_email body))
  then ret (sendResponse 400 "User must have a name and an email" DObj)
  else if negb (emailContainsAt (JsStr (ub_email body)))
  then ret (sendResponse 400 "Invalid email format" DObj)
  else if truthy (ub_pendingTasks body) && truthy_length (ub_pendingTasks body)
  then ret (sendResponse 400 "Cannot set pendingTasks when creating a new user" DObj)
  else
    let newUser := mkUser (ub_name body) (ub_email body) [] in
    r <- User_save_new oid newUser ;;
    match r with
    | DuplicateKey =>
        ret (sendResponse 400 "A user with that email already exists" DObj)
    | Saved =>
        normalizePendingTasksForUser oid ;;;
        fresh <- User_findById oid ;;
        ret (sendResponse 201 "User created" (DUserDoc oid fresh))
    end.

(** The checks PUT /users/:id runs on the new pending list before it saves:
    [Some r] is the response it returns early. *)
Definition put_users_check (pending : list string) : M (option Response) :=
  if bool_decide (0 < length pending) then
    found <- Task_find_in pending ;;
    let foundIds := found.*1 in
    let missing := filter (fun tid => tid ∉ foundIds) pending in
    if bool_decide (length missing ≠ 0)
    then ret (Some (sendResponse 404 "One or more tasks not found" (DMissing missing)))
    else
      let hasCompleted := existsb (fun kv => t_completed kv.2) found in
      if hasCompleted
      then ret (Some (sendResponse 400 "Cannot assign completed tasks as pending" DObj))
      else ret None
  else ret None.

(** The body of the loop of PUT /users/:id over the Tasks of the new pending
    list: a Task of another User leaves that User's list. *)
Definition leave_previous_user (id : string) (kv : string * Task) : M unit :=
  let prev := t_assignedUser kv.2 in
  if t_completed kv.2 || negb (truthy_str prev) || bool_decide (prev = id)
  then ret tt
  else
    User_updateOne prev (PullPendingTask kv.1) ;;;
    normalizePendingTasksForUser prev.

(** The cascade of PUT /users/:id after [user.save()]. *)
Definition put_users_cascade (id : string) (uname : string)
    (prevPending pending : list string) : M unit :=
  (if bool_decide (length pending ≠ 0) then
     found <- Task_find_in pending ;;
     let incomplete := (filter (fun kv => negb (t_completed kv.2)) found).*1 in
     for_of found (leave_previous_user id) ;;;
     if bool_decide (length incomplete ≠ 0) then
       Task_updateMany (IdIn incomplete) (SetAssigned id uname) ;;;
       User_updateOne id (SetPendingTasks incomplete)
     else
       User_updateOne id (SetPendingTasks [])
   else ret tt) ;;;
  let removed := filter (fun t => t ∉ pending) prevPending in
  (if bool_decide (length removed ≠ 0)
   then Task_updateMany (IdInNotCompleted removed) (SetAssigned "" "unassigned")
   else ret tt) ;;;
  Task_updateMany (AssignedTo id) (SetAssignedUserName uname) ;;;
  normalizePendingTasksForUser id.

(** The pending list PUT /users/:id puts on the document in memory. *)
Definition new_pending (v : jsval) : list string :=
  match v with
  | JsArr l => Array_from_Set l
  | _ => []
  end.

(** PUT /users/:id *)
Definition put_users_id (id : string) (body : UserBody) : M Response :=
  if negb (truthy_str (ub_name body)) || negb (truthy_str (ub_email body))
  then ret (sendResponse 400 "User must have a name and an email" DObj)
  else if negb (emailContainsAt (JsStr (ub_email body)))
  then ret (sendResponse 400 "Invalid email format" DObj)
  else
    found <- User_findById id ;;
    match found with
    | None => ret (sendResponse 404 "User not found" DObj)
    | Some user =>
        let prevPending := u_pendingTasks user in
        let user := mkUser (ub_name body) (ub_email body)
                      (new_pending (ub_pendingTasks body)) in
        early <- put_users_check (u_pendingTasks user) ;;
        match early with
        | Some r => ret r
        | None =>
            r <- User_save id user ;;
            match r with
            | DuplicateKey =>
                ret (sendResponse 400 "A user with that email already exists" DObj)
            | Saved =>
                put_users_cascade id (u_name user) prevPending (u_pendingTasks user) ;;;
                fresh <- User_findById id ;;
                ret (sendResponse 200 "User updated" (DUserDoc id fresh))
            end
        end
    end.

(** DELETE /users/:id *)
Definition delete_users_id (id : string) : M Response :=
  found <- User_findById id ;;
  match found with
  | None => ret (sendResponse 404 "User not found" DObj)
  | Some user =>
      (if bool_decide (length (u_pendingTasks user) ≠ 0)
       then Task_updateMany (IdIn (u_pendingTasks user)) (SetAssigned "" "unassigned")
       else ret tt) ;;;
      User_deleteOne id ;;;
      ret (End 204)
  end.

(** ** routes/tasks.js *)

(** [newTask.save()]: the insertion fails on an [_id] that is taken. *)
Definition Task_save_new (id : string) (t : Task) : M SaveResult :=
  call (CTaskSave id) ;;;
  ts <- get_tasks ;;
  if bool_decide (is_Some (ts !! id)) then ret DuplicateKey
  else put_tasks (<[id := t]> ts) ;;; ret Saved.

(** [x || d] on strings *)
Definition or_default (x d : string) : string :=
  if truthy_str x then x else d.

(** [body.assignedUserName || 'unassigned'] *)
Definition name_or_unassigned (n : option string) : string :=
  match n with
  | Some s => or_default s "unassigned"
  | None => "unassigned"
  end.

(** The [try] block of POST /tasks. *)
Definition post_tasks_save (oid : string) (newTask : Task) : M Response :=
  r <- Task_save_new oid newTask ;;
  match r with
  | DuplicateKey => ret (sendResponse 500 "Error creating task" (DError DuplicateKey))
  | Saved =>
      (if truthy_str (t_assignedUser newTask) && negb (t_completed newTask) then
         User_updateOne (t_assignedUser newTask) (AddToSetPendingTask oid) ;;;
         normalizePendingTasksForUser (t_assignedUser newTask)
       else ret tt) ;;;
      ret (sendResponse 201 "Task created" (DTaskDoc oid (Some newTask)))
  end.

(** POST /tasks; [oid] is the [_id] Mongoose gives the new document. *)
Definition post_tasks (oid : string) (body : TaskBody) : M Response :=
  if negb (truthy_str (tb_name body)) || negb (truthy_str (tb_deadline body))
  then ret (sendResponse 400 "Task must have a name and a deadline" DObj)
  else
    let newTask (assignedUserName : option string) :=
      mkTask (tb_name body) (or_default (tb_description body) "") (tb_deadline body)
        (is_true (tb_completed body)) (or_default (tb_assignedUser body) "")
        (name_or_unassigned assignedUserName) in
    if truthy_str (tb_assignedUser body) then
      assignedUserDoc <- User_findById (tb_assignedUser body) ;;
      match assignedUserDoc with
      | None =>
          ret (sendResponse 404 "Assigned user not found"
                 (DMissing [tb_assignedUser body]))
      | Some doc =>
          if match tb_assignedUserName body with
             | Some n => bool_decide (n ≠ u_name doc)
             | None => false
             end
          then ret (sendResponse 400 "assignedUserName does not match user record" DObj)
          else post_tasks_save oid (newTask (Some (u_name doc)))
      end
    else post_tasks_save oid (newTask (tb_assignedUserName body)).

(** The cascade of PUT /tasks/:id after [task.save()]. *)
Definition put_tasks_cascade (id : string) (prevAssigned : string) (task : Task) : M unit :=
  let cur := or_default (t_assignedUser task) "" in
  (if truthy_str prevAssigned && bool_decide (prevAssigned ≠ cur) then
     User_updateOne prevAssigned (PullPendingTask id) ;;;
     normalizePendingTasksForUser prevAssigned
   else ret tt) ;;;
  if truthy_str (t_assignedUser task) then
    (if t_completed task
     then User_updateOne (t_assignedUser task) (PullPendingTask id)
     else User_updateOne (t_assignedUser task) (AddToSetPendingTask id)) ;;;
    normalizePendingTasksForUser (t_assignedUser task)
  else ret tt.

(** The test PUT /tasks/:id makes on a supplied [assignedUserName]. *)
Definition name_mismatch (assignedUserName : option string) (uname : string) : bool :=
  match assignedUserName with
  | Some n => bool_decide (toLowerCase n ≠ "unassigned") && bool_decide (n ≠ uname)
  | None => false
  end.

(** PUT /tasks/:id *)
Definition put_tasks_id (id : string) (body : TaskBody) : M Response :=
  if negb (truthy_str (tb_name body)) || negb (truthy_str (tb_deadline body))
  then ret (sendResponse 400 "Task must have a name and a deadline" DObj)
  else
    found <- Task_findById id ;;
    match found with
    | None => ret (sendResponse 404 "Task not found" DObj)
    | Some task =>
        if t_completed task
        then ret (sendResponse 400 "Cannot modify a completed task" DObj)
        else
          let prevAssigned := or_default (t_assignedUser task) "" in
          let updated (assignedUser assignedUserName : string) :=
            mkTask (tb_name body) (or_default (tb_description body) "")
              (tb_deadline body) (is_true (tb_completed body))
              assignedUser assignedUserName in
          let finish (task : Task) :=
            Task_save id task ;;;
            put_tasks_cascade id prevAssigned task ;;;
            ret (sendResponse 200 "Task updated" (DTaskDoc id (Some task))) in
          if truthy_str (tb_assignedUser body) then
            assignedUserDoc <- User_findById (tb_assignedUser body) ;;
            match assignedUserDoc with
            | None =>
                ret (sendResponse 404 "Assigned user not found"
                       (DMissing [tb_assignedUser body]))
            | Some doc =>
                if name_mismatch (tb_assignedUserName body) (u_name doc)
                then ret (sendResponse 400 "assignedUserName does not match user record" DObj)
                else finish (updated (tb_assignedUser body) (u_name doc))
            end
          else finish (updated "" "unassigned")
    end.

(** DELETE /tasks/:id *)
Definition delete_tasks_id (id : string) : M Response :=
  found <- Task_findById id ;;
  match found with
  | None => ret (sendResponse 404 "Task not found" DObj)
  | Some task =>
      (if truthy_str (t_assignedUser task) then
         User_updateOne (t_assignedUser task) (PullPendingTask id) ;;;
         normalizePendingTasksForUser (t_assignedUser task)
       else ret tt) ;;;
      Task_deleteOne id ;;;
      ret (End 204)
  end.

(** ** The list endpoints and their query parameters *)

(** The values [JSON.parse] returns; numbers are kept as integers, no
    handler reads one. *)
#[warnings="-register-all"]
Inductive json :=
| JNull
| JBool (b : bool)
| JNum (n : Z)
| JStr (s : string)
| JArr (l : list json)
| JObj (fields : list (string * json)).

Definition json_truthy (v : json) : bool :=
  match v with
  | JNull => false
  | JBool b => b
  | JNum n => negb (Z.eqb n 0)
  | JStr s => bool_decide (s ≠ "")
  | JArr _ | JObj _ => true
  end.

(** [o[k]] on the fields of an object: the last field of that name. *)
Fixpoint get_field (k : string) (fields : list (string * json)) : option json :=
  match fields with
  | [] => None
  | (k', v) :: rest =>
      match get_field k rest with
      | Some v' => Some v'
      | None => if bool_decide (k' = k) then Some v else None
      end
  end.

(** The object [{ __parseError: true }]. *)
Definition parseError_marker : json := JObj [("__parseError", JBool true)].

(** [v?.__parseError], read for its truth value; [None] is [undefined]. *)
Definition has_parseError (v : option json) : bool :=
  match v with
  | Some (JObj fields) =>
      match get_field "__parseError" fields with
      | Some x => json_truthy x
      | None => false
      end
  | _ => false
  end.

(** The query string of a list endpoint, each parameter given at most once,
    so that its value is a text: [None] when the parameter is absent. *)
Record Query := mkQuery {
  q_where : option string;
  q_sort : option string;
  q_select : option string;
  q_skip : option string;
  q_limit : option string;
  q_count : option string
}.

(** What the GET handlers use of Mongoose.  A call of the query builder
    throws on a value it does not accept, and the promise of [exec] or of
    [countDocuments] can reject; which values are accepted is Mongoose's
    matter, so each call is a parameter, [None] being the throw or the
    rejection.  A query under construction is a value of [Qry]. *)
Record QueryEngine := mkQueryEngine {
  Qry : Type;
  Query_find : json -> option Qry;                 (* Model.find(filter) *)
  Query_select : json -> Qry -> option Qry;        (* q.select(v) *)
  Query_sort : json -> Qry -> option Qry;          (* q.sort(v) *)
  Query_skip : Z -> Qry -> option Qry;             (* q.skip(n) *)
  Query_limit : Z -> Qry -> option Qry;            (* q.limit(n) *)
  Query_exec : forall D : Type,                    (* await q.exec() *)
    Qry -> gmap string D -> option (list (string * D));
  Model_countDocuments : forall D : Type,          (* await Model.countDocuments(filter) *)
    json -> gmap string D -> option nat;
  findById_select : forall D : Type,               (* Model.findById(id).select(v) *)
    json -> option (D -> D)
}.

Section ListEndpoints.

(** [JSON.parse]: [None] when it throws a SyntaxError. *)
Variable JSON_parse : string -> option json.
(** [parseInt]: [None] is [NaN]. *)
Variable parseInt : string -> option Z.
Variable engine : QueryEngine.

Definition parseJSONParam (param : option string) : option json :=
  match param with
  | None => None
  | Some p =>
      if negb (truthy_str p) then None
      else match JSON_parse p with
           | Some v => Some v
           | None => Some parseError_marker
           end
  end.

(** The test the list endpoints make on a parameter: its parsed value has a
    truthy [__parseError]. *)
Definition offending (raw : option string) : bool :=
  has_parseError (parseJSONParam raw).

(** [req.query.skip ? parseInt(req.query.skip) : undefined] kept when it
    is not [NaN]. *)
Definition parse_page (raw : option string) : option Z :=
  match raw with
  | Some p => if truthy_str p then parseInt p else None
  | None => None
  end.

(** [v || {}], and [v] under [if (v)] *)
Definition or_empty (v : option json) : json :=
  match v with
  | Some j => if json_truthy j then j else JObj []
  | None => JObj []
  end.

Definition if_truthy (v : option json) : option json :=
  match v with
  | Some j => if json_truthy j then Some j else None
  | None => None
  end.

(** [if (v) q.f(v)], and [if (!isNaN(n)) q.f(n)] *)
Definition apply_when {A : Type} (v : option A)
    (f : A -> Qry engine -> option (Qry engine)) (q : Qry engine) : option (Qry engine) :=
  match v with
  | Some a => f a q
  | None => Some q
  end.

(** The query the list endpoints build before they test [count]: [None]
    when one of the five calls throws. *)
Definition build_query (where_ select sort : option json) (skip limit : option Z) :
    option (Qry engine) :=
  match Query_find engine (or_empty where_) with
  | None => None
  | Some q =>
  match apply_when (if_truthy select) (Query_select engine) q with
  | None => None
  | Some q =>
  match apply_when (if_truthy sort) (Query_sort engine) q with
  | None => None
  | Some q =>
  match apply_when skip (Query_skip engine) q with
  | None => None
  | Some q => apply_when limit (Query_limit engine) q
  end end end end.

(** A GET handler answers [Some r] when it sends [r], and [None] when it
    throws or a promise it awaits rejects: the handlers have no [try], and
    [asyncHandler] hands the error to Express's [next]. *)
Definition list_endpoint {D : Type} (coll : Store -> gmap string D)
    (cfind ccount : StoreCall) (wrap : list (string * D) -> Data)
    (q : Query) : M (option Response) :=
  let where_ := parseJSONParam (q_where q) in
  if has_parseError where_
  then ret (Some (sendResponse 400 "Invalid JSON in where parameter" DObj))
  else
    let sort := parseJSONParam (q_sort q) in
    if has_parseError sort
    then ret (Some (sendResponse 400 "Invalid JSON in sort parameter" DObj))
    else
      let select := parseJSONParam (q_select q) in
      if has_parseError select
      then ret (Some (sendResponse 400 "Invalid JSON in select parameter" DObj))
      else
        let skip := parse_page (q_skip q) in
        let limit := parse_page (q_limit q) in
        let count := bool_decide (q_count q = Some "true") in
        match build_query where_ select sort skip limit with
        | None => ret None
        | Some query =>
            if count then
              call ccount ;;;
              fun s => ((fun cnt => sendResponse 200 "OK" (DCount cnt))
                          <$> Model_countDocuments engine D (or_empty where_) (coll s), s)
            else
              call cfind ;;;
              fun s => ((fun docs => sendResponse 200 "OK" (wrap docs))
                          <$> Query_exec engine D query (coll s), s)
        end.

(** GET /users *)
Definition get_users_list : Query -> M (option Response) :=
  list_endpoint users CUserFind CUserCountDocuments DUserList.

(** GET /tasks *)
Definition get_tasks_list : Query -> M (option Response) :=
  list_endpoint tasks CTaskFind CTaskCountDocuments DTaskList.

(** GET /users/:id and GET /tasks/:id: [findById] is the query of the
    collection, [wrap] the data of the answer.  With a truthy select value
    the query is [findById(id).select(v)], whose [select] can throw, before
    anything is read; otherwise it is [findById(id)]. *)
Definition get_by_id {D : Type} (findById : string -> M (option D))
    (wrap : string -> option D -> Data)
    (not_found : string) (id : string) (raw : option string) : M (option Response) :=
  let sel := parseJSONParam raw in
  if has_parseError sel
  then ret (Some (sendResponse 400 "Invalid JSON in select parameter" DObj))
  else
    match match if_truthy sel with
          | Some v => findById_select engine D v
          | None => Some (fun doc => doc)
          end with
    | None => ret None
    | Some projection =>
        found <- findById id ;;
        match found with
        | None => ret (Some (sendResponse 404 not_found DObj))
        | Some doc => ret (Some (sendResponse 200 "OK" (wrap id (Some (projection doc)))))
        end
    end.

(** GET /users/:id *)
Definition get_users_id : string -> option string -> M (option Response) :=
  get_by_id User_findById DUserDoc "User not found".

(** GET /tasks/:id *)
Definition get_tasks_id : string -> option string -> M (option Response) :=
  get_by_id Task_findById DTaskDoc "Task not found".

End ListEndpoints.

(** * The vocabulary of the properties *)

(** ** Running a handler *)

(** The answer of a handler run from the store [s]. *)
Definition eval {A} (m : M A) (s : Store) : A := (m s).1.

(** The store a handler leaves when run from the store [s]. *)
Definition exec {A} (m : M A) (s : Store) : Store := (m s).2.

(** The calls a store has seen since an earlier one. *)
Definition calls_since (s s' : Store) (tr : list StoreCall) : Prop :=
  calls s' = calls s ++ tr.

(** ** De-duplication, as the specification words it *)

(** The de-duplicated, first-occurrence-order version of a list, as the
    specification words it: an element stays where it first occurs and its
    later occurrences go. *)
Fixpoint dedup_first (l : list string) : list string :=
  match l with
  | [] => []
  | x :: l' => x :: filter (fun y => y ≠ x) (dedup_first l')
  end.

(** Two lists differ by length or by positional value. *)
Definition differs (l1 l2 : list string) : Prop :=
  length l1 ≠ length l2 ∨ ∃ i, l1 !! i ≠ l2 !! i.

(** The number of times [x] occurs in [l]. *)
Definition occurrences (x : string) (l : list string) : nat :=
  length (filter (fun y => y = x) l).

(** ** What a Mongoose call leaves of a document *)

(** The User after [normalizePendingTasksForUser]. *)
Definition normalize_user (u : User) : User :=
  set_pendingTasks u (dedup_first (u_pendingTasks u)).

(** The User after [{ $pull: { pendingTasks: x } }]. *)
Definition pull (x : string) (u : User) : User :=
  apply_user_update (PullPendingTask x) u.

(** The User after [{ $addToSet: { pendingTasks: x } }]. *)
Definition addToSet (x : string) (u : User) : User :=
  apply_user_update (AddToSetPendingTask x) u.

(** The Task after the [$set] that unassigns it. *)
Definition unassign (t : Task) : Task :=
  apply_task_update (SetAssigned "" "unassigned") t.

(** ** What the cascade of PUT /tasks/:id leaves *)

(** The document PUT /tasks/:id saves. *)
Definition updated_task (body : TaskBody) (assignedUserName : string) : Task :=
  mkTask (tb_name body) (or_default (tb_description body) "") (tb_deadline body)
    (is_true (tb_completed body)) (tb_assignedUser body) assignedUserName.

(** The document POST /tasks saves. *)
Definition created_task (body : TaskBody) (assignedUserName : string) : Task :=
  mkTask (tb_name body) (or_default (tb_description body) "") (tb_deadline body)
    (is_true (tb_completed body)) (tb_assignedUser body) assignedUserName.

(** The pending lists after the cascade of PUT /tasks/:id. *)
Definition cascade_users (id prev : string) (task : Task)
    (us : gmap string User) : gmap string User :=
  let us1 :=
    if truthy_str prev && bool_decide (prev ≠ t_assignedUser task)
    then alter normalize_user prev (alter (pull id) prev us)
    else us in
  if truthy_str (t_assignedUser task)
  then alter normalize_user (t_assignedUser task)
         (alter (if t_completed task then pull id else addToSet id)
            (t_assignedUser task) us1)
  else us1.

(** What the cascade of PUT /tasks/:id leaves of the User [uid]. *)
Definition cascade_users_doc (id prev : string) (task : Task) (uid : string) (u : User) : User :=
  let u1 :=
    if truthy_str prev && bool_decide (prev ≠ t_assignedUser task) && bool_decide (uid = prev)
    then normalize_user (pull id u) else u in
  if truthy_str (t_assignedUser task) && bool_decide (uid = t_assignedUser task)
  then normalize_user ((if t_completed task then pull id else addToSet id) u1)
  else u1.

(** ** What the checks and the cascade of PUT /users/:id leave *)

(** Every listed id is the id of a Task. *)
Definition all_found (ids : list string) (ts : gmap string Task) : Prop :=
  ∀ tid, tid ∈ ids → is_Some (ts !! tid).

(** No listed id is the id of a completed Task. *)
Definition none_completed (ids : list string) (ts : gmap string Task) : Prop :=
  ∀ tid t, tid ∈ ids → ts !! tid = Some t → t_completed t = false.

(** The ids of the found Tasks that are not completed. *)
Definition incomplete_of (pending : list string) (ts : gmap string Task) : list string :=
  (filter (fun kv => negb (t_completed kv.2)) (find_in pending ts)).*1.

(** What the loop over the found Tasks leaves of the User [uid]. *)
Definition loop_user (id uid : string) (found : list (string * Task)) (u : User) : User :=
  foldl (fun u kv =>
           if t_completed kv.2 || negb (truthy_str (t_assignedUser kv.2))
              || bool_decide (t_assignedUser kv.2 = id)
           then u
           else if bool_decide (t_assignedUser kv.2 = uid)
                then normalize_user (pull kv.1 u) else u)
        u found.

(** The Task [kv] of the new pending list is taken from the User [uid]. *)
Definition taken_from (id uid : string) (kv : string * Task) : Prop :=
  t_completed kv.2 = false ∧ t_assignedUser kv.2 ≠ "" ∧
  t_assignedUser kv.2 ≠ id ∧ t_assignedUser kv.2 = uid.

(** What the cascade of PUT /users/:id leaves of the User [uid]. *)
Definition cascade_user (id : string) (pending : list string) (ts : gmap string Task)
    (uid : string) (u : User) : User :=
  if decide (uid = id)
  then normalize_user
         (if bool_decide (length pending ≠ 0)
          then set_pendingTasks u (incomplete_of pending ts) else u)
  else loop_user id uid (find_in pending ts) u.

(** What the cascade of PUT /users/:id leaves of the Task [tid]. *)
Definition cascade_task (id uname : string) (prevPending pending : list string)
    (ts : gmap string Task) (tid : string) (t : Task) : Task :=
  updateMany_doc (AssignedTo id) (SetAssignedUserName uname) tid
    (updateMany_doc (IdInNotCompleted (filter (fun x => x ∉ pending) prevPending))
       (SetAssigned "" "unassigned") tid
       (updateMany_doc (IdIn (incomplete_of pending ts)) (SetAssigned id uname) tid t)).

(** ** The invariants *)

(** Invariant 1 of the data model: the assignee of a Task that is assigned
    and not completed lists the Task's id exactly once. *)
Definition invariant1 (s : Store) : Prop :=
  ∀ tid t, tasks s !! tid = Some t →
    t_assignedUser t ≠ "" → t_completed t = false →
    ∃ u, users s !! t_assignedUser t = Some u ∧ occurrences tid (u_pendingTasks u) = 1.

(** Invariant 2 of the data model: no User lists the id of a Task that is
    completed or unassigned. *)
Definition invariant2 (s : Store) : Prop :=
  ∀ tid t, tasks s !! tid = Some t →
    t_completed t = true ∨ t_assignedUser t = "" →
    ∀ uid u, users s !! uid = Some u → tid ∉ u_pendingTasks u.

(** Invariant 3 of the data model: assignedUserName is the name of the
    assignee, or "unassigned" for an unassigned Task. *)
Definition invariant3 (s : Store) : Prop :=
  ∀ tid t, tasks s !! tid = Some t →
    if bool_decide (t_assignedUser t = "") then t_assignedUserName t = "unassigned"
    else ∃ u, users s !! t_assignedUser t = Some u ∧ t_assignedUserName t = u_name u.

(** Invariant 4 of the data model: no pending list repeats an id. *)
Definition invariant4 (s : Store) : Prop :=
  ∀ uid u, users s !! uid = Some u → NoDup (u_pendingTasks u).

(** Invariant 5 of the data model: the assignee of an assigned Task exists. *)
Definition invariant5 (s : Store) : Prop :=
  ∀ tid t, tasks s !! tid = Some t → t_assignedUser t ≠ "" →
    is_Some (users s !! t_assignedUser t).

(** The store the handlers keep: no User has the empty [_id]; no pending
    list repeats an id; a pending list holds only ids of Tasks that are
    assigned to its User and not completed; and the assignee of a Task that
    is assigned and not completed lists it. *)
Record Consistent (s : Store) : Prop := mkConsistent {
  cons_ids : users s !! "" = None;
  cons_nodup : ∀ uid u, users s !! uid = Some u → NoDup (u_pendingTasks u);
  cons_sound : ∀ uid u tid,
    users s !! uid = Some u → tid ∈ u_pendingTasks u →
    ∃ t, tasks s !! tid = Some t ∧ t_assignedUser t = uid ∧ t_completed t = false;
  cons_complete : ∀ tid t,
    tasks s !! tid = Some t → t_completed t = false → t_assignedUser t ≠ "" →
    ∃ u, users s !! t_assignedUser t = Some u ∧ tid ∈ u_pendingTasks u
}.

(** A decidable test of [Consistent]. *)
Definition consistent_b (s : Store) : bool :=
  bool_decide (users s !! "" = None)
  && forallb (fun kv : string * User =>
       bool_decide (NoDup (u_pendingTasks kv.2))
       && forallb (fun tid =>
            match tasks s !! tid with
            | Some t => bool_decide (t_assignedUser t = kv.1) && negb (t_completed t)
            | None => false
            end) (u_pendingTasks kv.2))
       (map_to_list (users s))
  && forallb (fun kv : string * Task =>
       t_completed kv.2 || bool_decide (t_assignedUser kv.2 = "")
       || match users s !! t_assignedUser kv.2 with
          | Some u => bool_decide (kv.1 ∈ u_pendingTasks u)
          | None => false
          end)
       (map_to_list (tasks s)).

(** ** The mutating operations *)

(** The documented mutating operations. *)
Inductive Operation :=
| OpUserCreate (oid : string) (body : UserBody)
| OpUserUpdate (id : string) (body : UserBody)
| OpUserDelete (id : string)
| OpTaskCreate (oid : string) (body : TaskBody)
| OpTaskUpdate (id : string) (body : TaskBody)
| OpTaskDelete (id : string).

(** The handler of an operation. *)
Definition run (op : Operation) : M Response :=
  match op with
  | OpUserCreate oid body => post_users oid body
  | OpUserUpdate id body => put_users_id id body
  | OpUserDelete id => delete_users_id id
  | OpTaskCreate oid body => post_tasks oid body
  | OpTaskUpdate id body => put_tasks_id id body
  | OpTaskDelete id => delete_tasks_id id
  end.

(** The operation completed successfully: a 2xx answer. *)
Definition succeeded (r : Response) : Prop :=
  200 ≤ status_of r < 300.

(** Mongoose gives a new User a non-empty [_id]. *)
Definition well_formed (op : Operation) : Prop :=
  match op with
  | OpUserCreate oid _ => oid ≠ ""
  | _ => True
  end.

(** ** Sequences of operations *)

(** The store with no document. *)
Definition empty_store : Store := mkStore ∅ ∅ [].

(** The store after the operations of [ops], run one after the other. *)
Definition run_all (ops : list Operation) (s : Store) : Store :=
  foldl (fun s op => exec (run op) s) s ops.

(** Every stored User has a name and an email that holds an [@]. *)
Definition users_valid (s : Store) : Prop :=
  ∀ id u, users s !! id = Some u →
    u_name u ≠ "" ∧ includes_char "@"%char (u_email u) = true.

(** The update [g] of a User keeps its name and email. *)
Definition keeps_identity (g : User → User) : Prop :=
  ∀ u, u_name (g u) = u_name u ∧ u_email (g u) = u_email u.

(** ** The stores and requests of the worked instances *)

(** Two Users and three Tasks. *)
Definition ann : User := mkUser "Ann" "ann@example.org" ["t1"].
Definition bob : User := mkUser "Bob" "bob@example.org" [].
Definition task1 : Task := mkTask "Write" "" "2025-01-01" false "u1" "Ann".
Definition task2 : Task := mkTask "Read" "" "2025-02-01" false "" "unassigned".
Definition task3 : Task := mkTask "Done" "" "2025-03-01" true "u1" "Ann".

(** Ann holds [t1]; [t2] is unassigned; [t3] is completed. *)
Definition store0 : Store :=
  mkStore (<["u1" := ann]> (<["u2" := bob]> ∅))
          (<["t1" := task1]> (<["t2" := task2]> (<["t3" := task3]> ∅)))
          [].

(** A User whose stored list repeats [t1]. *)
Definition dee : User := mkUser "Dee" "dee@example.org" ["t1"; "t2"; "t1"].
Definition store_dup : Store := mkStore (<["u3" := dee]> ∅) ∅ [].

(** PUT /tasks/t1 bodies that name Bob as assignee. *)
Definition move_to_bob (completed : jsval) (assignedUserName : option string) : TaskBody :=
  mkTaskBody "Write" "" "2025-01-01" completed "u2" assignedUserName.

(** A POST /tasks body for Bob. *)
Definition new_for_bob : TaskBody :=
  mkTaskBody "Plan" "" "2025-05-05" JsUndefined "u2" None.

(** A PUT /tasks/:id body that completes that Task and keeps Bob. *)
Definition complete_new : TaskBody :=
  mkTaskBody "Plan" "" "2025-05-05" (JsBool true) "u2" None.

(** PUT /users/u1 bodies that keep the name and email of Ann. *)
Definition ann_with (pendingTasks : jsval) : UserBody :=
  mkUserBody "Ann" "ann@example.org" pendingTasks.

(** A stand-in for [JSON.parse] that knows the empty object alone and
    throws on every other text. *)
Definition parse_empty_object (p : string) : option json :=
  if bool_decide (p = "{}") then Some (JObj []) else None.

(** A stand-in for Mongoose that accepts every value, finds every document
    and projects nothing away. *)
Definition plain_engine : QueryEngine :=
  mkQueryEngine unit (fun _ => Some tt)
    (fun _ q => Some q) (fun _ q => Some q) (fun _ q => Some q) (fun _ q => Some q)
    (fun D _ m => Some (map_to_list m)) (fun D _ m => Some (size m))
    (fun D _ => Some (fun doc => doc)).

(** A stand-in for Mongoose that refuses a number or a boolean as a select
    or a sort value, and is [plain_engine] otherwise. *)
Definition accepted (v : json) : bool :=
  match v with
  | JNum _ | JBool _ => false
  | _ => true
  end.

Definition strict_engine : QueryEngine :=
  mkQueryEngine unit (fun _ => Some tt)
    (fun v q => if accepted v then Some q else None)
    (fun v q => if accepted v then Some q else None)
    (fun _ q => Some q) (fun _ q => Some q)
    (fun D _ m => Some (map_to_list m)) (fun D _ m => Some (size m))
    (fun D v => if accepted v then Some (fun doc => doc) else None).

(** A stand-in for [JSON.parse] that knows the empty object and the number
    5, and throws on every other text. *)
Definition parse_small (p : string) : option json :=
  if bool_decide (p = "{}") then Some (JObj [])
  else if bool_decide (p = "5") then Some (JNum 5)
  else None.

(** A query whose sort value is not JSON. *)
Definition broken_sort : Query :=
  mkQuery (Some "{}") (Some "{oops") None None None None.

(** Two Users who both list the Task [t1], which is assigned to Vic. *)
Definition vic : User := mkUser "Vic" "vic@example.org" ["t1"].
Definition wes : User := mkUser "Wes" "wes@example.org" ["t1"].
Definition shared_task : Task := mkTask "Write" "" "2025-01-01" false "v1" "Vic".

(** Vic's Task [t1] is also on Wes's list. *)
Definition store_shared : Store :=
  mkStore (<["v1" := vic]> (<["w1" := wes]> ∅)) (<["t1" := shared_task]> ∅) [].

(** A PUT /tasks/t1 body that completes the Task and keeps Vic. *)
Definition complete_it : TaskBody :=
  mkTaskBody "Write" "" "2025-01-01" (JsBool true) "v1" None.

(** A User, a Task for it, and the deletion of the User. *)
Definition sample_ops : list Operation :=
  [OpUserCreate "u1" (mkUserBody "Ann" "ann@example.org" JsUndefined);
   OpTaskCreate "t1" (mkTaskBody "Write" "" "2025-01-01" JsUndefined "u1" None);
   OpUserDelete "u1"].

(** PUT /users/u2 bodies that keep the name and email of Bob. *)
Definition bob_with (pendingTasks : jsval) : UserBody :=
  mkUserBody "Bob" "bob@example.org" pendingTasks.

(** A PUT /tasks/t1 body that names no assignee, and supplies a name. *)
Definition release_it : TaskBody :=
  mkTaskBody "Write" "" "2025-01-01" JsUndefined "" (Some "Ann").

(** A POST /tasks body for Bob that supplies a name. *)
Definition new_for_bob_named (assignedUserName : string) : TaskBody :=
  mkTaskBody "Plan" "" "2025-05-05" JsUndefined "u2" (Some assignedUserName).

(** A POST /tasks body that names no assignee, and supplies a name. *)
Definition new_for_nobody : TaskBody :=
  mkTaskBody "Plan" "" "2025-05-05" JsUndefined "" (Some "Zed").

(** A POST /tasks body that names a User that does not exist. *)
Definition new_for_stranger : TaskBody :=
  mkTaskBody "Plan" "" "2025-05-05" JsUndefined "u9" None.

(** A POST /users body. *)
Definition new_cal : UserBody :=
  mkUserBody "Cal" "cal@example.org" (JsArr []).

(** * Tactics *)

Arguments apply_user_update : simpl never.
Arguments apply_task_update : simpl never.
Arguments updateMany_doc : simpl never.
Arguments updateMany_map : simpl never.
Arguments find_in : simpl never.
Arguments normalizePendingTasksForUser : simpl never.
Arguments name_mismatch : simpl never.
Arguments or_default : simpl never.

(** Unfolds the monad's plumbing and the Mongoose calls at a store. *)
Ltac mrun :=
  unfold User_findById, User_updateOne, User_deleteOne, User_save, User_save_new,
    Task_findById, Task_find_in, Task_save, Task_save_new, Task_updateMany,
    Task_deleteOne, bind, ret, call, get_users, get_tasks, put_users, put_tasks;
  cbn.

Create Rewrite HintDb run.

(** Runs a handler as far as its next test. *)
Ltac mstep := simpl; repeat (progress autorewrite with run; simpl).

Ltac status_cases :=
  repeat first
    [ progress mstep
    | match goal with
      | |- context [match ?x with _ => _ end] => destruct x eqn:?
      end ];
  unfold succeeded; simpl; intros; first [done | lia].

Ltac by_computation :=
  match goal with |- ?P => apply (bool_decide_unpack P) end; vm_compute; exact I.

(** Runs a handler along each of its branches, and closes the branch with
    its status and, for a failure, the collections unchanged. *)
Ltac effect_cases :=
  repeat first
    [ progress mstep
    | match goal with
      | |- context [if ?x then _ else _] => destruct x eqn:?
      | |- context [match ?x with _ => _ end] => destruct x eqn:?
      end ];
  first [ left; reflexivity | right; split; [|done]; simpl; auto ].

(** * Properties *)

(** ** De-duplication *)

Lemma filter_all_id {A} (P : A → Prop) `{!∀ x, Decision (P x)} (l : list A) :
  (∀ x, x ∈ l → P x) → filter P l = l.
Proof.
  induction l as [|a l IH]; intros Hall; [done|].
  rewrite filter_cons_True by (apply Hall; left).
  f_equal. apply IH. intros x Hx. apply Hall. by right.
Qed.

Lemma foldl_Set_add (acc l : list string) :
  foldl Set_add acc l = acc ++ filter (fun y => y ∉ acc) (dedup_first l).
Proof.
  revert acc. induction l as [|x l IH]; intros acc; simpl.
  - by rewrite app_nil_r.
  - rewrite IH. unfold Set_add. case_bool_decide as Hx.
    + rewrite filter_cons_False by (intros Hn; by apply Hn).
      f_equal. rewrite list_filter_filter. apply list_filter_iff.
      intros y. simpl. split; [|tauto]. intros Hy. split; [done|]. by intros ->.
    + rewrite filter_cons_True by done.
      rewrite <- app_assoc. simpl. do 2 f_equal.
      rewrite list_filter_filter. apply list_filter_iff.
      intros y. simpl. rewrite elem_of_app, list_elem_of_singleton. tauto.
Qed.

Lemma Array_from_Set_dedup l : Array_from_Set l = dedup_first l.
Proof.
  unfold Array_from_Set. rewrite foldl_Set_add. simpl.
  apply filter_all_id. intros y _. apply not_elem_of_nil.
Qed.

Lemma elem_of_dedup_first x l : x ∈ dedup_first l ↔ x ∈ l.
Proof.
  induction l as [|y l IH]; simpl; [done|].
  rewrite !elem_of_cons, list_elem_of_filter, IH.
  destruct (decide (x = y)); tauto.
Qed.

Lemma NoDup_dedup_first l : NoDup (dedup_first l).
Proof.
  induction l as [|y l IH]; simpl; [constructor|].
  constructor; [|by apply NoDup_filter].
  rewrite list_elem_of_filter. tauto.
Qed.

Lemma dedup_first_NoDup l : NoDup l → dedup_first l = l.
Proof.
  induction 1 as [|x l Hx _ IH]; simpl; [done|].
  rewrite IH. f_equal. apply filter_all_id.
  intros y Hy ->. done.
Qed.

Lemma dedup_first_fixed l : dedup_first l = l ↔ NoDup l.
Proof.
  split; [|apply dedup_first_NoDup].
  intros <-. apply NoDup_dedup_first.
Qed.

Lemma dedup_first_idemp l : dedup_first (dedup_first l) = dedup_first l.
Proof. apply dedup_first_NoDup, NoDup_dedup_first. Qed.

Lemma differs_iff (l1 l2 : list string) : differs l1 l2 ↔ l1 ≠ l2.
Proof.
  split.
  - intros [Hl | [i Hi]] ->; [by apply Hl | by apply Hi].
  - revert l2. induction l1 as [|a l1 IH]; intros [|b l2] Hne;
      try done; try (left; simpl; lia).
    destruct (decide (a = b)) as [->|Hab].
    + destruct (IH l2) as [Hlen | [i Hi]]; [congruence|..].
      * left. simpl. lia.
      * right. by exists (S i).
    + right. exists 0. simpl. congruence.
Qed.

Lemma every_from_succ (p : string → nat → bool) i l :
  every_from p (S i) l = every_from (fun v j => p v (S j)) i l.
Proof.
  revert i. induction l as [|v l IH]; intros i; simpl; [done|].
  by rewrite IH.
Qed.

(** The comparison [same] of the normalizer is equality of the two lists. *)
Lemma same_spec (l' l : list string) :
  Nat.eqb (length l') (length l) &&
  every (fun v i => String.eqb v (String_at l i)) l' = true ↔ l' = l.
Proof.
  rewrite andb_true_iff, Nat.eqb_eq. unfold every.
  revert l. induction l' as [|v l' IH]; intros [|w l]; simpl;
    try (split; [intros [? ?]|intros ?]; done).
  rewrite every_from_succ. unfold String_at at 1. simpl.
  rewrite andb_true_iff, String.eqb_eq.
  change (fun v0 j => (v0 =? String_at (w :: l) (S j))%string)
    with (fun v0 j => (v0 =? String_at l j)%string).
  specialize (IH l). split.
  - intros (Hlen & -> & Hev). f_equal. apply IH. split; [lia | done].
  - intros [= -> ->]. split; [done|]. split; [done|]. apply IH. done.
Qed.

(** ** Running a handler *)

Lemma bind_run {A B} (m : M A) (k : A → M B) (s : Store) :
  bind m k s = k (eval m s) (exec m s).
Proof. unfold bind, eval, exec. by destruct (m s). Qed.

(** ** The normalizer *)

Lemma set_pendingTasks_same (u : User) : set_pendingTasks u (u_pendingTasks u) = u.
Proof. by destruct u. Qed.

Lemma normalize_run_missing (s : Store) (uid : string) :
  users s !! uid = None →
  normalizePendingTasksForUser uid s =
    (tt, mkStore (users s) (tasks s) (calls s ++ [CUserFindById uid])).
Proof.
  intros Hu. unfold normalizePendingTasksForUser, User_findById.
  cbn. rewrite Hu. done.
Qed.

Lemma normalize_run_same (s : Store) (uid : string) (u : User) :
  users s !! uid = Some u →
  dedup_first (u_pendingTasks u) = u_pendingTasks u →
  normalizePendingTasksForUser uid s =
    (tt, mkStore (users s) (tasks s) (calls s ++ [CUserFindById uid])).
Proof.
  intros Hu Hsame. unfold normalizePendingTasksForUser, User_findById.
  cbn. rewrite Hu. rewrite Array_from_Set_dedup.
  rewrite (proj2 (same_spec _ _) Hsame). done.
Qed.

Lemma normalize_run_changed (s : Store) (uid : string) (u : User) :
  users s !! uid = Some u →
  dedup_first (u_pendingTasks u) ≠ u_pendingTasks u →
  normalizePendingTasksForUser uid s =
    (tt, mkStore (<[uid := normalize_user u]> (users s)) (tasks s)
           (calls s ++ [CUserFindById uid;
                        CUserUpdateOne uid (SetPendingTasks (dedup_first (u_pendingTasks u)))])).
Proof.
  intros Hu Hdiff. unfold normalizePendingTasksForUser, User_findById.
  cbn. rewrite Hu. rewrite Array_from_Set_dedup.
  destruct (_ && _) eqn:Hsame.
  { apply same_spec in Hsame. done. }
  mrun. rewrite <- app_assoc. simpl. do 2 f_equal.
  apply map_eq. intros k. rewrite lookup_alter, lookup_insert.
  case_decide; subst; [by rewrite Hu|done].
Qed.

Lemma users_normalize (s : Store) (uid : string) :
  users (exec (normalizePendingTasksForUser uid) s) = alter normalize_user uid (users s).
Proof.
  unfold exec. destruct (users s !! uid) as [u|] eqn:Hu.
  - destruct (decide (dedup_first (u_pendingTasks u) = u_pendingTasks u)) as [Hs|Hd].
    + rewrite (normalize_run_same _ _ _ Hu Hs). simpl. symmetry.
      apply alter_id. intros x Hx. rewrite Hu in Hx. injection Hx as <-.
      unfold normalize_user. rewrite Hs. apply set_pendingTasks_same.
    + rewrite (normalize_run_changed _ _ _ Hu Hd). simpl.
      apply map_eq. intros k. rewrite lookup_alter, lookup_insert.
      case_decide; subst; [by rewrite Hu|done].
  - rewrite (normalize_run_missing _ _ Hu). simpl. symmetry.
    apply alter_id. intros x Hx. by rewrite Hu in Hx.
Qed.

Lemma tasks_normalize (s : Store) (uid : string) :
  tasks (exec (normalizePendingTasksForUser uid) s) = tasks s.
Proof.
  unfold exec. destruct (users s !! uid) as [u|] eqn:Hu.
  - destruct (decide (dedup_first (u_pendingTasks u) = u_pendingTasks u)) as [Hs|Hd].
    + by rewrite (normalize_run_same _ _ _ Hu Hs).
    + by rewrite (normalize_run_changed _ _ _ Hu Hd).
  - by rewrite (normalize_run_missing _ _ Hu).
Qed.

(** C6: for an existing User the normalizer leaves in the store the
    de-duplicated, first-occurrence-order version of the stored pendingTasks
    (which is what [Array.from(new Set(..))] computes); it calls
    [User.updateOne] exactly when that list differs from the stored one by
    length or at some position, and only reads the User otherwise; on a list
    without duplicates it writes nothing; and a second call right after the
    first writes nothing and leaves both collections as they are. *)
Theorem normalize_writes_iff_changed (s : Store) (uid : string) (u : User) :
  users s !! uid = Some u →
  let stored := u_pendingTasks u in
  let s1 := exec (normalizePendingTasksForUser uid) s in
  let s2 := exec (normalizePendingTasksForUser uid) s1 in
  Array_from_Set stored = dedup_first stored
  ∧ users s1 = <[uid := set_pendingTasks u (dedup_first stored)]> (users s)
  ∧ tasks s1 = tasks s
  ∧ (differs (dedup_first stored) stored →
       calls_since s s1
         [CUserFindById uid;
          CUserUpdateOne uid (SetPendingTasks (dedup_first stored))])
  ∧ (¬ differs (dedup_first stored) stored →
       calls_since s s1 [CUserFindById uid] ∧ users s1 = users s)
  ∧ (NoDup stored → calls_since s s1 [CUserFindById uid] ∧ users s1 = users s)
  ∧ (calls_since s1 s2 [CUserFindById uid] ∧ users s2 = users s1 ∧ tasks s2 = tasks s1).
Proof.
  intros Hu stored s1 s2.
  assert (Hs1 : users s1 = <[uid := set_pendingTasks u (dedup_first stored)]> (users s)).
  { subst s1. rewrite users_normalize. apply map_eq. intros k.
    rewrite lookup_alter, lookup_insert. case_decide; subst; [by rewrite Hu|done]. }
  assert (Hsame : dedup_first stored = stored →
                  calls_since s s1 [CUserFindById uid] ∧ users s1 = users s).
  { intros Heq. subst s1. unfold calls_since, exec.
    by rewrite (normalize_run_same _ _ _ Hu Heq). }
  split; [apply Array_from_Set_dedup|].
  split; [done|].
  split; [apply tasks_normalize|].
  split.
  { intros Hd%differs_iff. subst s1. unfold calls_since, exec.
    by rewrite (normalize_run_changed _ _ _ Hu Hd). }
  split.
  { intros Hnd. apply Hsame.
    destruct (decide (dedup_first stored = stored)) as [|Hne]; [done|].
    by apply differs_iff in Hne. }
  split.
  { intros Hnd. by apply Hsame, dedup_first_NoDup. }
  assert (Hu1 : users s1 !! uid = Some (set_pendingTasks u (dedup_first stored))).
  { rewrite Hs1. apply lookup_insert_eq. }
  subst s2. unfold calls_since, exec.
  rewrite (normalize_run_same _ _ _ Hu1); [done|].
  simpl. apply dedup_first_idemp.
Qed.

Lemma calls_normalize (s : Store) (uid : string) :
  ∃ tr, calls (exec (normalizePendingTasksForUser uid) s) =
          calls s ++ CUserFindById uid :: tr
        ∧ (tr = [] ∨ ∃ l, tr = [CUserUpdateOne uid (SetPendingTasks l)]).
Proof.
  unfold exec. destruct (users s !! uid) as [u|] eqn:Hu.
  - destruct (decide (dedup_first (u_pendingTasks u) = u_pendingTasks u)) as [Hs|Hd].
    + rewrite (normalize_run_same _ _ _ Hu Hs). exists []. auto.
    + rewrite (normalize_run_changed _ _ _ Hu Hd). eexists. split; [done|]. eauto.
  - rewrite (normalize_run_missing _ _ Hu). exists []. auto.
Qed.

(** ** Running the Mongoose calls *)

Lemma eval_bind {A B} (m : M A) (k : A → M B) (s : Store) :
  eval (bind m k) s = eval (k (eval m s)) (exec m s).
Proof. unfold eval at 1. by rewrite bind_run. Qed.

Lemma exec_bind {A B} (m : M A) (k : A → M B) (s : Store) :
  exec (bind m k) s = exec (k (eval m s)) (exec m s).
Proof. unfold exec at 1. by rewrite bind_run. Qed.

Lemma eval_ret {A} (a : A) (s : Store) : eval (ret a) s = a.
Proof. done. Qed.

Lemma exec_ret {A} (a : A) (s : Store) : exec (ret a) s = s.
Proof. done. Qed.

Lemma eval_User_findById id s : eval (User_findById id) s = users s !! id.
Proof. done. Qed.

Lemma exec_User_findById id s :
  exec (User_findById id) s =
    mkStore (users s) (tasks s) (calls s ++ [CUserFindById id]).
Proof. done. Qed.

Lemma eval_Task_findById id s : eval (Task_findById id) s = tasks s !! id.
Proof. done. Qed.

Lemma exec_Task_findById id s :
  exec (Task_findById id) s =
    mkStore (users s) (tasks s) (calls s ++ [CTaskFindById id]).
Proof. done. Qed.

Lemma eval_Task_find_in ids s :
  eval (Task_find_in ids) s = find_in ids (tasks s).
Proof. done. Qed.

Lemma exec_Task_find_in ids s :
  exec (Task_find_in ids) s =
    mkStore (users s) (tasks s) (calls s ++ [CTaskFindIn ids]).
Proof. done. Qed.

Lemma exec_User_updateOne id upd s :
  exec (User_updateOne id upd) s =
    mkStore (alter (apply_user_update upd) id (users s)) (tasks s)
      (calls s ++ [CUserUpdateOne id upd]).
Proof. done. Qed.

Lemma exec_User_deleteOne id s :
  exec (User_deleteOne id) s =
    mkStore (delete id (users s)) (tasks s) (calls s ++ [CUserDeleteOne id]).
Proof. done. Qed.

Lemma exec_Task_updateMany flt upd s :
  exec (Task_updateMany flt upd) s =
    mkStore (users s) (updateMany_map flt upd (tasks s))
      (calls s ++ [CTaskUpdateMany flt upd]).
Proof. done. Qed.

Lemma exec_Task_save id t s :
  exec (Task_save id t) s =
    mkStore (users s) (<[id := t]> (tasks s)) (calls s ++ [CTaskSave id]).
Proof. done. Qed.

Lemma exec_Task_deleteOne id s :
  exec (Task_deleteOne id) s =
    mkStore (users s) (delete id (tasks s)) (calls s ++ [CTaskDeleteOne id]).
Proof. done. Qed.

Lemma eval_User_save id u s :
  eval (User_save id u) s =
    if email_taken id (u_email u) (users s) then DuplicateKey else Saved.
Proof. unfold eval. mrun. by destruct (email_taken _ _ _). Qed.

Lemma exec_User_save id u s :
  exec (User_save id u) s =
    mkStore (if email_taken id (u_email u) (users s) then users s
             else <[id := u]> (users s))
      (tasks s) (calls s ++ [CUserSave id]).
Proof. unfold exec. mrun. by destruct (email_taken _ _ _). Qed.

Lemma eval_User_save_new id u s :
  eval (User_save_new id u) s =
    if bool_decide (is_Some (users s !! id)) || email_taken id (u_email u) (users s)
    then DuplicateKey else Saved.
Proof. unfold eval. mrun. by destruct (_ || _). Qed.

Lemma exec_User_save_new id u s :
  exec (User_save_new id u) s =
    mkStore (if bool_decide (is_Some (users s !! id)) || email_taken id (u_email u) (users s)
             then users s else <[id := u]> (users s))
      (tasks s) (calls s ++ [CUserSave id]).
Proof. unfold exec. mrun. by destruct (_ || _). Qed.

Lemma eval_Task_save_new id t s :
  eval (Task_save_new id t) s =
    if bool_decide (is_Some (tasks s !! id)) then DuplicateKey else Saved.
Proof. unfold eval. mrun. by destruct (bool_decide _). Qed.

Lemma exec_Task_save_new id t s :
  exec (Task_save_new id t) s =
    mkStore (users s)
      (if bool_decide (is_Some (tasks s !! id)) then tasks s else <[id := t]> (tasks s))
      (calls s ++ [CTaskSave id]).
Proof. unfold exec. mrun. by destruct (bool_decide _). Qed.

#[global] Hint Rewrite @eval_bind @exec_bind @eval_ret @exec_ret
  eval_User_findById exec_User_findById eval_Task_findById exec_Task_findById
  eval_Task_find_in exec_Task_find_in exec_User_updateOne exec_User_deleteOne
  exec_Task_updateMany exec_Task_save exec_Task_deleteOne
  eval_User_save exec_User_save eval_User_save_new exec_User_save_new
  eval_Task_save_new exec_Task_save_new : run.

(** ** What the Mongoose calls do to a document *)

Lemma lookup_updateMany_map flt upd (ts : gmap string Task) (id : string) :
  updateMany_map flt upd ts !! id = updateMany_doc flt upd id <$> ts !! id.
Proof.
  unfold updateMany_map. rewrite map_lookup_imap.
  by destruct (ts !! id).
Qed.

Lemma elem_of_pull (x y : string) (u : User) :
  y ∈ u_pendingTasks (pull x u) ↔ y ≠ x ∧ y ∈ u_pendingTasks u.
Proof. unfold pull, apply_user_update. simpl. by rewrite list_elem_of_filter. Qed.

Lemma elem_of_addToSet (x y : string) (u : User) :
  y ∈ u_pendingTasks (addToSet x u) ↔ y = x ∨ y ∈ u_pendingTasks u.
Proof.
  unfold addToSet, apply_user_update. simpl. case_bool_decide as Hx.
  - split; [auto|]. intros [->|]; done.
  - rewrite elem_of_app, list_elem_of_singleton. tauto.
Qed.

Lemma elem_of_normalize_user (y : string) (u : User) :
  y ∈ u_pendingTasks (normalize_user u) ↔ y ∈ u_pendingTasks u.
Proof. unfold normalize_user. simpl. apply elem_of_dedup_first. Qed.

Lemma NoDup_normalize_user (u : User) : NoDup (u_pendingTasks (normalize_user u)).
Proof. unfold normalize_user. simpl. apply NoDup_dedup_first. Qed.

(** ** Deletion *)

(** C5: DELETE /users/:id of an existing User answers an empty 204, sets
    assignedUser to the empty string and assignedUserName to "unassigned" on
    exactly the Tasks whose id is in the User's pendingTasks, with one
    [Task.updateMany] that comes before [User.deleteOne], and removes the
    User; DELETE /tasks/:id of an existing assigned Task answers an empty
    204, pulls the Task's id from the assignee's pendingTasks (the
    [User.updateOne] comes before [Task.deleteOne]), so that the assignee, if
    it exists, no longer lists the id, and removes the Task. *)
Theorem delete_cascades :
  (∀ (s : Store) (id : string) (u : User),
     users s !! id = Some u →
     let r := eval (delete_users_id id) s in
     let s' := exec (delete_users_id id) s in
     r = End 204
     ∧ users s' = delete id (users s)
     ∧ (∀ tid, tasks s' !! tid =
          (fun t => if decide (tid ∈ u_pendingTasks u) then unassign t else t)
            <$> tasks s !! tid)
     ∧ (∀ t, t_assignedUser (unassign t) = "" ∧
             t_assignedUserName (unassign t) = "unassigned")
     ∧ calls_since s s'
         (CUserFindById id ::
          (if decide (u_pendingTasks u = []) then []
           else [CTaskUpdateMany (IdIn (u_pendingTasks u)) (SetAssigned "" "unassigned")])
          ++ [CUserDeleteOne id]))
  ∧
  (∀ (s : Store) (tid : string) (t : Task),
     tasks s !! tid = Some t →
     t_assignedUser t ≠ "" →
     let r := eval (delete_tasks_id tid) s in
     let s' := exec (delete_tasks_id tid) s in
     r = End 204
     ∧ tasks s' = delete tid (tasks s)
     ∧ (∀ u', users s' !! t_assignedUser t = Some u' → tid ∉ u_pendingTasks u')
     ∧ (∀ uid, uid ≠ t_assignedUser t → users s' !! uid = users s !! uid)
     ∧ (∃ tr, calls_since s s'
                ([CTaskFindById tid;
                  CUserUpdateOne (t_assignedUser t) (PullPendingTask tid)]
                 ++ tr ++ [CTaskDeleteOne tid])
              ∧ Forall (fun c => c ≠ CTaskDeleteOne tid) tr)).
Proof.
  split.
  - intros s id u Hu r s'. subst r s'.
    unfold calls_since, delete_users_id. mstep. rewrite Hu.
    case_bool_decide as Hlen; mstep.
    + split; [done|]. split; [done|]. split.
      { intros tid.
        rewrite lookup_updateMany_map. destruct (tasks s !! tid) as [t|]; [|done].
        simpl. unfold updateMany_doc, unassign. simpl. f_equal.
        case_bool_decide; case_decide; done. }
      split; [done|].
      rewrite decide_False by (intros Hn; by rewrite Hn in Hlen).
      by rewrite <- !app_assoc.
    + assert (u_pendingTasks u = []) as Hnil.
      { by apply nil_length_inv. }
      split; [done|]. split; [done|]. split.
      { intros tid. rewrite Hnil. by destruct (tasks s !! tid). }
      split; [done|].
      rewrite decide_True by done. by rewrite <- !app_assoc.
  - intros s tid t Ht Ha r s'. subst r s'.
    unfold calls_since, delete_tasks_id. mstep. rewrite Ht.
    unfold truthy_str. rewrite bool_decide_eq_true_2 by done. mstep.
    set (s1 := mkStore _ _ _).
    pose proof (users_normalize s1 (t_assignedUser t)) as Hus.
    pose proof (tasks_normalize s1 (t_assignedUser t)) as Hts.
    destruct (calls_normalize s1 (t_assignedUser t)) as (tr & Hcs & Htr).
    set (s2 := exec (normalizePendingTasksForUser (t_assignedUser t)) s1) in *.
    split; [done|]. split; [by rewrite Hts|]. split.
    { intros u'. rewrite Hus. subst s1. simpl.
      rewrite !lookup_alter_eq. destruct (users s !! t_assignedUser t) as [u0|]; [|done].
      simpl. intros [= <-]. rewrite elem_of_normalize_user.
      fold (pull tid u0). rewrite elem_of_pull. tauto. }
    split.
    { intros uid Hne. rewrite Hus. subst s1. simpl.
      by rewrite !lookup_alter_ne. }
    exists (CUserFindById (t_assignedUser t) :: tr). split.
    { rewrite Hcs. subst s1. simpl. rewrite <- !app_assoc. done. }
    constructor; [done|]. destruct Htr as [->|[l ->]]; repeat constructor; done.
Qed.

(** ** Updating a Task *)

#[global] Hint Rewrite users_normalize tasks_normalize : run.

Lemma or_default_empty (x : string) : or_default x "" = x.
Proof. unfold or_default, truthy_str. by case_bool_decide as H. Qed.

Lemma users_put_tasks_cascade (id prev : string) (task : Task) (s : Store) :
  users (exec (put_tasks_cascade id prev task) s) = cascade_users id prev task (users s).
Proof.
  unfold put_tasks_cascade, cascade_users. rewrite or_default_empty.
  mstep. destruct (truthy_str prev && _); mstep;
    destruct (truthy_str (t_assignedUser task)); mstep; try done;
    destruct (t_completed task); mstep; done.
Qed.

Lemma tasks_put_tasks_cascade (id prev : string) (task : Task) (s : Store) :
  tasks (exec (put_tasks_cascade id prev task) s) = tasks s.
Proof.
  unfold put_tasks_cascade. mstep.
  destruct (truthy_str prev && _); mstep;
    destruct (truthy_str (t_assignedUser task)); mstep; try done;
    destruct (t_completed task); mstep; done.
Qed.

#[global] Hint Rewrite users_put_tasks_cascade tasks_put_tasks_cascade : run.

(** A PUT /tasks/:id that answers 200 found the Task not completed, resolved
    the assignee if one was named, saved the new document and ran the
    cascade. *)
Lemma put_tasks_id_ok (s : Store) (id : string) (body : TaskBody) :
  status_of (eval (put_tasks_id id body) s) = 200 →
  ∃ task uname,
    tasks s !! id = Some task ∧ t_completed task = false ∧
    (if truthy_str (tb_assignedUser body)
     then ∃ doc, users s !! tb_assignedUser body = Some doc ∧ uname = u_name doc
               ∧ name_mismatch (tb_assignedUserName body) (u_name doc) = false
     else uname = "unassigned") ∧
    tasks (exec (put_tasks_id id body) s) = <[id := updated_task body uname]> (tasks s) ∧
    users (exec (put_tasks_id id body) s) =
      cascade_users id (t_assignedUser task) (updated_task body uname) (users s).
Proof.
  unfold put_tasks_id.
  destruct (negb (truthy_str (tb_name body)) || negb (truthy_str (tb_deadline body)));
    [mstep; done|].
  mstep. destruct (tasks s !! id) as [task|] eqn:Ht; [|mstep; done].
  destruct (t_completed task) eqn:Hc; [mstep; done|].
  unfold updated_task. rewrite !or_default_empty.
  destruct (truthy_str (tb_assignedUser body)) eqn:Ha; mstep.
  - destruct (users s !! tb_assignedUser body) as [doc|] eqn:Hd; [|mstep; done].
    destruct (name_mismatch _ _) eqn:Hm; [mstep; done|].
    mstep. intros _. exists task, (u_name doc). split; [done|]. split; [done|].
    split; [by exists doc|]. done.
  - intros _. exists task, "unassigned". split; [done|]. split; [done|].
    unfold truthy_str in Ha. case_bool_decide as Hb; [done|].
    rewrite Hb. done.
Qed.

(** C8: on a PUT /tasks/:id that reaches the test (name and deadline present,
    the Task exists and is not completed) with an assignedUser that resolves
    to a User and with an assignedUserName, the answer is 400
    "assignedUserName does not match user record" exactly when the supplied
    name, put in lower case, is not "unassigned" and the supplied name
    differs from the User's name; otherwise the update goes through, so the
    literal "unassigned", like any other spelling of it in upper and lower
    case, bypasses the comparison. *)
Theorem assignedUserName_mismatch_iff (s : Store) (id : string) (body : TaskBody)
    (task : Task) (doc : User) (n : string) :
  tb_name body ≠ "" → tb_deadline body ≠ "" →
  tasks s !! id = Some task → t_completed task = false →
  tb_assignedUser body ≠ "" →
  users s !! tb_assignedUser body = Some doc →
  tb_assignedUserName body = Some n →
  let r := eval (put_tasks_id id body) s in
  (r = sendResponse 400 "assignedUserName does not match user record" DObj
     ↔ toLowerCase n ≠ "unassigned" ∧ n ≠ u_name doc)
  ∧ (toLowerCase n = "unassigned" ∨ n = u_name doc → status_of r = 200)
  ∧ (n = "unassigned" → status_of r = 200).
Proof.
  intros Hn Hd Ht Hc Ha Hu Hname r.
  assert (Hr : r = if name_mismatch (Some n) (u_name doc)
                   then sendResponse 400 "assignedUserName does not match user record" DObj
                   else sendResponse 200 "Task updated"
                          (DTaskDoc id (Some (updated_task body (u_name doc))))).
  { subst r. unfold put_tasks_id, truthy_str.
    rewrite !bool_decide_eq_true_2 by done. simpl. mstep. rewrite Ht, Hc.
    mstep. rewrite Hu, Hname.
    destruct (name_mismatch _ _); mstep; done. }
  assert (Hm : name_mismatch (Some n) (u_name doc) = true
               ↔ toLowerCase n ≠ "unassigned" ∧ n ≠ u_name doc).
  { unfold name_mismatch. rewrite andb_true_iff, !bool_decide_eq_true. done. }
  assert (Hok : toLowerCase n = "unassigned" ∨ n = u_name doc → status_of r = 200).
  { intros Hby. rewrite Hr. destruct (name_mismatch _ _); [|done].
    destruct (proj1 Hm eq_refl), Hby; done. }
  split; [|split; [done|]].
  - rewrite Hr, <- Hm. destruct (name_mismatch _ _); split; done.
  - intros ->. apply Hok. by left.
Qed.

Lemma occurrences_notin (x : string) (l : list string) : x ∉ l → occurrences x l = 0.
Proof.
  unfold occurrences. induction l as [|y l IH]; intros Hx; [done|].
  apply not_elem_of_cons in Hx as [Hxy Hx].
  rewrite filter_cons_False by congruence. by apply IH.
Qed.

Lemma occurrences_NoDup (x : string) (l : list string) :
  NoDup l → x ∈ l → occurrences x l = 1.
Proof.
  unfold occurrences. induction 1 as [|y l Hy Hnd IH]; intros Hx.
  - by apply elem_of_nil in Hx.
  - destruct (decide (y = x)) as [->|Hne].
    + rewrite filter_cons_True by done. simpl. f_equal.
      by apply occurrences_notin.
    + rewrite filter_cons_False by done. apply IH.
      apply elem_of_cons in Hx as [->|]; done.
Qed.

Lemma truthy_str_true (x : string) : truthy_str x = true ↔ x ≠ "".
Proof. unfold truthy_str. apply bool_decide_eq_true. Qed.

Lemma truthy_str_false (x : string) : truthy_str x = false ↔ x = "".
Proof.
  unfold truthy_str. rewrite bool_decide_eq_false.
  split; [apply dec_stable | by intros -> ?].
Qed.

(** C4: a PUT /tasks/:id that answers 200 and moves a non-completed Task
    from its assignee U1 to a different existing User U2 leaves U1 without
    the Task's id and the Task with assignedUser U2 and U2's name as
    assignedUserName; when the update leaves the Task not completed, U2
    lists the id exactly once (also when it listed it before) next to what
    it listed before, and when the same update completes the Task, U2 does
    not list the id. *)
Theorem reassignment_moves_pending (s : Store) (id : string) (body : TaskBody)
    (task : Task) (u1 u2 : User) :
  tasks s !! id = Some task → t_completed task = false →
  t_assignedUser task ≠ "" →
  users s !! t_assignedUser task = Some u1 →
  tb_assignedUser body ≠ "" →
  tb_assignedUser body ≠ t_assignedUser task →
  users s !! tb_assignedUser body = Some u2 →
  status_of (eval (put_tasks_id id body) s) = 200 →
  let s' := exec (put_tasks_id id body) s in
  (∃ u1', users s' !! t_assignedUser task = Some u1' ∧ id ∉ u_pendingTasks u1')
  ∧ (∃ u2', users s' !! tb_assignedUser body = Some u2'
       ∧ if is_true (tb_completed body)
         then id ∉ u_pendingTasks u2'
         else occurrences id (u_pendingTasks u2') = 1
              ∧ ∀ y, y ∈ u_pendingTasks u2' ↔ y = id ∨ y ∈ u_pendingTasks u2)
  ∧ (∃ t', tasks s' !! id = Some t'
       ∧ t_assignedUser t' = tb_assignedUser body
       ∧ t_assignedUserName t' = u_name u2
       ∧ t_completed t' = is_true (tb_completed body)).
Proof.
  intros Ht Hc Ha1 Hu1 Ha2 Hne Hu2 Hok s'.
  destruct (put_tasks_id_ok _ _ _ Hok) as (task0 & uname & Ht0 & _ & Hdoc & Hts & Hus).
  rewrite Ht in Ht0. injection Ht0 as <-.
  rewrite (proj2 (truthy_str_true _) Ha2) in Hdoc.
  destruct Hdoc as (doc & Hdoc & -> & _). rewrite Hu2 in Hdoc. injection Hdoc as <-.
  subst s'. rewrite Hts, Hus. unfold cascade_users. simpl.
  rewrite !(proj2 (truthy_str_true _)) by done.
  rewrite bool_decide_eq_true_2 by done. simpl.
  split; [|split].
  - rewrite 2!lookup_alter_ne by done. rewrite !lookup_alter_eq, Hu1. simpl.
    eexists. split; [done|]. rewrite elem_of_normalize_user, elem_of_pull. tauto.
  - rewrite 2!lookup_alter_eq. rewrite 2!lookup_alter_ne by done. rewrite Hu2. simpl.
    eexists. split; [done|]. destruct (is_true (tb_completed body)).
    + rewrite elem_of_normalize_user, elem_of_pull. tauto.
    + split.
      * apply occurrences_NoDup; [apply NoDup_normalize_user|].
        rewrite elem_of_normalize_user, elem_of_addToSet. by left.
      * intros y. by rewrite elem_of_normalize_user, elem_of_addToSet.
  - rewrite lookup_insert_eq. eexists. split; [done|]. done.
Qed.

(** ** Creating a Task *)

(** A POST /tasks that answers 201 saved the new document and, when the Task
    is assigned and not completed, added its id to the assignee's list. *)
Lemma post_tasks_ok (s : Store) (oid : string) (body : TaskBody) :
  status_of (eval (post_tasks oid body) s) = 201 →
  ∃ uname,
    tasks s !! oid = None ∧
    (if truthy_str (tb_assignedUser body)
     then ∃ doc, users s !! tb_assignedUser body = Some doc
               ∧ uname = name_or_unassigned (Some (u_name doc))
     else uname = name_or_unassigned (tb_assignedUserName body)) ∧
    tasks (exec (post_tasks oid body) s) = <[oid := created_task body uname]> (tasks s) ∧
    users (exec (post_tasks oid body) s) =
      if truthy_str (tb_assignedUser body) && negb (is_true (tb_completed body))
      then alter normalize_user (tb_assignedUser body)
             (alter (addToSet oid) (tb_assignedUser body) (users s))
      else users s.
Proof.
  unfold post_tasks, post_tasks_save, created_task.
  destruct (negb (truthy_str (tb_name body)) || negb (truthy_str (tb_deadline body)));
    [mstep; done|].
  rewrite !or_default_empty.
  destruct (truthy_str (tb_assignedUser body)) eqn:Ha; mstep.
  - destruct (users s !! tb_assignedUser body) as [doc|] eqn:Hd; [|mstep; done].
    destruct (match tb_assignedUserName body with Some _ => _ | None => _ end);
      [mstep; done|].
    mstep. case_bool_decide as Hfresh; [mstep; done|].
    mstep. rewrite Ha. simpl. intros _. eexists.
    split; [by apply eq_None_not_Some|]. split; [by exists doc|].
    destruct (is_true (tb_completed body)); mstep; done.
  - case_bool_decide as Hfresh; [mstep; done|].
    mstep. rewrite Ha. simpl. intros _. eexists.
    split; [by apply eq_None_not_Some|]. done.
Qed.


Lemma is_true_true (v : jsval) :
  is_true v = true ↔ v = JsBool true ∨ v = JsStr "true".
Proof.
  destruct v as [| |b|n|x|l|len]; simpl;
    try (split; [done | by intros [?|?]]).
  - split; [intros ->; by left | by intros [[= ->]|?]].
  - rewrite bool_decide_eq_true. split; [intros ->; by right | by intros [?|[= ->]]].
Qed.

Lemma is_true_false (v : jsval) :
  is_true v = false ↔ v ≠ JsBool true ∧ v ≠ JsStr "true".
Proof.
  rewrite <- not_true_iff_false, is_true_true. tauto.
Qed.

(** C3: POST /tasks with a name, a deadline, an existing User U as
    assignedUser, a completed value that is neither [true] nor ['true'] and
    no forged assignedUserName answers 201 and leaves the new Task's id in
    U's pendingTasks, exactly once; every PUT /tasks/:id on that Task whose
    completed value is [true] or ['true'] and that answers 200 stores the
    Task as completed and leaves U without the id, whoever the update names
    as assignee; and such an update that keeps U as assignee does answer
    200. *)
Theorem create_then_complete (s : Store) (oid : string) (body : TaskBody) (u : User) :
  tb_name body ≠ "" → tb_deadline body ≠ "" →
  tb_assignedUser body ≠ "" →
  users s !! tb_assignedUser body = Some u →
  tb_completed body ≠ JsBool true → tb_completed body ≠ JsStr "true" →
  (tb_assignedUserName body = None ∨ tb_assignedUserName body = Some (u_name u)) →
  tasks s !! oid = None →
  let U := tb_assignedUser body in
  let s1 := exec (post_tasks oid body) s in
  status_of (eval (post_tasks oid body) s) = 201
  ∧ (∃ u1, users s1 !! U = Some u1 ∧ oid ∈ u_pendingTasks u1
           ∧ occurrences oid (u_pendingTasks u1) = 1)
  ∧ (∀ body2, tb_completed body2 = JsBool true ∨ tb_completed body2 = JsStr "true" →
       status_of (eval (put_tasks_id oid body2) s1) = 200 →
       (∃ u2, users (exec (put_tasks_id oid body2) s1) !! U = Some u2
              ∧ oid ∉ u_pendingTasks u2)
       ∧ (∃ t2, tasks (exec (put_tasks_id oid body2) s1) !! oid = Some t2
                ∧ t_completed t2 = true))
  ∧ (∀ body2, tb_name body2 ≠ "" → tb_deadline body2 ≠ "" →
       tb_assignedUser body2 = U →
       name_mismatch (tb_assignedUserName body2) (u_name u) = false →
       status_of (eval (put_tasks_id oid body2) s1) = 200).
Proof.
  intros Hn Hd Ha Hu Hc1 Hc1' Hname Hfresh U s1.
  assert (Hc : is_true (tb_completed body) = false) by (by apply is_true_false).
  assert (Hr : status_of (eval (post_tasks oid body) s) = 201).
  { unfold post_tasks, post_tasks_save, truthy_str.
    rewrite !bool_decide_eq_true_2 by done. simpl. mstep. rewrite Hu.
    assert (match tb_assignedUserName body with
            | Some n => bool_decide (n ≠ u_name u) | None => false end = false) as ->.
    { destruct Hname as [-> | ->]; [done|]. by apply bool_decide_eq_false_2; intros ?. }
    mstep. rewrite Hfresh. rewrite bool_decide_eq_false_2 by (by intros [? ?]).
    mstep. done. }
  destruct (post_tasks_ok _ _ _ Hr) as (uname & _ & Hdoc & Hts & Hus).
  rewrite (proj2 (truthy_str_true _) Ha) in Hdoc, Hus. rewrite Hc in Hus. simpl in Hus.
  destruct Hdoc as (doc & Hdoc & ->). rewrite Hu in Hdoc. injection Hdoc as <-.
  assert (Hu1 : users s1 !! U = Some (normalize_user (addToSet oid u))).
  { subst s1 U. rewrite Hus, !lookup_alter_eq, Hu. done. }
  assert (Ht1 : tasks s1 !! oid =
                Some (created_task body (name_or_unassigned (Some (u_name u))))).
  { subst s1. rewrite Hts. apply lookup_insert_eq. }
  split; [done|]. split; [|split].
  - eexists. split; [done|].
    assert (oid ∈ u_pendingTasks (normalize_user (addToSet oid u))) as Hin.
    { rewrite elem_of_normalize_user, elem_of_addToSet. by left. }
    split; [done|]. apply occurrences_NoDup; [apply NoDup_normalize_user | done].
  - intros body2 Hc2' Hok.
    assert (Hc2 : is_true (tb_completed body2) = true) by (by apply is_true_true).
    destruct (put_tasks_id_ok _ _ _ Hok)
      as (task0 & uname2 & Ht0 & _ & Hdoc2 & Hts2 & Hus2).
    split; [|exists (updated_task body2 uname2); by rewrite Hts2, lookup_insert_eq].
    rewrite Ht1 in Ht0. injection Ht0 as <-.
    rewrite Hus2. unfold cascade_users, created_task, updated_task. simpl.
    fold U. rewrite Hc2. rewrite (proj2 (truthy_str_true U)) by done. simpl.
    destruct (truthy_str (tb_assignedUser body2)) eqn:Ha2.
    + destruct (decide (U = tb_assignedUser body2)) as [Heq|Hne].
      * rewrite <- Heq. rewrite bool_decide_eq_false_2 by (by intros ?).
        rewrite !lookup_alter_eq, Hu1. simpl. eexists. split; [done|].
        rewrite elem_of_normalize_user, elem_of_pull. tauto.
      * rewrite bool_decide_eq_true_2 by done.
        rewrite 2!lookup_alter_ne by done. rewrite !lookup_alter_eq, Hu1. simpl.
        eexists. split; [done|].
        rewrite elem_of_normalize_user, elem_of_pull. tauto.
    + apply truthy_str_false in Ha2. rewrite Ha2.
      rewrite bool_decide_eq_true_2 by done.
      rewrite !lookup_alter_eq, Hu1. simpl. eexists. split; [done|].
      rewrite elem_of_normalize_user, elem_of_pull. tauto.
  - intros body2 Hn2 Hd2 Ha2 Hm2.
    unfold put_tasks_id, truthy_str.
    rewrite !bool_decide_eq_true_2 by (done || by rewrite Ha2). simpl. mstep.
    rewrite Ht1. simpl. rewrite Hc. mstep. rewrite Ha2, Hu1. simpl.
    rewrite Hm2. mstep. done.
Qed.

(** ** Updating a User: the checks *)

Lemma elem_of_find_in (ids : list string) (ts : gmap string Task) id t :
  (id, t) ∈ find_in ids ts ↔ id ∈ ids ∧ ts !! id = Some t.
Proof. unfold find_in. by rewrite list_elem_of_filter, elem_of_map_to_list. Qed.

Lemma elem_of_find_in_ids (ids : list string) (ts : gmap string Task) id :
  id ∈ (find_in ids ts).*1 ↔ id ∈ ids ∧ is_Some (ts !! id).
Proof.
  rewrite list_elem_of_fmap. split.
  - intros ([k t] & -> & Hin). apply elem_of_find_in in Hin as [? ?]. eauto.
  - intros (Hin & t & Ht). exists (id, t). split; [done|]. by apply elem_of_find_in.
Qed.

Lemma NoDup_filter_fst {A B} (P : A * B → Prop) `{!∀ x, Decision (P x)} (l : list (A * B)) :
  NoDup (l.*1) → NoDup ((filter P l).*1).
Proof.
  induction l as [|[a b] l IH]; simpl; [done|].
  rewrite NoDup_cons. intros [Ha Hnd]. rewrite filter_cons. case_decide; [|by apply IH].
  simpl. constructor; [|by apply IH].
  rewrite list_elem_of_fmap. intros ([a' b'] & Heq & Hin). simpl in Heq. subst a'.
  apply list_elem_of_filter in Hin as [_ Hin]. apply Ha.
  apply list_elem_of_fmap. by exists (a, b').
Qed.

Lemma NoDup_find_in_ids (ids : list string) (ts : gmap string Task) :
  NoDup (find_in ids ts).*1.
Proof. apply NoDup_filter_fst, NoDup_fst_map_to_list. Qed.

Lemma missing_nil (ids : list string) (ts : gmap string Task) :
  filter (fun tid => tid ∉ (find_in ids ts).*1) ids = [] ↔ all_found ids ts.
Proof.
  split.
  - intros Hnil tid Hin. apply dec_stable. intros Hno.
    eapply (filter_nil_not_elem_of _ _ tid Hnil); [|done].
    rewrite elem_of_find_in_ids. tauto.
  - intros Hall. apply elem_of_nil_inv. intros tid.
    rewrite list_elem_of_filter, elem_of_find_in_ids. intros [Hno Hin].
    apply Hno. split; [done|]. by apply Hall.
Qed.

Lemma hasCompleted_false (ids : list string) (ts : gmap string Task) :
  existsb (fun kv => t_completed kv.2) (find_in ids ts) = false ↔ none_completed ids ts.
Proof.
  rewrite <- not_true_iff_false, existsb_exists. split.
  - intros Hno tid t Hin Ht. destruct (t_completed t) eqn:Hc; [|done].
    exfalso. apply Hno. exists (tid, t). split; [|done].
    apply list_elem_of_In. by apply elem_of_find_in.
  - intros Hnone ([tid t] & Hin & Hc). apply list_elem_of_In, elem_of_find_in in Hin as [? ?].
    simpl in Hc. by rewrite (Hnone tid t) in Hc.
Qed.

Lemma exec_put_users_check (pending : list string) (s : Store) :
  exec (put_users_check pending) s =
    mkStore (users s) (tasks s)
      (calls s ++ if bool_decide (0 < length pending) then [CTaskFindIn pending] else []).
Proof.
  unfold put_users_check. case_bool_decide; mstep.
  - case_bool_decide; mstep; [done|].
    destruct (existsb _ _); mstep; done.
  - rewrite app_nil_r. by destruct s.
Qed.

Lemma eval_put_users_check_None (pending : list string) (s : Store) :
  eval (put_users_check pending) s = None ↔
  all_found pending (tasks s) ∧ none_completed pending (tasks s).
Proof.
  unfold put_users_check. case_bool_decide as Hlen; mstep.
  - rewrite <- missing_nil, <- hasCompleted_false.
    case_bool_decide as Hm; mstep.
    + split; [done|]. intros [Hnil _]. by rewrite Hnil in Hm.
    + apply nil_length_inv in Hm.
      destruct (existsb _ _); mstep; split; try done. by intros [_ ?].
  - split; [intros _|done].
    assert (pending = []) as -> by (apply nil_length_inv; lia).
    split; intros tid; intros; by apply elem_of_nil in H.
Qed.

Lemma eval_put_users_check_completed (pending : list string) (s : Store) tid t :
  tid ∈ pending → tasks s !! tid = Some t → t_completed t = true →
  (∃ missing, eval (put_users_check pending) s =
                Some (sendResponse 404 "One or more tasks not found" (DMissing missing)))
  ∨ (all_found pending (tasks s) ∧
     eval (put_users_check pending) s =
       Some (sendResponse 400 "Cannot assign completed tasks as pending" DObj)).
Proof.
  intros Hin Ht Hc. unfold put_users_check.
  rewrite bool_decide_eq_true_2 by (destruct pending; [by apply elem_of_nil in Hin|simpl; lia]).
  mstep.
  case_bool_decide as Hm; mstep; [left; eauto|].
  right. apply nil_length_inv, missing_nil in Hm. split; [done|].
  destruct (existsb _ _) eqn:He; mstep; [done|].
  apply hasCompleted_false in He. by rewrite (He tid t) in Hc.
Qed.

#[global] Hint Rewrite exec_put_users_check : run.

(** C2: a PUT /users/:id whose pendingTasks, de-duplicated, holds the id of
    an existing completed Task fails with 400 or 404 and calls no write on
    the store: Users and Tasks are as before.  The answer is 400 "Cannot
    assign completed tasks as pending" when the request gets as far as that
    test: name and email present, the email with an [@], the User found,
    and every listed id the id of a Task. *)
Theorem completed_pending_rejected (s : Store) (id : string) (body : UserBody)
    (tid : string) (t : Task) :
  tid ∈ new_pending (ub_pendingTasks body) →
  tasks s !! tid = Some t → t_completed t = true →
  let r := eval (put_users_id id body) s in
  let s' := exec (put_users_id id body) s in
  (status_of r = 400 ∨ status_of r = 404)
  ∧ users s' = users s ∧ tasks s' = tasks s
  ∧ (∃ tr, calls_since s s' tr ∧ Forall (fun c => is_write c = false) tr)
  ∧ (ub_name body ≠ "" → ub_email body ≠ "" →
     emailContainsAt (JsStr (ub_email body)) = true →
     is_Some (users s !! id) →
     all_found (new_pending (ub_pendingTasks body)) (tasks s) →
     r = sendResponse 400 "Cannot assign completed tasks as pending" DObj).
Proof.
  intros Hin Ht Hc r s'. subst r s'. unfold calls_since, put_users_id.
  destruct (truthy_str (ub_name body)) eqn:Hn; simpl.
  2:{ apply truthy_str_false in Hn. mstep. split; [by left|]. do 2 (split; [done|]).
      split; [exists []; by rewrite app_nil_r|]. done. }
  destruct (truthy_str (ub_email body)) eqn:He; simpl.
  2:{ apply truthy_str_false in He. mstep. split; [by left|]. do 2 (split; [done|]).
      split; [exists []; by rewrite app_nil_r|]. done. }
  destruct (includes_char "@" (ub_email body)) eqn:Hat; simpl.
  2:{ mstep. split; [by left|]. do 2 (split; [done|]).
      split; [exists []; by rewrite app_nil_r|]. done. }
  mstep. destruct (users s !! id) as [u|] eqn:Hu; mstep.
  2:{ split; [by right|]. do 2 (split; [done|]).
      split; [eexists; split; [done|]; by repeat constructor|].
      intros _ _ _ [? ?]. done. }
  set (s1 := mkStore _ _ _).
  destruct (eval_put_users_check_completed (new_pending (ub_pendingTasks body)) s1 tid t)
    as [[missing Hr] | [Hall Hr]]; try done; rewrite Hr; mstep.
  - split; [by right|]. do 2 (split; [done|]).
    split; [eexists; split; [by rewrite <- app_assoc|]; case_bool_decide; by repeat constructor|].
    intros _ _ _ _ Hall.
    assert (eval (put_users_check (new_pending (ub_pendingTasks body))) s1 ≠ None) as Hnn.
    { rewrite Hr. done. }
    exfalso. revert Hr. unfold put_users_check.
    case_bool_decide; mstep; [|done].
    rewrite (proj2 (missing_nil _ _) Hall). simpl.
    destruct (existsb _ _); mstep; done.
  - split; [by left|]. do 2 (split; [done|]).
    split; [eexists; split; [by rewrite <- app_assoc|]; case_bool_decide; by repeat constructor|].
    done.
Qed.

(** ** Updating a User: the cascade *)

Lemma tasks_leave_previous_user id kv s :
  tasks (exec (leave_previous_user id kv) s) = tasks s.
Proof. unfold leave_previous_user. destruct (_ || _); mstep; done. Qed.

Lemma users_leave_previous_user id kv s uid :
  users (exec (leave_previous_user id kv) s) !! uid =
    loop_user id uid [kv] <$> users s !! uid.
Proof.
  unfold leave_previous_user, loop_user. simpl. destruct (_ || _); mstep.
  - by destruct (users s !! uid).
  - case_bool_decide as Heq.
    + rewrite Heq, !lookup_alter_eq. by destruct (users s !! uid).
    + rewrite !lookup_alter_ne by done. by destruct (users s !! uid).
Qed.

Lemma tasks_for_of_leave id found s :
  tasks (exec (for_of found (leave_previous_user id)) s) = tasks s.
Proof.
  revert s. induction found as [|kv found IH]; intros s; simpl; [done|].
  mstep. by rewrite IH, tasks_leave_previous_user.
Qed.

Lemma users_for_of_leave id found s uid :
  users (exec (for_of found (leave_previous_user id)) s) !! uid =
    loop_user id uid found <$> users s !! uid.
Proof.
  revert s. induction found as [|kv found IH]; intros s; simpl.
  - mstep. unfold loop_user. by destruct (users s !! uid).
  - mstep. rewrite IH, users_leave_previous_user.
    destruct (users s !! uid); done.
Qed.

Lemma loop_user_self id found u : loop_user id id found u = u.
Proof.
  revert u. induction found as [|kv found IH]; intros u; [done|].
  unfold loop_user in *. simpl.
  destruct (t_completed kv.2); simpl; [apply IH|].
  destruct (truthy_str (t_assignedUser kv.2)); simpl; [|apply IH].
  case_bool_decide; simpl; apply IH.
Qed.

Lemma elem_of_loop_user id uid found u y :
  y ∈ u_pendingTasks (loop_user id uid found u) ↔
  y ∈ u_pendingTasks u ∧ ¬ ∃ t, (y, t) ∈ found ∧ taken_from id uid (y, t).
Proof.
  revert u. induction found as [|[k t] found IH]; intros u.
  - simpl. split; [|tauto]. intros Hy. split; [done|]. intros (t & Hin & _).
    by apply elem_of_nil in Hin.
  - unfold loop_user in *. simpl.
    assert (Hcons : ∀ P : Prop, (P ↔ taken_from id uid (k, t) ∧ y = k) →
      ((∃ t0, (y, t0) ∈ (k, t) :: found ∧ taken_from id uid (y, t0)) ↔
       P ∨ ∃ t0, (y, t0) ∈ found ∧ taken_from id uid (y, t0))).
    { intros P HP. rewrite HP. split.
      - intros (t0 & Hin & Htk). apply elem_of_cons in Hin as [[= -> ->]|Hin]; eauto.
      - intros [[Htk ->] | (t0 & Hin & Htk)]; [exists t; split; [left|done] |
          exists t0; split; [by right|done]]. }
    unfold taken_from in *. simpl in *.
    destruct (t_completed t) eqn:Hc; simpl.
    { rewrite IH, (Hcons False); [tauto|]. split; [done|]. by intros [[? _] _]. }
    destruct (truthy_str (t_assignedUser t)) eqn:Ha; simpl.
    2:{ apply truthy_str_false in Ha. rewrite IH, (Hcons False); [tauto|].
        split; [done|]. by intros [(_ & ? & _) _]. }
    apply truthy_str_true in Ha.
    case_bool_decide as Hid; simpl.
    { rewrite IH, (Hcons False); [tauto|]. split; [done|]. by intros [(_ & _ & ? & _) _]. }
    case_bool_decide as Huid.
    + rewrite IH, elem_of_normalize_user, elem_of_pull, (Hcons (y = k)); [tauto|].
      split; [intros ->; done | by intros [_ ?]].
    + rewrite IH, (Hcons False); [tauto|]. split; [done|]. by intros [(_ & _ & _ & ?) _].
Qed.

Lemma NoDup_loop_user id uid found u :
  NoDup (u_pendingTasks u) → NoDup (u_pendingTasks (loop_user id uid found u)).
Proof.
  revert u. induction found as [|kv found IH]; intros u Hnd; [done|].
  unfold loop_user in *. simpl.
  destruct (_ || _); [by apply IH|].
  case_bool_decide; apply IH; [apply NoDup_normalize_user | done].
Qed.

#[global] Hint Rewrite tasks_for_of_leave users_for_of_leave : run.

Lemma find_in_nil (ts : gmap string Task) : find_in [] ts = [].
Proof.
  apply elem_of_nil_inv. intros [k t] Hin.
  apply elem_of_find_in in Hin as [Hin _]. by apply elem_of_nil in Hin.
Qed.

Lemma updateMany_doc_nil upd tid t : updateMany_doc (IdIn []) upd tid t = t.
Proof. done. Qed.

Lemma updateMany_doc_nil' upd tid t : updateMany_doc (IdInNotCompleted []) upd tid t = t.
Proof. done. Qed.

Lemma tasks_put_users_cascade id uname prevPending pending s tid :
  tasks (exec (put_users_cascade id uname prevPending pending) s) !! tid =
    cascade_task id uname prevPending pending (tasks s) tid <$> tasks s !! tid.
Proof.
  unfold put_users_cascade, cascade_task. fold (incomplete_of pending (tasks s)).
  mstep. rewrite lookup_updateMany_map.
  set (removed := filter (fun x => x ∉ pending) prevPending).
  assert (Hrem : ∀ s0 : Store,
    tasks (exec (if bool_decide (length removed ≠ 0)
                 then Task_updateMany (IdInNotCompleted removed) (SetAssigned "" "unassigned")
                 else ret tt) s0) !! tid =
    updateMany_doc (IdInNotCompleted removed) (SetAssigned "" "unassigned") tid
      <$> tasks s0 !! tid).
  { intros s0. case_bool_decide as Hr; mstep; [by rewrite lookup_updateMany_map|].
    apply nil_length_inv in Hr. rewrite Hr.
    destruct (tasks s0 !! tid); [|done]. simpl. by rewrite updateMany_doc_nil'. }
  rewrite Hrem. clear Hrem.
  case_bool_decide as Hp; mstep.
  - fold (incomplete_of pending (tasks s)).
    case_bool_decide as Hi; mstep.
    + rewrite lookup_updateMany_map. by destruct (tasks s !! tid).
    + apply nil_length_inv in Hi. rewrite Hi.
      destruct (tasks s !! tid); [|done]. simpl. by rewrite updateMany_doc_nil.
  - apply nil_length_inv in Hp. subst pending.
    unfold incomplete_of. rewrite find_in_nil. simpl.
    destruct (tasks s !! tid); [|done]. simpl. by rewrite updateMany_doc_nil.
Qed.

Lemma users_set_incomplete id uname (incomplete : list string) (s0 : Store) :
  users (exec (if bool_decide (length incomplete ≠ 0)
               then Task_updateMany (IdIn incomplete) (SetAssigned id uname) ;;;
                    User_updateOne id (SetPendingTasks incomplete)
               else User_updateOne id (SetPendingTasks [])) s0) =
  alter (fun u => set_pendingTasks u incomplete) id (users s0).
Proof.
  case_bool_decide as Hi; mstep; [done|].
  apply nil_length_inv in Hi. by rewrite Hi.
Qed.

Lemma users_unassign_removed (removed : list string) (s0 : Store) :
  users (exec (if bool_decide (length removed ≠ 0)
               then Task_updateMany (IdInNotCompleted removed) (SetAssigned "" "unassigned")
               else ret tt) s0) = users s0.
Proof. case_bool_decide; mstep; done. Qed.

Lemma users_put_users_cascade id uname prevPending pending s uid :
  users (exec (put_users_cascade id uname prevPending pending) s) !! uid =
    cascade_user id pending (tasks s) uid <$> users s !! uid.
Proof.
  unfold put_users_cascade, cascade_user. fold (incomplete_of pending (tasks s)).
  mstep. rewrite users_unassign_removed.
  destruct (decide (uid = id)) as [->|Hne].
  - rewrite lookup_alter_eq. case_bool_decide as Hp; mstep.
    + fold (incomplete_of pending (tasks s)).
      rewrite users_set_incomplete, lookup_alter_eq. mstep.
      destruct (users s !! id) as [u|]; [|done]. simpl. by rewrite loop_user_self.
    + by destruct (users s !! id).
  - rewrite lookup_alter_ne by done. case_bool_decide as Hp; mstep.
    + fold (incomplete_of pending (tasks s)).
      rewrite users_set_incomplete, lookup_alter_ne by done.
      mstep. done.
    + apply nil_length_inv in Hp. subst pending. rewrite find_in_nil.
      by destruct (users s !! uid).
Qed.

#[global] Hint Rewrite tasks_put_users_cascade users_put_users_cascade : run.

(** A PUT /users/:id that answers 200 found the User, passed the checks on
    the new pending list, saved the document and ran the cascade. *)
Lemma put_users_id_ok (s : Store) (id : string) (body : UserBody) :
  status_of (eval (put_users_id id body) s) = 200 →
  let pending := new_pending (ub_pendingTasks body) in
  let s' := exec (put_users_id id body) s in
  ∃ u, users s !! id = Some u ∧ ub_name body ≠ "" ∧ ub_email body ≠ "" ∧
    all_found pending (tasks s) ∧ none_completed pending (tasks s) ∧
    email_taken id (ub_email body) (users s) = false ∧
    (∀ uid, users s' !! uid =
       cascade_user id pending (tasks s) uid <$>
         <[id := mkUser (ub_name body) (ub_email body) pending]> (users s) !! uid) ∧
    (∀ tid, tasks s' !! tid =
       cascade_task id (ub_name body) (u_pendingTasks u) pending (tasks s) tid
         <$> tasks s !! tid) ∧
    eval (put_users_id id body) s =
      sendResponse 200 "User updated" (DUserDoc id (users s' !! id)).
Proof.
  intros Hok pending s'. subst s'. revert Hok. unfold put_users_id.
  destruct (truthy_str (ub_name body)) eqn:Hn; simpl; [|mstep; done].
  destruct (truthy_str (ub_email body)) eqn:He; simpl; [|mstep; done].
  destruct (includes_char "@" (ub_email body)) eqn:Hat; simpl; [|mstep; done].
  mstep. destruct (users s !! id) as [u|] eqn:Hu; mstep; [|done].
  fold pending.
  destruct (eval (put_users_check pending) _) as [r|] eqn:Hcheck.
  { mstep. intros Hr. exfalso. revert Hcheck Hr. unfold put_users_check.
    case_bool_decide; mstep; [|done].
    case_bool_decide; mstep; [by intros [= <-]|].
    destruct (existsb _ _); mstep; [by intros [= <-]|done]. }
  apply eval_put_users_check_None in Hcheck as [Hall Hnone]. simpl in Hall, Hnone.
  mstep. destruct (email_taken id (ub_email body) (users s)) eqn:Hem; mstep; [done|].
  intros _. exists u. apply truthy_str_true in Hn, He.
  repeat (split; [done|]).
  split; [intros uid; by mstep|]. split; [intros tid; by mstep|]. done.
Qed.

Lemma incomplete_of_all (pending : list string) (ts : gmap string Task) :
  none_completed pending ts → incomplete_of pending ts = (find_in pending ts).*1.
Proof.
  intros Hnone. unfold incomplete_of. f_equal. apply filter_all_id.
  intros [k t] Hin. apply elem_of_find_in in Hin as [Hin Ht]. simpl.
  by rewrite (Hnone k t).
Qed.

Lemma elem_of_incomplete_of (pending : list string) (ts : gmap string Task) tid :
  tid ∈ incomplete_of pending ts ↔
  tid ∈ pending ∧ ∃ t, ts !! tid = Some t ∧ t_completed t = false.
Proof.
  unfold incomplete_of. rewrite list_elem_of_fmap. split.
  - intros ([k t] & -> & Hin). apply list_elem_of_filter in Hin as [Hc Hin].
    apply elem_of_find_in in Hin as [Hin Ht]. simpl in *.
    split; [done|]. exists t. split; [done|]. by destruct (t_completed t).
  - intros (Hin & t & Ht & Hc). exists (tid, t). split; [done|].
    apply list_elem_of_filter. simpl. rewrite Hc. split; [done|].
    by apply elem_of_find_in.
Qed.

Lemma NoDup_incomplete_of (pending : list string) (ts : gmap string Task) :
  NoDup (incomplete_of pending ts).
Proof. unfold incomplete_of. apply NoDup_filter_fst, NoDup_find_in_ids. Qed.

Lemma NoDup_new_pending (v : jsval) : NoDup (new_pending v).
Proof.
  destruct v; simpl; try constructor.
  rewrite Array_from_Set_dedup. apply NoDup_dedup_first.
Qed.


(** C10: a PUT /users/:id that answers 200 on a body whose pendingTasks is
    absent or is not an array took the new pending list to be empty: the
    User is saved with an empty pendingTasks, and every Task of its previous
    pendingTasks that is not completed ends with an empty assignedUser and
    "unassigned" as assignedUserName.  ([id] is a route parameter, never the
    empty string.) *)
Theorem non_array_pending_is_empty (s : Store) (id : string) (body : UserBody) :
  id ≠ "" →
  (∀ l, ub_pendingTasks body ≠ JsArr l) →
  status_of (eval (put_users_id id body) s) = 200 →
  let s' := exec (put_users_id id body) s in
  new_pending (ub_pendingTasks body) = []
  ∧ ∃ u, users s !! id = Some u
    ∧ users s' !! id = Some (mkUser (ub_name body) (ub_email body) [])
    ∧ (∀ tid t, tid ∈ u_pendingTasks u → tasks s !! tid = Some t →
         t_completed t = false →
         tasks s' !! tid = Some (unassign t)
         ∧ t_assignedUser (unassign t) = ""
         ∧ t_assignedUserName (unassign t) = "unassigned").
Proof.
  intros Hid Hnarr Hok s'.
  assert (Hnil : new_pending (ub_pendingTasks body) = []).
  { destruct (ub_pendingTasks body) eqn:E; try done. by destruct (Hnarr l). }
  split; [done|].
  destruct (put_users_id_ok _ _ _ Hok)
    as (u & Hu & Hn & He & Hall & Hnone & Hem & Hus & Hts & Hr).
  fold s' in Hus, Hts. rewrite Hnil in Hus, Hts.
  exists u. split; [done|]. split.
  - rewrite Hus, lookup_insert_eq. simpl. unfold cascade_user.
    by rewrite decide_True by done.
  - intros tid t Hin Ht Hc. rewrite Hts, Ht. simpl. split; [|done]. f_equal.
    unfold cascade_task, incomplete_of. rewrite find_in_nil. simpl.
    rewrite updateMany_doc_nil.
    unfold updateMany_doc at 2. simpl. rewrite Hc. simpl.
    rewrite bool_decide_eq_true_2.
    2:{ apply list_elem_of_filter. split; [apply not_elem_of_nil | done]. }
    fold (unassign t). unfold updateMany_doc. simpl.
    rewrite bool_decide_eq_false_2; [done|]. unfold unassign, apply_task_update. simpl.
    congruence.
Qed.

(** ** The list endpoints *)

Section ListEndpointsProperties.

Variable JSON_parse : string -> option json.
Variable parseInt : string -> option Z.
Variable engine : QueryEngine.

Lemma invalid_is_offending (p : string) :
  p ≠ "" → JSON_parse p = None →
  parseJSONParam JSON_parse (Some p) = Some parseError_marker ∧
  offending JSON_parse (Some p) = true.
Proof.
  intros Hp Hparse. unfold offending, parseJSONParam, truthy_str.
  rewrite bool_decide_eq_true_2 by done. simpl. by rewrite Hparse.
Qed.

Lemma list_endpoint_rejects {D : Type} (coll : Store → gmap string D)
    (cfind ccount : StoreCall) (wrap : list (string * D) → Data)
    (q : Query) (s : Store) :
  let m := list_endpoint JSON_parse parseInt engine coll cfind ccount wrap q in
  (offending JSON_parse (q_where q) = true →
     m s = (Some (sendResponse 400 "Invalid JSON in where parameter" DObj), s))
  ∧ (offending JSON_parse (q_where q) = false → offending JSON_parse (q_sort q) = true →
     m s = (Some (sendResponse 400 "Invalid JSON in sort parameter" DObj), s))
  ∧ (offending JSON_parse (q_where q) = false → offending JSON_parse (q_sort q) = false →
     offending JSON_parse (q_select q) = true →
     m s = (Some (sendResponse 400 "Invalid JSON in select parameter" DObj), s)).
Proof.
  unfold offending, list_endpoint. simpl.
  destruct (has_parseError (parseJSONParam JSON_parse (q_where q))).
  { split; [done|]. split; done. }
  destruct (has_parseError (parseJSONParam JSON_parse (q_sort q))).
  { split; [done|]. split; done. }
  destruct (has_parseError (parseJSONParam JSON_parse (q_select q))).
  { split; [done|]. split; done. }
  split; [done|]. split; done.
Qed.

(** C9: on a where, sort or select value that is not empty and on which
    [JSON.parse] throws, [parseJSONParam] returns the marker object
    [{ __parseError: true }] (it catches the SyntaxError); GET /users and
    GET /tasks answer 400 "Invalid JSON in <name> parameter" for the first
    of where, sort, select whose parsed value carries a truthy
    [__parseError], which every such value does, and make no call on the
    store. *)
Theorem invalid_json_rejected :
  (∀ p, p ≠ "" → JSON_parse p = None →
     parseJSONParam JSON_parse (Some p) = Some parseError_marker ∧
     offending JSON_parse (Some p) = true)
  ∧ ∀ (q : Query) (s : Store),
      let users_list := get_users_list JSON_parse parseInt engine q in
      let tasks_list := get_tasks_list JSON_parse parseInt engine q in
      (offending JSON_parse (q_where q) = true →
         users_list s = (Some (sendResponse 400 "Invalid JSON in where parameter" DObj), s) ∧
         tasks_list s = (Some (sendResponse 400 "Invalid JSON in where parameter" DObj), s))
      ∧ (offending JSON_parse (q_where q) = false → offending JSON_parse (q_sort q) = true →
         users_list s = (Some (sendResponse 400 "Invalid JSON in sort parameter" DObj), s) ∧
         tasks_list s = (Some (sendResponse 400 "Invalid JSON in sort parameter" DObj), s))
      ∧ (offending JSON_parse (q_where q) = false → offending JSON_parse (q_sort q) = false →
         offending JSON_parse (q_select q) = true →
         users_list s = (Some (sendResponse 400 "Invalid JSON in select parameter" DObj), s) ∧
         tasks_list s = (Some (sendResponse 400 "Invalid JSON in select parameter" DObj), s)).
Proof.
  split; [apply invalid_is_offending|].
  intros q s users_list tasks_list. subst users_list tasks_list.
  unfold get_users_list, get_tasks_list.
  pose proof (list_endpoint_rejects users CUserFind CUserCountDocuments DUserList q s)
    as (Hu1 & Hu2 & Hu3).
  pose proof (list_endpoint_rejects tasks CTaskFind CTaskCountDocuments DTaskList q s)
    as (Ht1 & Ht2 & Ht3).
  simpl in *. split; [|split].
  - intros H1. split; [by apply Hu1 | by apply Ht1].
  - intros H1 H2. split; [by apply Hu2 | by apply Ht2].
  - intros H1 H2 H3. split; [by apply Hu3 | by apply Ht3].
Qed.

End ListEndpointsProperties.

(** ** The invariants *)

Lemma Consistent_invariant1 (s : Store) : Consistent s → invariant1 s.
Proof.
  intros [Hids Hnd Hsound Hcompl] tid t Ht Ha Hc.
  destruct (Hcompl tid t Ht Hc Ha) as (u & Hu & Hin).
  exists u. split; [done|]. apply occurrences_NoDup; [by eapply Hnd | done].
Qed.

Lemma Consistent_invariant2 (s : Store) : Consistent s → invariant2 s.
Proof.
  intros [Hids Hnd Hsound Hcompl] tid t Ht Hor uid u Hu Hin.
  destruct (Hsound uid u tid Hu Hin) as (t' & Ht' & Ha & Hc).
  rewrite Ht in Ht'. injection Ht' as <-.
  destruct Hor as [Hc'|Ha']; [congruence|].
  rewrite Ha' in Ha. subst uid. by rewrite Hids in Hu.
Qed.

(** *** Creating and deleting a User *)

Lemma post_users_ok (s : Store) (oid : string) (body : UserBody) :
  status_of (eval (post_users oid body) s) = 201 →
  users s !! oid = None ∧
  users (exec (post_users oid body) s) =
    <[oid := mkUser (ub_name body) (ub_email body) []]> (users s) ∧
  tasks (exec (post_users oid body) s) = tasks s.
Proof.
  unfold post_users.
  destruct (negb (truthy_str (ub_name body)) || negb (truthy_str (ub_email body)));
    [mstep; done|].
  destruct (negb (emailContainsAt (JsStr (ub_email body)))); [mstep; done|].
  destruct (truthy (ub_pendingTasks body) && truthy_length (ub_pendingTasks body));
    [mstep; done|].
  mstep. destruct (bool_decide (is_Some (users s !! oid))) eqn:Hfresh; simpl; [mstep; done|].
  destruct (email_taken oid (ub_email body) (users s)); mstep; [done|].
  intros _. apply bool_decide_eq_false in Hfresh. apply eq_None_not_Some in Hfresh.
  split; [done|]. split; [|done].
  apply map_eq. intros k. rewrite lookup_alter.
  case_decide; subst; [by rewrite !lookup_insert_eq | done].
Qed.

Lemma post_users_consistent (s : Store) (oid : string) (body : UserBody) :
  oid ≠ "" → Consistent s →
  status_of (eval (post_users oid body) s) = 201 →
  Consistent (exec (post_users oid body) s).
Proof.
  intros Hoid [Hids Hnd Hsound Hcompl] Hok.
  destruct (post_users_ok _ _ _ Hok) as (Hfresh & Hus & Hts).
  constructor; rewrite ?Hus, ?Hts.
  - by rewrite lookup_insert_ne.
  - intros uid u. rewrite lookup_insert_Some. intros [[_ <-] | [_ Hu]].
    + constructor.
    + by eapply Hnd.
  - intros uid u tid. rewrite lookup_insert_Some. intros [[_ <-] | [_ Hu]] Hin.
    + by apply elem_of_nil in Hin.
    + by eapply Hsound.
  - intros tid t Ht Hc Ha. destruct (Hcompl tid t Ht Hc Ha) as (u & Hu & Hin).
    exists u. split; [|done]. rewrite lookup_insert_ne; [done|].
    intros Heq. rewrite <- Heq in Hu. congruence.
Qed.

Lemma delete_users_id_ok (s : Store) (id : string) :
  status_of (eval (delete_users_id id) s) = 204 →
  ∃ u, users s !! id = Some u ∧
    users (exec (delete_users_id id) s) = delete id (users s) ∧
    ∀ tid, tasks (exec (delete_users_id id) s) !! tid =
      updateMany_doc (IdIn (u_pendingTasks u)) (SetAssigned "" "unassigned") tid
        <$> tasks s !! tid.
Proof.
  unfold delete_users_id. mstep.
  destruct (users s !! id) as [u|] eqn:Hu; mstep; [|done].
  intros _. exists u. split; [done|].
  case_bool_decide as Hlen; mstep.
  - split; [done|]. intros tid. by rewrite lookup_updateMany_map.
  - apply nil_length_inv in Hlen. rewrite Hlen. split; [done|].
    intros tid. by destruct (tasks s !! tid).
Qed.

Lemma delete_users_id_consistent (s : Store) (id : string) :
  Consistent s →
  status_of (eval (delete_users_id id) s) = 204 →
  Consistent (exec (delete_users_id id) s).
Proof.
  intros [Hids Hnd Hsound Hcompl] Hok.
  destruct (delete_users_id_ok _ _ Hok) as (u0 & Hu0 & Hus & Hts).
  constructor; rewrite ?Hus.
  - rewrite lookup_delete_None. by right.
  - intros uid u [_ Hu]%lookup_delete_Some. by eapply Hnd.
  - intros uid u tid [Hne Hu]%lookup_delete_Some Hin.
    destruct (Hsound uid u tid Hu Hin) as (t & Ht & Ha & Hc).
    exists t. rewrite Hts, Ht. simpl. split; [|done]. f_equal.
    unfold updateMany_doc. simpl. rewrite bool_decide_eq_false_2; [done|].
    intros Hin0. destruct (Hsound id u0 tid Hu0 Hin0) as (t' & Ht' & Ha' & _).
    congruence.
  - intros tid t'. rewrite Hts. intros Ht' Hc Ha.
    apply fmap_Some in Ht' as (t & Ht & ->).
    unfold updateMany_doc in *. simpl in *.
    case_bool_decide as Hin0; [done|].
    destruct (Hcompl tid t Ht Hc Ha) as (u & Hu & Hin).
    exists u. split; [|done]. rewrite lookup_delete_ne; [done|].
    intros Heq. rewrite <- Heq, Hu0 in Hu. by injection Hu as <-.
Qed.

(** *** Operations on one Task *)

Lemma lookup_alter_fmap (f : User → User) (a : string) (us : gmap string User) (uid : string) :
  alter f a us !! uid = (fun u => if bool_decide (uid = a) then f u else u) <$> us !! uid.
Proof.
  destruct (decide (uid = a)) as [->|Hne].
  - rewrite lookup_alter_eq. destruct (us !! a); [|done]. simpl.
    by rewrite bool_decide_eq_true_2.
  - rewrite lookup_alter_ne by done. destruct (us !! uid); [|done]. simpl.
    by rewrite bool_decide_eq_false_2.
Qed.

(** A step that touches the Task [id] alone and maps each User [uid] by
    [g uid] keeps the store consistent when [g] keeps pending lists free of
    duplicates, changes them at [id] only, and lists [id] for the assignee
    of the new Task [id], if it is not completed, and for nobody else. *)
Lemma single_task_step (s s' : Store) (id : string) (g : string → User → User) :
  Consistent s →
  (∀ uid, users s' !! uid = g uid <$> users s !! uid) →
  (∀ tid, tid ≠ id → tasks s' !! tid = tasks s !! tid) →
  (∀ uid u, NoDup (u_pendingTasks u) → NoDup (u_pendingTasks (g uid u))) →
  (∀ uid u y, y ≠ id → y ∈ u_pendingTasks (g uid u) ↔ y ∈ u_pendingTasks u) →
  (∀ uid u, users s !! uid = Some u → id ∈ u_pendingTasks (g uid u) →
     ∃ t', tasks s' !! id = Some t' ∧ t_assignedUser t' = uid ∧ t_completed t' = false) →
  (∀ t', tasks s' !! id = Some t' → t_completed t' = false → t_assignedUser t' ≠ "" →
     ∃ u, users s !! t_assignedUser t' = Some u
          ∧ id ∈ u_pendingTasks (g (t_assignedUser t') u)) →
  Consistent s'.
Proof.
  intros [Hids Hnd Hsound Hcompl] Hus Hts Ha Hb Hcs Hcc. constructor.
  - by rewrite Hus, Hids.
  - intros uid u'. rewrite Hus. intros (u & Hu & ->)%fmap_Some.
    apply Ha. by eapply Hnd.
  - intros uid u' tid. rewrite Hus. intros (u & Hu & ->)%fmap_Some Hin.
    destruct (decide (tid = id)) as [->|Hne]; [by eapply Hcs|].
    rewrite Hts by done. apply Hb in Hin; [|done]. by eapply Hsound.
  - intros tid t' Ht' Hc Hassigned.
    destruct (decide (tid = id)) as [->|Hne].
    + destruct (Hcc t' Ht' Hc Hassigned) as (u & Hu & Hin).
      exists (g (t_assignedUser t') u). by rewrite Hus, Hu.
    + rewrite Hts in Ht' by done.
      destruct (Hcompl tid t' Ht' Hc Hassigned) as (u & Hu & Hin).
      exists (g (t_assignedUser t') u). rewrite Hus, Hu. split; [done|].
      by apply Hb.
Qed.

Lemma delete_tasks_id_ok (s : Store) (id : string) :
  status_of (eval (delete_tasks_id id) s) = 204 →
  ∃ t, tasks s !! id = Some t ∧
    tasks (exec (delete_tasks_id id) s) = delete id (tasks s) ∧
    ∀ uid, users (exec (delete_tasks_id id) s) !! uid =
      (fun u => if truthy_str (t_assignedUser t) && bool_decide (uid = t_assignedUser t)
                then normalize_user (pull id u) else u) <$> users s !! uid.
Proof.
  unfold delete_tasks_id. mstep.
  destruct (tasks s !! id) as [t|] eqn:Ht; mstep; [|done].
  intros _. exists t. split; [done|].
  destruct (truthy_str (t_assignedUser t)); mstep.
  - split; [done|]. intros uid. rewrite !lookup_alter_fmap.
    destruct (users s !! uid); [|done]. simpl. by case_bool_decide.
  - split; [done|]. intros uid. by destruct (users s !! uid).
Qed.

Lemma delete_tasks_id_consistent (s : Store) (id : string) :
  Consistent s →
  status_of (eval (delete_tasks_id id) s) = 204 →
  Consistent (exec (delete_tasks_id id) s).
Proof.
  intros Hs Hok. destruct (delete_tasks_id_ok _ _ Hok) as (t & Ht & Hts & Hus).
  eapply (single_task_step s _ id
            (fun uid u => if truthy_str (t_assignedUser t)
                             && bool_decide (uid = t_assignedUser t)
                          then normalize_user (pull id u) else u));
    [done | apply Hus | ..].
  - intros tid Hne. by rewrite Hts, lookup_delete_ne.
  - intros uid u Hnd. destruct (_ && _); [apply NoDup_normalize_user | done].
  - intros uid u y Hne. destruct (_ && _); [|done].
    rewrite elem_of_normalize_user, elem_of_pull. tauto.
  - intros uid u Hu Hin. exfalso.
    destruct (truthy_str (t_assignedUser t)) eqn:Ha; simpl in Hin.
    + case_bool_decide as Heq.
      * rewrite elem_of_normalize_user, elem_of_pull in Hin. tauto.
      * destruct (cons_sound s Hs uid u id Hu Hin) as (t0 & Ht0 & Ha0 & _). congruence.
    + destruct (cons_sound s Hs uid u id Hu Hin) as (t0 & Ht0 & Ha0 & _).
      apply truthy_str_false in Ha. rewrite Ht in Ht0. injection Ht0 as <-.
      rewrite Ha in Ha0. subst uid. by rewrite (cons_ids s Hs) in Hu.
  - intros t'. by rewrite Hts, lookup_delete_eq.
Qed.

Lemma post_tasks_consistent (s : Store) (oid : string) (body : TaskBody) :
  Consistent s →
  status_of (eval (post_tasks oid body) s) = 201 →
  Consistent (exec (post_tasks oid body) s).
Proof.
  intros Hs Hok. destruct (post_tasks_ok _ _ _ Hok) as (uname & Hfresh & Hdoc & Hts & Hus).
  set (U := tb_assignedUser body) in *. set (c := is_true (tb_completed body)) in *.
  eapply (single_task_step s _ oid
            (fun uid u => if truthy_str U && negb c && bool_decide (uid = U)
                          then normalize_user (addToSet oid u) else u)); [done|..].
  - intros uid. rewrite Hus. destruct (truthy_str U && negb c); simpl.
    + rewrite !lookup_alter_fmap. destruct (users s !! uid); [|done]. simpl.
      by case_bool_decide.
    + by destruct (users s !! uid).
  - intros tid Hne. by rewrite Hts, lookup_insert_ne.
  - intros uid u Hnd. destruct (_ && _ && _); [apply NoDup_normalize_user | done].
  - intros uid u y Hne. destruct (_ && _ && _); [|done].
    rewrite elem_of_normalize_user, elem_of_addToSet. tauto.
  - intros uid u Hu Hin. rewrite Hts, lookup_insert_eq.
    destruct (truthy_str U && negb c && bool_decide (uid = U)) eqn:Hcond.
    + apply andb_true_iff in Hcond as [[_ Hc]%andb_true_iff Heq].
      apply bool_decide_eq_true in Heq. apply negb_true_iff in Hc.
      eexists. split; [done|]. simpl. by rewrite Heq.
    + destruct (cons_sound s Hs uid u oid Hu Hin) as (t0 & Ht0 & _). congruence.
  - intros t'. rewrite Hts, lookup_insert_eq. intros [= <-] Hc Ha. simpl in *.
    fold U in Ha. fold c in Hc.
    rewrite (proj2 (truthy_str_true U) Ha) in Hdoc |- *.
    destruct Hdoc as (doc & Hdoc & _). exists doc. split; [done|].
    rewrite Hc, bool_decide_eq_true_2 by done. cbn [negb andb].
    rewrite elem_of_normalize_user, elem_of_addToSet. by left.
Qed.

Lemma lookup_cascade_users id prev task (us : gmap string User) uid :
  cascade_users id prev task us !! uid = cascade_users_doc id prev task uid <$> us !! uid.
Proof.
  unfold cascade_users, cascade_users_doc.
  destruct (truthy_str prev && bool_decide (prev ≠ t_assignedUser task));
    destruct (truthy_str (t_assignedUser task)); cbn [andb];
    rewrite ?lookup_alter_fmap; destruct (us !! uid); try done; simpl;
    repeat case_bool_decide; done.
Qed.

Lemma put_tasks_id_consistent (s : Store) (id : string) (body : TaskBody) :
  Consistent s →
  status_of (eval (put_tasks_id id body) s) = 200 →
  Consistent (exec (put_tasks_id id body) s).
Proof.
  intros Hs Hok.
  destruct (put_tasks_id_ok _ _ _ Hok) as (task & uname & Ht & Hc & Hdoc & Hts & Hus).
  set (task' := updated_task body uname) in *.
  set (P := t_assignedUser task) in *.
  assert (HA : t_assignedUser task' = tb_assignedUser body) by done.
  assert (HC : t_completed task' = is_true (tb_completed body)) by done.
  set (A := tb_assignedUser body) in *. set (c := is_true (tb_completed body)) in *.
  eapply (single_task_step s _ id (cascade_users_doc id P task')); [done|..].
  - intros uid. by rewrite Hus, lookup_cascade_users.
  - intros tid Hne. by rewrite Hts, lookup_insert_ne.
  - intros uid u Hnd. unfold cascade_users_doc. rewrite HA, HC.
    destruct (truthy_str A && _); [apply NoDup_normalize_user|].
    destruct (truthy_str P && _ && _); [apply NoDup_normalize_user|done].
  - intros uid u y Hne. unfold cascade_users_doc. rewrite HA, HC.
    assert (Hu1 : y ∈ u_pendingTasks
                    (if truthy_str P && bool_decide (P ≠ A) && bool_decide (uid = P)
                     then normalize_user (pull id u) else u) ↔ y ∈ u_pendingTasks u).
    { destruct (truthy_str P && _ && _); [|done].
      rewrite elem_of_normalize_user, elem_of_pull. tauto. }
    destruct (truthy_str A && _); [|done].
    rewrite elem_of_normalize_user. destruct c.
    + rewrite elem_of_pull, Hu1. tauto.
    + rewrite elem_of_addToSet, Hu1. tauto.
  - intros uid u Hu Hin. rewrite Hts, lookup_insert_eq. exists task'.
    split; [done|]. rewrite HA, HC.
    unfold cascade_users_doc in Hin. rewrite HA, HC in Hin.
    destruct (truthy_str A && bool_decide (uid = A)) eqn:HcondA.
    + apply andb_true_iff in HcondA as [_ Heq%bool_decide_eq_true].
      destruct c; [|done].
      rewrite elem_of_normalize_user, elem_of_pull in Hin. tauto.
    + exfalso.
      destruct (truthy_str P && bool_decide (P ≠ A) && bool_decide (uid = P)) eqn:HcondP.
      { rewrite elem_of_normalize_user, elem_of_pull in Hin. tauto. }
      destruct (cons_sound s Hs uid u id Hu Hin) as (t0 & Ht0 & Ha0 & _).
      rewrite Ht in Ht0. injection Ht0 as <-. fold P in Ha0.
      assert (P ≠ "") as HP.
      { intros HP. rewrite HP in Ha0. subst uid. by rewrite (cons_ids s Hs) in Hu. }
      rewrite (proj2 (truthy_str_true P) HP) in HcondP.
      rewrite (bool_decide_eq_true_2 (uid = P)) in HcondP by done.
      destruct (decide (P = A)) as [HPA|HPA].
      * rewrite <- HPA, (proj2 (truthy_str_true P) HP) in HcondA.
        by rewrite bool_decide_eq_true_2 in HcondA.
      * by rewrite bool_decide_eq_true_2 in HcondP.
  - intros t'. rewrite Hts, lookup_insert_eq. intros [= <-] Hc' Ha'.
    rewrite HA in Ha' |- *. rewrite HC in Hc'.
    rewrite (proj2 (truthy_str_true A) Ha') in Hdoc.
    destruct Hdoc as (doc & Hdoc & _). exists doc. split; [done|].
    unfold cascade_users_doc. rewrite HA, HC, Hc'.
    rewrite (proj2 (truthy_str_true A) Ha'), bool_decide_eq_true_2 by done.
    cbn [andb]. rewrite elem_of_normalize_user, elem_of_addToSet. by left.
Qed.

(** *** Updating a User *)

Lemma cascade_task_fields id uname prevPending pending (ts : gmap string Task) tid t :
  let t' := cascade_task id uname prevPending pending ts tid t in
  t_completed t' = t_completed t ∧
  t_assignedUser t' =
    if bool_decide (tid ∈ incomplete_of pending ts) then id
    else if bool_decide (tid ∈ prevPending ∧ tid ∉ pending) && negb (t_completed t)
         then "" else t_assignedUser t.
Proof.
  intros t'. subst t'. unfold cascade_task, updateMany_doc, apply_task_update. simpl.
  assert (Hrem : bool_decide (tid ∈ filter (fun x => x ∉ pending) prevPending) =
                 bool_decide (tid ∈ prevPending ∧ tid ∉ pending)).
  { apply bool_decide_ext. rewrite list_elem_of_filter. tauto. }
  rewrite Hrem. clear Hrem.
  destruct (bool_decide (tid ∈ incomplete_of pending ts)) eqn:Hinc; simpl.
  - apply bool_decide_eq_true in Hinc. apply elem_of_incomplete_of in Hinc as [Hin _].
    rewrite (bool_decide_eq_false_2 (tid ∈ prevPending ∧ tid ∉ pending)) by tauto.
    simpl. rewrite bool_decide_eq_true_2 by done. done.
  - clear Hinc.
    destruct (bool_decide (tid ∈ prevPending ∧ tid ∉ pending) && negb (t_completed t));
      simpl; case_bool_decide; done.
Qed.

Lemma put_users_id_consistent (s : Store) (id : string) (body : UserBody) :
  Consistent s →
  status_of (eval (put_users_id id body) s) = 200 →
  Consistent (exec (put_users_id id body) s).
Proof.
  intros Hs Hok.
  destruct (put_users_id_ok _ _ _ Hok)
    as (u & Hu & Hn & He & Hall & Hnone & Hem & Hus & Hts & _).
  set (pending := new_pending (ub_pendingTasks body)) in *.
  set (s' := exec (put_users_id id body) s) in *.
  set (saved := mkUser (ub_name body) (ub_email body) pending) in *.
  assert (Hid : id ≠ "").
  { intros ->. by rewrite (cons_ids s Hs) in Hu. }
  assert (Hinc : ∀ tid, tid ∈ incomplete_of pending (tasks s) ↔ tid ∈ pending).
  { intros tid. rewrite elem_of_incomplete_of. split; [tauto|]. intros Hin.
    split; [done|]. destruct (Hall tid Hin) as [t Ht]. exists t. split; [done|].
    by apply (Hnone tid). }
  assert (Hself : ∀ y, y ∈ u_pendingTasks (cascade_user id pending (tasks s) id saved)
                       ↔ y ∈ pending).
  { intros y. unfold cascade_user. rewrite decide_True by done.
    rewrite elem_of_normalize_user. case_bool_decide; simpl; [apply Hinc | done]. }
  assert (Hother : ∀ uid u0 y, uid ≠ id → users s !! uid = Some u0 →
            y ∈ u_pendingTasks (cascade_user id pending (tasks s) uid u0) ↔
            y ∈ u_pendingTasks u0 ∧ y ∉ pending).
  { intros uid u0 y Hne Hu0. unfold cascade_user. rewrite decide_False by done.
    rewrite elem_of_loop_user. split; intros [Hy Hno]; (split; [done|]).
    - intros Hin. apply Hno.
      destruct (cons_sound s Hs uid u0 y Hu0 Hy) as (t & Ht & Ha & Hc).
      exists t. split; [by apply elem_of_find_in|].
      unfold taken_from. simpl. rewrite Ha. repeat split; try done.
      intros ->. by rewrite (cons_ids s Hs) in Hu0.
    - intros (t & [Hin _]%elem_of_find_in & _). done. }
  constructor.
  - by rewrite Hus, lookup_insert_ne, (cons_ids s Hs).
  - intros uid u'. rewrite Hus. intros (u0 & Hu0 & ->)%fmap_Some.
    unfold cascade_user. case_decide; [apply NoDup_normalize_user|].
    apply NoDup_loop_user. rewrite lookup_insert_ne in Hu0 by done.
    by eapply (cons_nodup s Hs).
  - intros uid u' tid. rewrite Hus. intros (u0 & Hu0 & ->)%fmap_Some Hin.
    destruct (decide (uid = id)) as [->|Hne].
    + rewrite lookup_insert_eq in Hu0. injection Hu0 as <-.
      apply Hself in Hin. destruct (Hall tid Hin) as [t Ht].
      rewrite Hts, Ht. simpl. eexists. split; [done|].
      destruct (cascade_task_fields id (ub_name body) (u_pendingTasks u) pending
                  (tasks s) tid t) as [-> ->].
      rewrite bool_decide_eq_true_2 by (by apply Hinc).
      split; [done|]. by apply (Hnone tid).
    + rewrite lookup_insert_ne in Hu0 by done.
      apply (Hother uid u0 tid Hne Hu0) in Hin as [Hin Hnp].
      destruct (cons_sound s Hs uid u0 tid Hu0 Hin) as (t & Ht & Ha & Hc).
      rewrite Hts, Ht. simpl. eexists. split; [done|].
      destruct (cascade_task_fields id (ub_name body) (u_pendingTasks u) pending
                  (tasks s) tid t) as [-> ->].
      rewrite bool_decide_eq_false_2 by (by rewrite Hinc).
      rewrite (bool_decide_eq_false_2 (tid ∈ u_pendingTasks u ∧ tid ∉ pending)).
      { done. }
      intros [Hprev _]. destruct (cons_sound s Hs id u tid Hu Hprev) as (t0 & Ht0 & Ha0 & _).
      congruence.
  - intros tid t'. rewrite Hts. intros (t & Ht & ->)%fmap_Some.
    destruct (cascade_task_fields id (ub_name body) (u_pendingTasks u) pending
                (tasks s) tid t) as [-> ->].
    intros Hc Ha.
    destruct (decide (tid ∈ pending)) as [Hin|Hnin].
    + rewrite bool_decide_eq_true_2 by (by apply Hinc).
      exists (cascade_user id pending (tasks s) id saved).
      rewrite Hus, lookup_insert_eq. split; [done|]. by apply Hself.
    + rewrite bool_decide_eq_false_2 in Ha |- * by (by rewrite Hinc).
      rewrite Hc in Ha |- *. simpl in Ha |- *. rewrite andb_true_r in Ha |- *.
      destruct (decide (tid ∈ u_pendingTasks u)) as [Hprev|Hnprev].
      { by rewrite bool_decide_eq_true_2 in Ha by done. }
      rewrite bool_decide_eq_false_2 in Ha |- * by tauto.
      destruct (cons_complete s Hs tid t Ht Hc Ha) as (ua & Hua & Hina).
      assert (t_assignedUser t ≠ id) as Hne.
      { intros Heq. rewrite Heq, Hu in Hua. by injection Hua as <-. }
      exists (cascade_user id pending (tasks s) (t_assignedUser t) ua).
      rewrite Hus, lookup_insert_ne, Hua by done. split; [done|].
      by apply Hother.
Qed.

(** *** Every operation *)

Lemma put_users_check_status pending s r :
  eval (put_users_check pending) s = Some r → status_of r = 404 ∨ status_of r = 400.
Proof.
  unfold put_users_check. case_bool_decide; mstep; [|done].
  case_bool_decide; mstep; [intros [= <-]; by left|].
  destruct (existsb _ _); mstep; [intros [= <-]; by right | done].
Qed.

Lemma post_users_effect (s : Store) (oid : string) (body : UserBody) :
  let r := eval (post_users oid body) s in
  let s' := exec (post_users oid body) s in
  status_of r = 201 ∨
  (status_of r = 400 ∧ users s' = users s ∧ tasks s' = tasks s).
Proof.
  intros r s'. subst r s'. unfold post_users.
  destruct (negb (truthy_str (ub_name body)) || negb (truthy_str (ub_email body)));
    [mstep; right; auto|].
  destruct (negb (emailContainsAt (JsStr (ub_email body)))); [mstep; right; auto|].
  destruct (truthy (ub_pendingTasks body) && truthy_length (ub_pendingTasks body));
    [mstep; right; auto|].
  mstep.
  destruct (bool_decide (is_Some (users s !! oid)) || email_taken oid (ub_email body) (users s));
    mstep; [right; auto | by left].
Qed.

Lemma put_users_id_effect (s : Store) (id : string) (body : UserBody) :
  let r := eval (put_users_id id body) s in
  let s' := exec (put_users_id id body) s in
  status_of r = 200 ∨
  ((status_of r = 400 ∨ status_of r = 404) ∧ users s' = users s ∧ tasks s' = tasks s).
Proof.
  intros r s'. subst r s'. unfold put_users_id.
  destruct (negb (truthy_str (ub_name body)) || negb (truthy_str (ub_email body)));
    [mstep; right; auto|].
  destruct (negb (emailContainsAt (JsStr (ub_email body)))); [mstep; right; auto|].
  mstep. destruct (users s !! id) as [u|]; [|mstep; right; auto].
  mstep. destruct (eval (put_users_check _) _) as [r|] eqn:Hcheck.
  - mstep. apply put_users_check_status in Hcheck. right. split; [tauto|done].
  - mstep. destruct (email_taken _ _ _); mstep; [right; auto | by left].
Qed.

Lemma delete_users_id_effect (s : Store) (id : string) :
  let r := eval (delete_users_id id) s in
  let s' := exec (delete_users_id id) s in
  status_of r = 204 ∨
  (status_of r = 404 ∧ users s' = users s ∧ tasks s' = tasks s).
Proof. unfold delete_users_id. effect_cases. Qed.

Lemma post_tasks_save_effect (s : Store) (oid : string) (t : Task) :
  let r := eval (post_tasks_save oid t) s in
  let s' := exec (post_tasks_save oid t) s in
  status_of r = 201 ∨
  (status_of r = 500 ∧ users s' = users s ∧ tasks s' = tasks s).
Proof.
  intros r s'. subst r s'. unfold post_tasks_save. mstep.
  destruct (bool_decide (is_Some (tasks s !! oid))); mstep; [right; auto | by left].
Qed.

Lemma post_tasks_effect (s : Store) (oid : string) (body : TaskBody) :
  let r := eval (post_tasks oid body) s in
  let s' := exec (post_tasks oid body) s in
  status_of r = 201 ∨
  ((status_of r = 400 ∨ status_of r = 404 ∨ status_of r = 500)
   ∧ users s' = users s ∧ tasks s' = tasks s).
Proof.
  intros r s'. subst r s'. unfold post_tasks.
  destruct (negb (truthy_str (tb_name body)) || negb (truthy_str (tb_deadline body)));
    [mstep; right; auto|].
  destruct (truthy_str (tb_assignedUser body)).
  - mstep. destruct (users s !! tb_assignedUser body) as [doc|]; [|mstep; right; auto].
    destruct (match tb_assignedUserName body with Some _ => _ | None => _ end);
      [mstep; right; auto|].
    match goal with
    | |- context [eval (post_tasks_save ?o ?t) ?s1] =>
        destruct (post_tasks_save_effect s1 o t) as [?|(?&?&?)]
    end; [by left | right; auto].
  - destruct (post_tasks_save_effect s oid
                (mkTask (tb_name body) (or_default (tb_description body) "")
                   (tb_deadline body) (is_true (tb_completed body))
                   (or_default (tb_assignedUser body) "")
                   (name_or_unassigned (tb_assignedUserName body))))
      as [?|(?&?&?)]; [by left | right; auto].
Qed.

Lemma put_tasks_id_effect (s : Store) (id : string) (body : TaskBody) :
  let r := eval (put_tasks_id id body) s in
  let s' := exec (put_tasks_id id body) s in
  status_of r = 200 ∨
  ((status_of r = 400 ∨ status_of r = 404) ∧ users s' = users s ∧ tasks s' = tasks s).
Proof.
  intros r s'. subst r s'. unfold put_tasks_id.
  destruct (negb (truthy_str (tb_name body)) || negb (truthy_str (tb_deadline body)));
    [mstep; right; auto|].
  mstep. destruct (tasks s !! id) as [task|]; [|mstep; right; auto].
  destruct (t_completed task); [mstep; right; auto|].
  destruct (truthy_str (tb_assignedUser body)); [|mstep; by left].
  mstep. destruct (users s !! tb_assignedUser body) as [doc|]; [|mstep; right; auto].
  destruct (name_mismatch (tb_assignedUserName body) (u_name doc));
    mstep; [right; auto | by left].
Qed.

Lemma delete_tasks_id_effect (s : Store) (id : string) :
  let r := eval (delete_tasks_id id) s in
  let s' := exec (delete_tasks_id id) s in
  status_of r = 204 ∨
  (status_of r = 404 ∧ users s' = users s ∧ tasks s' = tasks s).
Proof. unfold delete_tasks_id. effect_cases. Qed.

Lemma post_users_succeeded s oid body :
  succeeded (eval (post_users oid body) s) →
  status_of (eval (post_users oid body) s) = 201.
Proof.
  unfold succeeded. destruct (post_users_effect s oid body) as [Hok|(Hst & _)]; [done|].
  revert Hst. simpl. lia.
Qed.

Lemma delete_users_id_succeeded s id :
  succeeded (eval (delete_users_id id) s) →
  status_of (eval (delete_users_id id) s) = 204.
Proof.
  unfold succeeded. destruct (delete_users_id_effect s id) as [Hok|(Hst & _)]; [done|].
  revert Hst. simpl. lia.
Qed.

Lemma post_tasks_succeeded s oid body :
  succeeded (eval (post_tasks oid body) s) →
  status_of (eval (post_tasks oid body) s) = 201.
Proof.
  unfold succeeded. destruct (post_tasks_effect s oid body) as [Hok|(Hst & _)]; [done|].
  revert Hst. simpl. lia.
Qed.

Lemma put_tasks_id_succeeded s id body :
  succeeded (eval (put_tasks_id id body) s) →
  status_of (eval (put_tasks_id id body) s) = 200.
Proof.
  unfold succeeded. destruct (put_tasks_id_effect s id body) as [Hok|(Hst & _)]; [done|].
  revert Hst. simpl. lia.
Qed.

Lemma delete_tasks_id_succeeded s id :
  succeeded (eval (delete_tasks_id id) s) →
  status_of (eval (delete_tasks_id id) s) = 204.
Proof.
  unfold succeeded. destruct (delete_tasks_id_effect s id) as [Hok|(Hst & _)]; [done|].
  revert Hst. simpl. lia.
Qed.

Lemma put_users_id_succeeded s id body :
  succeeded (eval (put_users_id id body) s) →
  status_of (eval (put_users_id id body) s) = 200.
Proof.
  unfold put_users_id.
  destruct (negb (truthy_str (ub_name body)) || negb (truthy_str (ub_email body)));
    [status_cases|].
  destruct (negb (emailContainsAt (JsStr (ub_email body)))); [status_cases|].
  mstep. destruct (users s !! id) as [u|]; [|status_cases].
  mstep. destruct (eval (put_users_check _) _) as [r|] eqn:Hcheck.
  - mstep. apply put_users_check_status in Hcheck. unfold succeeded. lia.
  - mstep. destruct (email_taken _ _ _); status_cases.
Qed.

(** C1: from a consistent store (no User with an empty id; pending lists
    without duplicates that hold only ids of Tasks assigned to their User
    and not completed; every assigned, not completed Task listed by its
    assignee) each of the six mutating operations that answers 2xx leads to
    a consistent store, in which the assignee of every assigned, not
    completed Task lists it exactly once and no User lists a Task that is
    completed or unassigned. *)
Theorem operations_keep_invariants (s : Store) (op : Operation) :
  Consistent s → well_formed op →
  succeeded (eval (run op) s) →
  let s' := exec (run op) s in
  Consistent s' ∧ invariant1 s' ∧ invariant2 s'.
Proof.
  intros Hs Hwf Hok s'.
  assert (Hs' : Consistent s').
  { subst s'. destruct op as [oid body|id body|id|oid body|id body|id]; simpl in *.
    - by apply post_users_consistent, post_users_succeeded.
    - by apply put_users_id_consistent, put_users_id_succeeded.
    - by apply delete_users_id_consistent, delete_users_id_succeeded.
    - by apply post_tasks_consistent, post_tasks_succeeded.
    - by apply put_tasks_id_consistent, put_tasks_id_succeeded.
    - by apply delete_tasks_id_consistent, delete_tasks_id_succeeded. }
  split; [done|]. split; [by apply Consistent_invariant1 | by apply Consistent_invariant2].
Qed.

(** * Further properties of the handlers *)

(** ** An operation that fails writes nothing *)

Lemma run_effect (s : Store) (op : Operation) :
  succeeded (eval (run op) s) ∨
  (users (exec (run op) s) = users s ∧ tasks (exec (run op) s) = tasks s).
Proof.
  unfold succeeded.
  destruct op as [oid body|id body|id|oid body|id body|id]; simpl.
  - destruct (post_users_effect s oid body) as [->|[_ ?]]; [left; lia|by right].
  - destruct (put_users_id_effect s id body) as [->|[_ ?]]; [left; lia|by right].
  - destruct (delete_users_id_effect s id) as [->|[_ ?]]; [left; lia|by right].
  - destruct (post_tasks_effect s oid body) as [->|[_ ?]]; [left; lia|by right].
  - destruct (put_tasks_id_effect s id body) as [->|[_ ?]]; [left; lia|by right].
  - destruct (delete_tasks_id_effect s id) as [->|[_ ?]]; [left; lia|by right].
Qed.


(** ** Consistency along a sequence of operations *)

Lemma Consistent_same (s s' : Store) :
  users s' = users s → tasks s' = tasks s → Consistent s → Consistent s'.
Proof.
  intros Hu Ht [H1 H2 H3 H4].
  split; rewrite ?Hu, ?Ht; done.
Qed.

Lemma run_consistent (s : Store) (op : Operation) :
  Consistent s → well_formed op → Consistent (exec (run op) s).
Proof.
  intros Hs Hwf. destruct (run_effect s op) as [Hok|[Hu Ht]].
  - destruct op as [oid body|id body|id|oid body|id body|id]; simpl in *.
    + by apply post_users_consistent, post_users_succeeded.
    + by apply put_users_id_consistent, put_users_id_succeeded.
    + by apply delete_users_id_consistent, delete_users_id_succeeded.
    + by apply post_tasks_consistent, post_tasks_succeeded.
    + by apply put_tasks_id_consistent, put_tasks_id_succeeded.
    + by apply delete_tasks_id_consistent, delete_tasks_id_succeeded.
  - by apply (Consistent_same s).
Qed.

Lemma run_all_consistent (ops : list Operation) (s : Store) :
  Consistent s → Forall well_formed ops → Consistent (run_all ops s).
Proof.
  revert s. induction ops as [|op ops IH]; intros s Hs Hwf; [done|].
  apply Forall_cons in Hwf as [Hop Hops]. simpl.
  apply IH; [|done]. by apply run_consistent.
Qed.

Lemma empty_store_consistent : Consistent empty_store.
Proof.
  split; simpl.
  - apply lookup_empty.
  - intros uid u. by rewrite lookup_empty.
  - intros uid u tid. by rewrite lookup_empty.
  - intros tid t. by rewrite lookup_empty.
Qed.

(** After any sequence of the six mutating operations run from the store
    with no document, whatever each of them answers, the store is
    consistent: the assignee of every assigned, not completed Task lists it
    exactly once (invariant 1), no User lists a Task that is completed or
    unassigned (invariant 2), and no pending list repeats an id
    (invariant 4). *)
Theorem invariants_after_any_sequence (ops : list Operation) :
  Forall well_formed ops →
  let s := run_all ops empty_store in
  Consistent s ∧ invariant1 s ∧ invariant2 s ∧ invariant4 s.
Proof.
  intros Hwf s.
  assert (Hs : Consistent s) by (by apply run_all_consistent; [apply empty_store_consistent|]).
  split; [done|]. split; [by apply Consistent_invariant1|].
  split; [by apply Consistent_invariant2|].
  intros uid u. apply (cons_nodup _ Hs).
Qed.

(** ** What no operation does to a document *)

Lemma updateMany_doc_fields flt upd tid t :
  let t' := updateMany_doc flt upd tid t in
  t_name t' = t_name t ∧ t_description t' = t_description t ∧
  t_deadline t' = t_deadline t ∧ t_completed t' = t_completed t.
Proof.
  unfold updateMany_doc, apply_task_update.
  destruct (task_matches flt tid t); [|done]. by destruct upd.
Qed.

Lemma cascade_task_kept id uname prevPending pending (ts : gmap string Task) tid t :
  let t' := cascade_task id uname prevPending pending ts tid t in
  t_name t' = t_name t ∧ t_description t' = t_description t ∧
  t_deadline t' = t_deadline t ∧ t_completed t' = t_completed t.
Proof.
  unfold cascade_task.
  repeat match goal with
  | |- context [updateMany_doc ?f ?u ?i ?x] =>
      let H := fresh in
      pose proof (updateMany_doc_fields f u i x) as H; simpl in H;
      destruct H as (-> & -> & -> & ->)
  end.
  done.
Qed.

(** What an operation leaves of the Task [tid]: the Task is gone, or it is
    the document the operation saved under that id, or it kept its name,
    description, deadline and completed flag. *)
Lemma run_task (s : Store) (op : Operation) (tid : string) (t : Task) :
  tasks s !! tid = Some t →
  let s' := exec (run op) s in
  (op = OpTaskDelete tid ∧ tasks s' !! tid = None)
  ∨ (∃ body t', op = OpTaskUpdate tid body ∧ t_completed t = false ∧
                tasks s' !! tid = Some t')
  ∨ (∃ t', tasks s' !! tid = Some t' ∧
           t_name t' = t_name t ∧ t_description t' = t_description t ∧
           t_deadline t' = t_deadline t ∧ t_completed t' = t_completed t).
Proof.
  intros Ht s'. subst s'.
  assert (Hsame : ∀ s', tasks s' = tasks s →
            ∃ t', tasks s' !! tid = Some t' ∧
              t_name t' = t_name t ∧ t_description t' = t_description t ∧
              t_deadline t' = t_deadline t ∧ t_completed t' = t_completed t).
  { intros s' ->. by exists t. }
  destruct op as [oid body|id body|id|oid body|id body|id]; simpl.
  - right; right. destruct (post_users_effect s oid body) as [Hok|(_&_&Hts)]; [|by apply Hsame].
    apply post_users_ok in Hok as (_ & _ & Hts). by apply Hsame.
  - right; right. destruct (put_users_id_effect s id body) as [Hok|(_&_&Hts)]; [|by apply Hsame].
    apply put_users_id_ok in Hok as (u & _ & _ & _ & _ & _ & _ & _ & Hts & _).
    rewrite Hts, Ht. simpl. eexists; split; [done|]. apply cascade_task_kept.
  - right; right. destruct (delete_users_id_effect s id) as [Hok|(_&_&Hts)]; [|by apply Hsame].
    apply delete_users_id_ok in Hok as (u & _ & _ & Hts).
    rewrite Hts, Ht. simpl. eexists; split; [done|]. apply updateMany_doc_fields.
  - right; right. destruct (post_tasks_effect s oid body) as [Hok|(_&_&Hts)]; [|by apply Hsame].
    apply post_tasks_ok in Hok as (uname & Hfresh & _ & Hts & _).
    rewrite Hts. exists t. split; [|done].
    rewrite lookup_insert_ne; [done|]. intros ->. by rewrite Hfresh in Ht.
  - destruct (put_tasks_id_effect s id body) as [Hok|(_&_&Hts)];
      [|right; right; by apply Hsame].
    apply put_tasks_id_ok in Hok as (task & uname & Hid & Hc & _ & Hts & _).
    destruct (decide (tid = id)) as [->|Hne].
    + right; left. exists body, (updated_task body uname).
      rewrite Hts, lookup_insert_eq. split; [done|]. split; [congruence|done].
    + right; right. exists t. by rewrite Hts, lookup_insert_ne.
  - destruct (delete_tasks_id_effect s id) as [Hok|(_&_&Hts)];
      [|right; right; by apply Hsame].
    apply delete_tasks_id_ok in Hok as (t0 & _ & Hts & _).
    destruct (decide (tid = id)) as [->|Hne].
    + left. by rewrite Hts, lookup_delete_eq.
    + right; right. exists t. by rewrite Hts, lookup_delete_ne.
Qed.

(** A completed Task is frozen: after any of the six mutating operations,
    whatever it answers, the Task is still stored with the same name,
    description and deadline and is still completed, unless the operation
    is the DELETE of that very Task. *)
Theorem completed_task_is_frozen (s : Store) (op : Operation) (tid : string) (t : Task) :
  tasks s !! tid = Some t → t_completed t = true →
  let s' := exec (run op) s in
  (op = OpTaskDelete tid ∧ tasks s' !! tid = None)
  ∨ (∃ t', tasks s' !! tid = Some t' ∧ t_completed t' = true ∧
           t_name t' = t_name t ∧ t_description t' = t_description t ∧
           t_deadline t' = t_deadline t).
Proof.
  intros Ht Hc s'.
  destruct (run_task s op tid t Ht) as [?|[(body & t' & _ & Hf & _)|(t' & ? & ? & ? & ? & Hc')]].
  - by left.
  - congruence.
  - right. exists t'. rewrite Hc' . tauto.
Qed.

(** *** The name and email of a User *)

Lemma post_users_validated (s : Store) (oid : string) (body : UserBody) :
  status_of (eval (post_users oid body) s) = 201 →
  ub_name body ≠ "" ∧ includes_char "@"%char (ub_email body) = true.
Proof.
  unfold post_users.
  destruct (negb (truthy_str (ub_name body)) || negb (truthy_str (ub_email body))) eqn:H1;
    [mstep; done|].
  destruct (negb (emailContainsAt (JsStr (ub_email body)))) eqn:H2; [mstep; done|].
  intros _. apply orb_false_elim in H1 as [H1 _].
  apply negb_false_iff in H1, H2. by apply truthy_str_true in H1.
Qed.

Lemma put_users_id_validated (s : Store) (id : string) (body : UserBody) :
  status_of (eval (put_users_id id body) s) = 200 →
  ub_name body ≠ "" ∧ includes_char "@"%char (ub_email body) = true.
Proof.
  unfold put_users_id.
  destruct (negb (truthy_str (ub_name body)) || negb (truthy_str (ub_email body))) eqn:H1;
    [mstep; done|].
  destruct (negb (emailContainsAt (JsStr (ub_email body)))) eqn:H2; [mstep; done|].
  intros _. apply orb_false_elim in H1 as [H1 _].
  apply negb_false_iff in H1, H2. by apply truthy_str_true in H1.
Qed.

Lemma keeps_identity_update upd : keeps_identity (apply_user_update upd).
Proof. intros u. by destruct upd. Qed.

Lemma keeps_identity_normalize : keeps_identity normalize_user.
Proof. done. Qed.

Lemma keeps_identity_loop id uid found : keeps_identity (loop_user id uid found).
Proof.
  unfold loop_user. induction found as [|kv found IH] using rev_ind; intros u; [done|].
  rewrite foldl_app. simpl. specialize (IH u). simpl in IH.
  set (v := foldl _ u found) in *.
  destruct (_ || _); [done|]. destruct (bool_decide _); [|done].
  unfold normalize_user, pull, apply_user_update. simpl. done.
Qed.

Lemma keeps_identity_cascade_user id pending ts uid :
  keeps_identity (cascade_user id pending ts uid).
Proof.
  intros u. unfold cascade_user. destruct (decide (uid = id)).
  - by destruct (bool_decide _).
  - apply keeps_identity_loop.
Qed.

Lemma keeps_identity_cascade_users_doc id prev task uid :
  keeps_identity (cascade_users_doc id prev task uid).
Proof.
  intros u. unfold cascade_users_doc.
  destruct (_ && _ && _), (_ && _), (t_completed task); done.
Qed.

(** What an operation leaves of the Users: a failed operation and the
    operations on Tasks keep every User, with its name and email; a
    creation adds a User whose name and email passed the tests; an update
    puts the tested name and email on its User; a deletion removes its
    User. *)
Lemma run_users (s : Store) (op : Operation) :
  let s' := exec (run op) s in
  ∃ g : string → User → User,
    (∀ uid, keeps_identity (g uid)) ∧
    ((∀ uid, users s' !! uid = g uid <$> users s !! uid)
     ∨ (∃ oid body, op = OpUserCreate oid body ∧ users s !! oid = None ∧
          ub_name body ≠ "" ∧ includes_char "@"%char (ub_email body) = true ∧
          users s' = <[oid := mkUser (ub_name body) (ub_email body) []]> (users s))
     ∨ (∃ id body, op = OpUserUpdate id body ∧ is_Some (users s !! id) ∧
          ub_name body ≠ "" ∧ includes_char "@"%char (ub_email body) = true ∧
          ∀ uid, users s' !! uid =
            g uid <$> <[id := mkUser (ub_name body) (ub_email body)
                             (new_pending (ub_pendingTasks body))]> (users s) !! uid)
     ∨ (∃ id, op = OpUserDelete id ∧ users s' = delete id (users s))).
Proof.
  intros s'. subst s'.
  assert (Hsame : ∀ s', users s' = users s →
            ∃ g : string → User → User, (∀ uid, keeps_identity (g uid)) ∧
              ∀ uid, users s' !! uid = g uid <$> users s !! uid).
  { intros s' ->. exists (fun _ u => u). split; [done|]. intros uid.
    by destruct (users s !! uid). }
  destruct op as [oid body|id body|id|oid body|id body|id]; simpl.
  - destruct (post_users_effect s oid body) as [Hok|(_&Hus&_)].
    + exists (fun _ u => u). split; [done|]. right; left. exists oid, body.
      destruct (post_users_validated _ _ _ Hok) as [? ?].
      apply post_users_ok in Hok as (? & ? & _). done.
    + destruct (Hsame _ Hus) as (g & ? & ?). exists g. auto.
  - destruct (put_users_id_effect s id body) as [Hok|(_&Hus&_)].
    + exists (cascade_user id (new_pending (ub_pendingTasks body)) (tasks s)).
      split; [intros uid; apply keeps_identity_cascade_user|].
      right; right; left. exists id, body.
      destruct (put_users_id_validated _ _ _ Hok) as [? ?].
      apply put_users_id_ok in Hok as (u & Hu & _ & _ & _ & _ & _ & Hus & _).
      rewrite Hu. done.
    + destruct (Hsame _ Hus) as (g & ? & ?). exists g. auto.
  - destruct (delete_users_id_effect s id) as [Hok|(_&Hus&_)].
    + exists (fun _ u => u). split; [done|]. right; right; right. exists id.
      apply delete_users_id_ok in Hok as (u & _ & Hus & _). done.
    + destruct (Hsame _ Hus) as (g & ? & ?). exists g. auto.
  - destruct (post_tasks_effect s oid body) as [Hok|(_&Hus&_)].
    + apply post_tasks_ok in Hok as (uname & _ & _ & _ & Hus).
      destruct (_ && _); [|destruct (Hsame _ Hus) as (g & ? & ?); exists g; auto].
      exists (fun uid u => if bool_decide (uid = tb_assignedUser body)
                           then normalize_user (addToSet oid u) else u).
      split; [intros uid u; by destruct (bool_decide _)|]. left. intros uid.
      rewrite Hus, !lookup_alter_fmap, <- option_fmap_compose.
      apply option_fmap_ext. intros u. simpl. by destruct (bool_decide _).
    + destruct (Hsame _ Hus) as (g & ? & ?). exists g. auto.
  - destruct (put_tasks_id_effect s id body) as [Hok|(_&Hus&_)].
    + apply put_tasks_id_ok in Hok as (task & uname & _ & _ & _ & _ & Hus).
      exists (cascade_users_doc id (t_assignedUser task) (updated_task body uname)).
      split; [intros uid; apply keeps_identity_cascade_users_doc|]. left. intros uid.
      by rewrite Hus, lookup_cascade_users.
    + destruct (Hsame _ Hus) as (g & ? & ?). exists g. auto.
  - destruct (delete_tasks_id_effect s id) as [Hok|(_&Hus&_)].
    + apply delete_tasks_id_ok in Hok as (t & _ & _ & Hus).
      exists (fun uid u => if truthy_str (t_assignedUser t) && bool_decide (uid = t_assignedUser t)
                           then normalize_user (pull id u) else u).
      split; [intros uid u; by destruct (_ && _)|]. by left.
    + destruct (Hsame _ Hus) as (g & ? & ?). exists g. auto.
Qed.

Lemma delete_users_id_found (s : Store) (id : string) (u : User) :
  users s !! id = Some u → status_of (eval (delete_users_id id) s) = 204.
Proof. intros Hu. unfold delete_users_id. mstep. rewrite Hu. by mstep. Qed.

Lemma delete_tasks_id_found (s : Store) (id : string) (t : Task) :
  tasks s !! id = Some t → status_of (eval (delete_tasks_id id) s) = 204.
Proof. intros Ht. unfold delete_tasks_id. mstep. rewrite Ht. by mstep. Qed.

Lemma run_user_kept (s : Store) (op : Operation) (uid : string) (u : User) :
  users s !! uid = Some u →
  op ≠ OpUserDelete uid → (∀ body, op ≠ OpUserUpdate uid body) →
  ∃ u', users (exec (run op) s) !! uid = Some u'
        ∧ u_name u' = u_name u ∧ u_email u' = u_email u.
Proof.
  intros Hu Hdel Hupd.
  destruct (run_users s op) as (g & Hg & [Hus|[Hus|[Hus|Hus]]]).
  - exists (g uid u). rewrite Hus, Hu. split; [done|]. apply Hg.
  - destruct Hus as (oid & body & _ & Hfresh & _ & _ & ->).
    exists u. split; [|done].
    rewrite lookup_insert_ne; [done|]. intros ->. by rewrite Hfresh in Hu.
  - destruct Hus as (id & body & -> & _ & _ & _ & Hus).
    assert (Hne : uid ≠ id) by (intros ->; by apply (Hupd body)).
    exists (g uid u). rewrite Hus, lookup_insert_ne, Hu by done. split; [done|]. apply Hg.
  - destruct Hus as (id & -> & ->).
    assert (Hne : uid ≠ id) by (intros ->; by apply Hdel).
    exists u. by rewrite lookup_delete_ne.
Qed.

(** What each operation leaves of a stored User: the DELETE of that User
    answers 204 and removes it; the PUT of that User puts the name and the
    email of the request on it when it answers 200, and leaves the User as
    it was when it answers anything else; the DELETE of another User leaves
    it as it was; every other operation, whatever it answers, leaves it
    stored with the same name and the same email. *)
Theorem user_identity_is_kept (s : Store) (op : Operation) (uid : string) (u : User) :
  users s !! uid = Some u →
  let r := eval (run op) s in
  let s' := exec (run op) s in
  let kept := ∃ u', users s' !! uid = Some u'
                    ∧ u_name u' = u_name u ∧ u_email u' = u_email u in
  match op with
  | OpUserDelete id =>
      if decide (id = uid) then status_of r = 204 ∧ users s' !! uid = None
      else users s' !! uid = Some u
  | OpUserUpdate id body =>
      if decide (id = uid)
      then (status_of r = 200 →
              ∃ u', users s' !! uid = Some u'
                    ∧ u_name u' = ub_name body ∧ u_email u' = ub_email body)
           ∧ (status_of r ≠ 200 → users s' !! uid = Some u)
      else kept
  | _ => kept
  end.
Proof.
  intros Hu r s' kept. subst r s' kept.
  destruct op as [oid body|id body|id|oid body|id body|id];
    try (by apply run_user_kept).
  - case_decide as Hid; [subst id|apply run_user_kept; [done|done|congruence]].
    simpl. split.
    + intros Hok.
      apply put_users_id_ok in Hok as (u0 & _ & _ & _ & _ & _ & _ & Hus & _).
      eexists. rewrite Hus, lookup_insert_eq. simpl. split; [done|].
      apply keeps_identity_cascade_user.
    + intros Hnot. destruct (put_users_id_effect s uid body) as [?|(_ & -> & _)]; done.
  - simpl. case_decide as Hid; [subst id|].
    + pose proof (delete_users_id_found _ _ _ Hu) as Hok. split; [done|].
      apply delete_users_id_ok in Hok as (u0 & _ & -> & _). apply lookup_delete_eq.
    + destruct (delete_users_id_effect s id) as [Hok|(_ & -> & _)]; [|done].
      apply delete_users_id_ok in Hok as (u0 & _ & -> & _). by rewrite lookup_delete_ne.
Qed.

Lemma run_users_valid (s : Store) (op : Operation) :
  users_valid s → users_valid (exec (run op) s).
Proof.
  intros Hs uid u'.
  destruct (run_users s op) as (g & Hg & [Hus|[Hus|[Hus|Hus]]]).
  - rewrite Hus. destruct (users s !! uid) as [u|] eqn:Hu; [|done].
    intros [= <-]. destruct (Hg uid u) as [-> ->]. by apply (Hs uid).
  - destruct Hus as (oid & body & _ & _ & Hn & He & ->).
    destruct (decide (uid = oid)) as [->|Hne].
    + rewrite lookup_insert_eq. by intros [= <-].
    + rewrite lookup_insert_ne by done. apply Hs.
  - destruct Hus as (id & body & _ & _ & Hn & He & Hus). rewrite Hus.
    destruct (decide (uid = id)) as [->|Hne].
    + rewrite lookup_insert_eq. simpl. intros [= <-].
      by destruct (Hg id (mkUser (ub_name body) (ub_email body)
                            (new_pending (ub_pendingTasks body)))) as [-> ->].
    + rewrite lookup_insert_ne by done.
      destruct (users s !! uid) as [u|] eqn:Hu; [|done].
      intros [= <-]. destruct (Hg uid u) as [-> ->]. by apply (Hs uid).
  - destruct Hus as (id & _ & ->).
    destruct (decide (uid = id)) as [->|Hne].
    + by rewrite lookup_delete_eq.
    + rewrite lookup_delete_ne by done. apply Hs.
Qed.

(** Every stored User has a non-empty name and an email that holds an [@]:
    the property is kept by every sequence of the six mutating operations,
    whatever each of them answers. *)
Theorem users_stay_valid (ops : list Operation) (s : Store) :
  users_valid s → users_valid (run_all ops s).
Proof.
  revert s. induction ops as [|op ops IH]; intros s Hs; [done|].
  simpl. by apply IH, run_users_valid.
Qed.

(** *** Which documents exist *)

Lemma is_Some_fmap_lookup {A} (g : A → A) (m m' : gmap string A) (k : string) :
  m' !! k = g <$> m !! k → is_Some (m' !! k) ↔ is_Some (m !! k).
Proof. intros ->. apply fmap_is_Some. Qed.

Lemma is_Some_insert_fresh {A} (m : gmap string A) (k oid : string) (x : A) :
  m !! oid = None → is_Some (<[oid := x]> m !! k) ↔ is_Some (m !! k) ∨ k = oid.
Proof.
  intros Hfresh. destruct (decide (k = oid)) as [->|Hne].
  - rewrite lookup_insert_eq, Hfresh. split; [by right | by eexists].
  - rewrite lookup_insert_ne by done. tauto.
Qed.

Lemma is_Some_delete {A} (m : gmap string A) (k id : string) :
  is_Some (delete id m !! k) ↔ is_Some (m !! k) ∧ k ≠ id.
Proof.
  destruct (decide (k = id)) as [->|Hne].
  - rewrite lookup_delete_eq. split; [by intros [? ?] | tauto].
  - rewrite lookup_delete_ne by done. tauto.
Qed.

(** An operation adds or removes at most the one document it names: a
    creation adds the document of the new id exactly when it answers 201, a
    deletion removes the document of its id, an update neither adds nor
    removes a document, and no operation on one collection adds or removes
    a document of the other. *)
Theorem documents_after_operation (s : Store) (op : Operation) (k : string) :
  let r := eval (run op) s in
  let s' := exec (run op) s in
  let U := is_Some (users s !! k) in
  let T := is_Some (tasks s !! k) in
  let U' := is_Some (users s' !! k) in
  let T' := is_Some (tasks s' !! k) in
  match op with
  | OpUserCreate oid _ => (U' ↔ U ∨ (k = oid ∧ status_of r = 201)) ∧ (T' ↔ T)
  | OpUserDelete id => (U' ↔ U ∧ k ≠ id) ∧ (T' ↔ T)
  | OpTaskCreate oid _ => (U' ↔ U) ∧ (T' ↔ T ∨ (k = oid ∧ status_of r = 201))
  | OpTaskDelete id => (U' ↔ U) ∧ (T' ↔ T ∧ k ≠ id)
  | OpUserUpdate _ _ | OpTaskUpdate _ _ => (U' ↔ U) ∧ (T' ↔ T)
  end.
Proof.
  intros r s' U T U' T'. subst r s' U T U' T'.
  destruct op as [oid body|id body|id|oid body|id body|id]; simpl.
  - destruct (post_users_effect s oid body) as [Hok|(Hst & -> & ->)].
    + pose proof Hok as Hst. apply post_users_ok in Hok as (Hfresh & -> & ->).
      rewrite is_Some_insert_fresh by done. tauto.
    + split; [|done]. split; [tauto|]. intros [?|[_ ?]]; [done|congruence].
  - destruct (put_users_id_effect s id body) as [Hok|(_ & -> & ->)]; [|done].
    apply put_users_id_ok in Hok as (u & Hu & _ & _ & _ & _ & _ & Hus & Hts & _).
    split; [|by apply (is_Some_fmap_lookup _ _ _ _ (Hts k))].
    rewrite Hus, fmap_is_Some. destruct (decide (k = id)) as [->|Hne].
    + rewrite lookup_insert_eq, Hu. split; by eexists.
    + by rewrite lookup_insert_ne.
  - destruct (delete_users_id_effect s id) as [Hok|(Hst & -> & ->)].
    + apply delete_users_id_ok in Hok as (u & _ & -> & Hts).
      split; [apply is_Some_delete | by apply (is_Some_fmap_lookup _ _ _ _ (Hts k))].
    + split; [|done]. split; [|tauto]. intros [u Hu]. split; [by eexists|].
      intros ->. apply delete_users_id_found in Hu. congruence.
  - destruct (post_tasks_effect s oid body) as [Hok|(Hst & -> & ->)].
    + pose proof Hok as Hst.
      apply post_tasks_ok in Hok as (uname & Hfresh & _ & -> & ->).
      split; [|rewrite is_Some_insert_fresh by done; tauto].
      destruct (_ && _); [|done].
      rewrite !lookup_alter_fmap, !fmap_is_Some. done.
    + split; [done|]. split; [tauto|]. intros [?|[_ ?]]; [done|].
      destruct Hst as [?|[?|?]]; congruence.
  - destruct (put_tasks_id_effect s id body) as [Hok|(_ & -> & ->)]; [|done].
    apply put_tasks_id_ok in Hok as (task & uname & Ht & _ & _ & -> & ->).
    split; [by rewrite lookup_cascade_users, fmap_is_Some|].
    destruct (decide (k = id)) as [->|Hne].
    + rewrite lookup_insert_eq, Ht. split; by eexists.
    + by rewrite lookup_insert_ne.
  - destruct (delete_tasks_id_effect s id) as [Hok|(Hst & -> & ->)].
    + apply delete_tasks_id_ok in Hok as (t & _ & -> & Hus).
      split; [by apply (is_Some_fmap_lookup _ _ _ _ (Hus k)) | apply is_Some_delete].
    + split; [done|]. split; [|tauto]. intros [t Ht]. split; [by eexists|].
      intros ->. apply delete_tasks_id_found in Ht. congruence.
Qed.

(** ** POST /users *)

Lemma truthy_length_spec (v : jsval) :
  truthy v && truthy_length v = true ↔
  (∃ x, v = JsStr x ∧ x ≠ "") ∨ (∃ x l, v = JsArr (x :: l))
  ∨ (∃ len, v = JsObj len ∧ truthy len = true).
Proof.
  destruct v as [| |b|n|x|l|len]; simpl;
    try (rewrite ?andb_false_r; split; [done|];
         intros [(? & ? & ?)|[(? & ? & ?)|(? & ? & ?)]]; done).
  - rewrite andb_true_iff, !bool_decide_eq_true. split.
    + intros [Hx _]. left. by exists x.
    + intros [(? & [= <-] & Hx)|[(? & ? & ?)|(? & ? & ?)]]; [|done|done].
      split; [done|]. by destruct x.
  - rewrite bool_decide_eq_true. split.
    + destruct l as [|x l]; [done|]. right; left. by exists x, l.
    + intros [(? & ? & ?)|[(? & ? & [= ->])|(? & ? & ?)]]; done.
  - split.
    + intros Hlen. right; right. by exists len.
    + intros [(? & ? & ?)|[(? & ? & ?)|(? & [= <-] & ?)]]; done.
Qed.

(** POST /users answers 201 exactly when the body has a name and an email,
    the email holds an [@], [pendingTasks] has no truthy [length] (it is
    not a non-empty string, a non-empty array or an object whose [length]
    property is truthy; an empty array, a number, an object without
    [length] pass), and the insertion does not fail on the new id or the
    email.  It then stores the User with an empty pending list, whatever
    the body held in [pendingTasks], sends that document, and makes one
    write: the normalizer it runs after [save] only reads. *)
Theorem post_users_creates (s : Store) (oid : string) (body : UserBody) :
  let r := eval (post_users oid body) s in
  let s' := exec (post_users oid body) s in
  let doc := mkUser (ub_name body) (ub_email body) [] in
  (status_of r = 201 ↔
     ub_name body ≠ "" ∧ ub_email body ≠ "" ∧
     includes_char "@"%char (ub_email body) = true ∧
     truthy (ub_pendingTasks body) && truthy_length (ub_pendingTasks body) = false ∧
     users s !! oid = None ∧ email_taken oid (ub_email body) (users s) = false)
  ∧ (status_of r = 201 →
       r = sendResponse 201 "User created" (DUserDoc oid (Some doc))
       ∧ users s' = <[oid := doc]> (users s) ∧ tasks s' = tasks s
       ∧ calls_since s s' [CUserSave oid; CUserFindById oid; CUserFindById oid])
  ∧ (truthy (ub_pendingTasks body) && truthy_length (ub_pendingTasks body) = true ↔
       (∃ x, ub_pendingTasks body = JsStr x ∧ x ≠ "")
       ∨ (∃ x l, ub_pendingTasks body = JsArr (x :: l))
       ∨ (∃ len, ub_pendingTasks body = JsObj len ∧ truthy len = true)).
Proof.
  intros r s' doc. subst r s' doc.
  refine ((fun H => conj (proj1 H) (conj (proj2 H) (truthy_length_spec _))) _).
  unfold post_users, calls_since.
  destruct (negb (truthy_str (ub_name body)) || negb (truthy_str (ub_email body))) eqn:H1.
  { mstep. split; [|done]. split; [done|]. intros (Hn & He & _).
    apply truthy_str_true in Hn, He. rewrite Hn, He in H1. done. }
  apply orb_false_elim in H1 as [Hn He].
  apply negb_false_iff, truthy_str_true in Hn, He.
  destruct (negb (emailContainsAt (JsStr (ub_email body)))) eqn:H2.
  { mstep. split; [|done]. split; [done|]. intros (_ & _ & Hat & _).
    simpl in H2. rewrite Hat in H2. done. }
  apply negb_false_iff in H2. simpl in H2.
  destruct (truthy (ub_pendingTasks body) && truthy_length (ub_pendingTasks body)) eqn:H3.
  { mstep. split; [|done]. split; [done|]. intros (_ & _ & _ & ? & _). done. }
  mstep.
  destruct (bool_decide (is_Some (users s !! oid))) eqn:Hfresh; simpl.
  { mstep. split; [|done]. split; [done|]. intros (_ & _ & _ & _ & Hnone & _).
    apply bool_decide_eq_true in Hfresh. rewrite Hnone in Hfresh. by destruct Hfresh. }
  apply bool_decide_eq_false in Hfresh. apply eq_None_not_Some in Hfresh.
  destruct (email_taken oid (ub_email body) (users s)) eqn:Htaken.
  { mstep. split; [|done]. split; [done|]. intros (_ & _ & _ & _ & _ & ?). done. }
  mstep. split; [done|]. intros _.
  assert (Hlook : alter normalize_user oid
                    (<[oid := mkUser (ub_name body) (ub_email body) []]> (users s)) =
                  <[oid := mkUser (ub_name body) (ub_email body) []]> (users s)).
  { apply map_eq. intros k. rewrite lookup_alter.
    case_decide; subst; [by rewrite !lookup_insert_eq | done]. }
  rewrite Hlook, lookup_insert_eq. split; [done|]. split; [done|]. split; [done|].
  pose proof (normalize_run_same
                (mkStore (<[oid := mkUser (ub_name body) (ub_email body) []]> (users s))
                   (tasks s) (calls s ++ [CUserSave oid]))
                oid (mkUser (ub_name body) (ub_email body) [])) as Hrun.
  simpl in Hrun. rewrite lookup_insert_eq in Hrun. specialize (Hrun eq_refl eq_refl).
  unfold exec at 1. rewrite Hrun. simpl. by rewrite <- !app_assoc.
Qed.

(** ** The answers to an unknown id *)


(** ** The tests of the Task handlers *)



Lemma post_tasks_save_fresh (s : Store) (oid : string) (t : Task) :
  tasks s !! oid = None →
  eval (post_tasks_save oid t) s = sendResponse 201 "Task created" (DTaskDoc oid (Some t))
  ∧ tasks (exec (post_tasks_save oid t) s) = <[oid := t]> (tasks s)
  ∧ users (exec (post_tasks_save oid t) s) =
      if truthy_str (t_assignedUser t) && negb (t_completed t)
      then alter normalize_user (t_assignedUser t)
             (alter (addToSet oid) (t_assignedUser t) (users s))
      else users s.
Proof.
  intros Hfresh. unfold post_tasks_save. mstep. rewrite Hfresh. simpl. mstep.
  destruct (truthy_str (t_assignedUser t) && negb (t_completed t)); by mstep.
Qed.



(** ** PUT /users/:id *)

Lemma filter_ext_in {A} (P Q : A → Prop) `{!∀ x, Decision (P x)} `{!∀ x, Decision (Q x)}
    (l : list A) :
  (∀ x, x ∈ l → P x ↔ Q x) → filter P l = filter Q l.
Proof.
  induction l as [|a l IH]; intros Hext; [done|].
  assert (Hl : filter P l = filter Q l).
  { apply IH. intros x Hx. apply Hext. by right. }
  destruct (decide (P a)) as [Hp|Hp].
  - rewrite !filter_cons_True; [by rewrite Hl | by apply (Hext a); [left|] | done].
  - rewrite !filter_cons_False; [done | | done].
    intros Hq. apply Hp. apply (Hext a); [left|done].
Qed.

Lemma eval_put_users_check_missing (pending : list string) (s : Store) :
  ¬ all_found pending (tasks s) →
  eval (put_users_check pending) s =
    Some (sendResponse 404 "One or more tasks not found"
            (DMissing (filter (fun tid => tasks s !! tid = None) pending))).
Proof.
  intros Hnot. unfold put_users_check.
  case_bool_decide as Hlen; mstep.
  - assert (Hfilter : filter (fun tid => tid ∉ (find_in pending (tasks s)).*1) pending
                      = filter (fun tid => tasks s !! tid = None) pending).
    { apply filter_ext_in. intros tid Htid.
      rewrite elem_of_find_in_ids, eq_None_not_Some. tauto. }
    case_bool_decide as Hmiss; mstep.
    + by rewrite Hfilter.
    + exfalso. apply Hnot, missing_nil. by apply nil_length_inv.
  - exfalso. apply Hnot. intros tid Htid.
    destruct pending; [by apply elem_of_nil in Htid | simpl in Hlen; lia].
Qed.

Lemma eval_put_users_check_refuses (pending : list string) (s : Store) tid t :
  all_found pending (tasks s) →
  tid ∈ pending → tasks s !! tid = Some t → t_completed t = true →
  eval (put_users_check pending) s =
    Some (sendResponse 400 "Cannot assign completed tasks as pending" DObj).
Proof.
  intros Hall Hin Ht Hc. unfold put_users_check.
  rewrite bool_decide_eq_true_2 by (destruct pending; [by apply elem_of_nil in Hin | simpl; lia]).
  mstep. rewrite (proj2 (missing_nil _ _) Hall). simpl.
  destruct (existsb _ _) eqn:Hex; mstep; [done|].
  apply hasCompleted_false in Hex. rewrite (Hex tid t Hin Ht) in Hc. done.
Qed.

Lemma put_users_id_early (s : Store) (id : string) (body : UserBody) (u : User) (r : Response) :
  ub_name body ≠ "" → ub_email body ≠ "" →
  includes_char "@"%char (ub_email body) = true →
  users s !! id = Some u →
  eval (put_users_check (new_pending (ub_pendingTasks body)))
    (mkStore (users s) (tasks s) (calls s ++ [CUserFindById id])) = Some r →
  eval (put_users_id id body) s = r.
Proof.
  intros Hn He Hat Hu Hr. unfold put_users_id.
  apply truthy_str_true in Hn, He. rewrite Hn, He. simpl. rewrite Hat. simpl.
  mstep. rewrite Hu. mstep. rewrite Hr. by mstep.
Qed.



(** After a PUT /users/:id that answers 200, every Task assigned to the
    User, completed or not, carries the name of the request as its
    assignedUserName. *)
Theorem put_users_refreshes_names (s : Store) (id : string) (body : UserBody)
    (tid : string) (t' : Task) :
  status_of (eval (put_users_id id body) s) = 200 →
  let s' := exec (put_users_id id body) s in
  tasks s' !! tid = Some t' → t_assignedUser t' = id →
  t_assignedUserName t' = ub_name body.
Proof.
  intros Hok s'. subst s'.
  apply put_users_id_ok in Hok as (u & _ & _ & _ & _ & _ & _ & _ & Hts & _).
  rewrite Hts. destruct (tasks s !! tid) as [t|]; [|done]. simpl. intros [= <-].
  unfold cascade_task.
  set (x := updateMany_doc (IdInNotCompleted _) _ tid _).
  unfold updateMany_doc at 1 2. simpl. case_bool_decide as Hx; [done|]. done.
Qed.

(** A PUT /users/:id that answers 200 takes the Tasks of its pending list
    from their previous assignee: a Task of the new list that was assigned
    to another User is no longer in that User's list, which loses nothing
    else but Tasks taken in the same way. *)
Theorem put_users_takes_from_previous_owner (s : Store) (id : string) (body : UserBody)
    (tid : string) (t : Task) (v : string) (uv : User) :
  status_of (eval (put_users_id id body) s) = 200 →
  tid ∈ new_pending (ub_pendingTasks body) →
  tasks s !! tid = Some t → t_assignedUser t = v → v ≠ "" → v ≠ id →
  users s !! v = Some uv →
  let s' := exec (put_users_id id body) s in
  ∃ uv', users s' !! v = Some uv' ∧ (tid ∉ u_pendingTasks uv')
    ∧ u_name uv' = u_name uv ∧ u_email uv' = u_email uv
    ∧ ∀ y, y ∈ u_pendingTasks uv' ↔
        y ∈ u_pendingTasks uv ∧
        ¬ (y ∈ new_pending (ub_pendingTasks body) ∧
           ∃ ty, tasks s !! y = Some ty ∧ t_assignedUser ty = v).
Proof.
  intros Hok Htid Ht Hv Hne Hid Huv s'. subst s'.
  apply put_users_id_ok in Hok as (u & _ & _ & _ & _ & Hnone & _ & Hus & _).
  exists (cascade_user id (new_pending (ub_pendingTasks body)) (tasks s) v uv).
  rewrite Hus, lookup_insert_ne, Huv by done. split; [done|].
  destruct (keeps_identity_cascade_user id (new_pending (ub_pendingTasks body))
              (tasks s) v uv) as [Hname Hemail].
  unfold cascade_user in *. rewrite decide_False in * by done.
  assert (Hiff : ∀ y, y ∈ u_pendingTasks
                        (loop_user id v (find_in (new_pending (ub_pendingTasks body))
                                           (tasks s)) uv) ↔
            y ∈ u_pendingTasks uv ∧
            ¬ (y ∈ new_pending (ub_pendingTasks body) ∧
               ∃ ty, tasks s !! y = Some ty ∧ t_assignedUser ty = v)).
  { intros y. rewrite elem_of_loop_user. split; intros [Hy Hnot]; (split; [done|]).
    - intros (Hin & ty & Hty & Htv). apply Hnot. exists ty.
      rewrite elem_of_find_in. split; [done|]. unfold taken_from. simpl.
      split; [exact (Hnone y ty Hin Hty)|]. rewrite Htv. done.
    - intros (ty & [Hin Hty]%elem_of_find_in & (_ & _ & _ & Htv)). simpl in Htv.
      apply Hnot. split; [done|]. by exists ty. }
  split; [|done].
  rewrite Hiff. intros [_ Hnot]. apply Hnot. split; [done|]. by exists t.
Qed.

(** ** PUT /tasks/:id without an assignee *)

(** A PUT /tasks/:id whose body names no assignee and that answers 200
    stores the Task with an empty assignedUser and the assignedUserName
    "unassigned", whatever name the body supplied; the previous assignee
    no longer lists the Task and keeps the rest of its list, and no other
    User changes. *)
Theorem put_tasks_unassigns (s : Store) (id : string) (body : TaskBody) :
  tb_assignedUser body = "" →
  status_of (eval (put_tasks_id id body) s) = 200 →
  let s' := exec (put_tasks_id id body) s in
  ∃ task t',
    tasks s !! id = Some task ∧ tasks s' !! id = Some t'
    ∧ t_assignedUser t' = "" ∧ t_assignedUserName t' = "unassigned"
    ∧ t_completed t' = is_true (tb_completed body)
    ∧ (∀ uid, uid ≠ t_assignedUser task → users s' !! uid = users s !! uid)
    ∧ (t_assignedUser task ≠ "" →
       ∀ u, users s !! t_assignedUser task = Some u →
         ∃ u', users s' !! t_assignedUser task = Some u'
           ∧ (id ∉ u_pendingTasks u')
           ∧ ∀ y, y ∈ u_pendingTasks u' ↔ y ≠ id ∧ y ∈ u_pendingTasks u).
Proof.
  intros Ha Hok s'. subst s'.
  apply put_tasks_id_ok in Hok as (task & uname & Ht & _ & Hname & Hts & Hus).
  rewrite Ha in Hname. simpl in Hname. subst uname.
  exists task, (updated_task body "unassigned").
  rewrite Hts, lookup_insert_eq, Hus. unfold updated_task at 2 3 4. simpl.
  do 5 (split; [done|]).
  unfold cascade_users. simpl. rewrite Ha. simpl. split.
  - intros uid Hne. destruct (_ && _); [|done].
    by rewrite !lookup_alter_ne.
  - intros Hprev u Hu.
    rewrite (proj2 (truthy_str_true _) Hprev), bool_decide_eq_true_2 by done. simpl.
    exists (normalize_user (pull id u)).
    rewrite !lookup_alter_eq, Hu. simpl. split; [done|].
    assert (Hiff : ∀ y, y ∈ u_pendingTasks (normalize_user (pull id u)) ↔
                        y ≠ id ∧ y ∈ u_pendingTasks u).
    { intros y. by rewrite elem_of_normalize_user, elem_of_pull. }
    split; [|done]. rewrite Hiff. tauto.
Qed.

(** ** Creating and deleting a Task *)

Lemma pull_addToSet_fresh (x : string) (u : User) :
  NoDup (u_pendingTasks u) → x ∉ u_pendingTasks u →
  normalize_user (pull x (normalize_user (addToSet x u))) = u.
Proof.
  intros Hnd Hx. destruct u as [n e l]. simpl in *.
  unfold normalize_user, pull, addToSet, apply_user_update, set_pendingTasks. simpl.
  rewrite bool_decide_eq_false_2 by done. f_equal.
  assert (Hnd' : NoDup (l ++ [x])).
  { apply NoDup_app. split; [done|]. split; [|apply NoDup_singleton].
    intros y Hy ->%list_elem_of_singleton. done. }
  rewrite (dedup_first_NoDup _ Hnd'), filter_app.
  rewrite (filter_all_id (fun y => y ≠ x) l) by (intros y Hy ->; done).
  rewrite filter_cons_False by (intros Hn; by apply Hn).
  rewrite filter_nil, app_nil_r. by apply dedup_first_NoDup.
Qed.

Lemma pull_fresh (x : string) (u : User) :
  NoDup (u_pendingTasks u) → x ∉ u_pendingTasks u →
  normalize_user (pull x u) = u.
Proof.
  intros Hnd Hx. destruct u as [n e l]. simpl in *.
  unfold normalize_user, pull, apply_user_update, set_pendingTasks. simpl. f_equal.
  rewrite (filter_all_id (fun y => y ≠ x) l) by (intros y Hy ->; done).
  by apply dedup_first_NoDup.
Qed.

(** In a consistent store, a POST /tasks that answers 201 followed by the
    DELETE of the new Task is a round trip: the DELETE answers 204 and the
    Users and the Tasks are as they were before the creation. *)
Theorem create_then_delete_task (s : Store) (oid : string) (body : TaskBody) :
  Consistent s →
  status_of (eval (post_tasks oid body) s) = 201 →
  let s1 := exec (post_tasks oid body) s in
  let s2 := exec (delete_tasks_id oid) s1 in
  eval (delete_tasks_id oid) s1 = End 204
  ∧ users s2 = users s ∧ tasks s2 = tasks s.
Proof.
  intros Hs Hok s1 s2.
  apply post_tasks_ok in Hok as (uname & Hfresh & _ & Hts & Hus). fold s1 in Hts, Hus.
  assert (Ht1 : tasks s1 !! oid = Some (created_task body uname))
    by (by rewrite Hts, lookup_insert_eq).
  pose proof (delete_tasks_id_found _ _ _ Ht1) as Hst.
  assert (Hr : eval (delete_tasks_id oid) s1 = End 204).
  { revert Hst. unfold delete_tasks_id. mstep. rewrite Ht1. by mstep. }
  apply delete_tasks_id_ok in Hst as (t & Ht & Hts2 & Hus2). fold s2 in Hts2, Hus2.
  rewrite Ht1 in Ht. injection Ht as <-. simpl in Hus2.
  split; [done|]. split.
  - apply map_eq. intros uid. rewrite Hus2, Hus.
    destruct (users s !! uid) as [u|] eqn:Hu.
    + assert (Hnd : NoDup (u_pendingTasks u)) by (by eapply cons_nodup).
      assert (Hx : oid ∉ u_pendingTasks u).
      { intros Hin. destruct (cons_sound _ Hs _ _ _ Hu Hin) as (t & Ht & _). congruence. }
      destruct (truthy_str (tb_assignedUser body)) eqn:Ha; simpl.
      * destruct (negb (is_true (tb_completed body))); simpl.
        -- rewrite !lookup_alter_fmap, Hu. simpl. f_equal.
           case_bool_decide; [by apply pull_addToSet_fresh | done].
        -- rewrite Hu. simpl. f_equal. case_bool_decide; [by apply pull_fresh | done].
      * by rewrite Hu.
    + destruct (_ && _); [by rewrite !lookup_alter_fmap, Hu | by rewrite Hu].
  - by rewrite Hts2, Hts, delete_insert_id.
Qed.

(** ** DELETE /users/:id and the completed Tasks *)

(** In a consistent store DELETE /users/:id leaves the completed Tasks of
    the User as they are: such a Task still names the deleted User as its
    assignee. *)
Theorem delete_user_keeps_completed_tasks (s : Store) (id : string) (u : User)
    (tid : string) (t : Task) :
  Consistent s →
  users s !! id = Some u →
  tasks s !! tid = Some t → t_assignedUser t = id → t_completed t = true →
  let s' := exec (delete_users_id id) s in
  users s' !! id = None ∧ tasks s' !! tid = Some t.
Proof.
  intros Hs Hu Ht Ha Hc s'. subst s'.
  pose proof (delete_users_id_found _ _ _ Hu) as Hok.
  apply delete_users_id_ok in Hok as (u0 & Hu0 & -> & Hts).
  rewrite Hu in Hu0. injection Hu0 as <-.
  split; [apply lookup_delete_eq|].
  rewrite Hts, Ht. simpl. f_equal. unfold updateMany_doc. simpl.
  rewrite bool_decide_eq_false_2; [done|].
  intros Hin. destruct (cons_sound _ Hs _ _ _ Hu Hin) as (t0 & Ht0 & _ & Hc0). congruence.
Qed.

(** ** normalizePendingTasksForUser *)

(** The normalizer touches one User at most: it changes no Task and no
    other User; on the id of no User it reads once and changes nothing; on
    the id of a User it keeps the name, the email and the ids of the pending
    list and leaves that list without a repeated id; and it makes one
    [findById], followed by at most one [updateOne] on that id. *)
Theorem normalize_touches_one_user (s : Store) (uid : string) :
  let s' := exec (normalizePendingTasksForUser uid) s in
  tasks s' = tasks s
  ∧ (∀ uid', uid' ≠ uid → users s' !! uid' = users s !! uid')
  ∧ (users s !! uid = None →
     users s' = users s ∧ calls_since s s' [CUserFindById uid])
  ∧ (∀ u, users s !! uid = Some u →
     ∃ u', users s' !! uid = Some u'
       ∧ u_name u' = u_name u ∧ u_email u' = u_email u
       ∧ NoDup (u_pendingTasks u')
       ∧ ∀ y, y ∈ u_pendingTasks u' ↔ y ∈ u_pendingTasks u)
  ∧ ∃ tr, calls_since s s' (CUserFindById uid :: tr)
          ∧ (tr = [] ∨ ∃ l, tr = [CUserUpdateOne uid (SetPendingTasks l)]).
Proof.
  intros s'. subst s'. rewrite users_normalize, tasks_normalize.
  split; [done|]. split; [|split; [|split]].
  - intros uid' Hne. by rewrite lookup_alter_ne.
  - intros Hnone. split; [by apply alter_id'|].
    unfold calls_since, exec. by rewrite normalize_run_missing.
  - intros u Hu. exists (normalize_user u). rewrite lookup_alter_eq, Hu.
    split; [done|]. split; [done|]. split; [done|].
    split; [apply NoDup_normalize_user|]. intros y. apply elem_of_normalize_user.
  - destruct (calls_normalize s uid) as (tr & Hcalls & Htr). by exists tr.
Qed.

(** ** The GET handlers *)

Section GetHandlers.

Variable JSON_parse : string -> option json.
Variable parseInt : string -> option Z.
Variable engine : QueryEngine.

(** A query parameter is refused exactly when it is a non-empty text that
    [JSON.parse] rejects, or that [JSON.parse] reads as an object with a
    truthy [__parseError] field: the marker of a failed parse cannot be told
    from a parsed object that carries the same field. *)
Theorem offending_iff (raw : option string) :
  offending JSON_parse raw = true ↔
  ∃ p, raw = Some p ∧ p ≠ "" ∧
    (JSON_parse p = None
     ∨ ∃ fields x, JSON_parse p = Some (JObj fields)
         ∧ get_field "__parseError" fields = Some x ∧ json_truthy x = true).
Proof.
  unfold offending, parseJSONParam. destruct raw as [p|]; simpl.
  - destruct (truthy_str p) eqn:Hp; simpl.
    + apply truthy_str_true in Hp. destruct (JSON_parse p) as [v|] eqn:Hv; simpl.
      * split.
        -- intros Hm. exists p. do 2 (split; [done|]). right.
           destruct v as [| | | | |fields]; try done. simpl in Hm.
           destruct (get_field "__parseError" fields) as [x|] eqn:Hx; [|done].
           by exists fields, x.
        -- intros (p' & [= <-] & _ & [Hnone|(fields & x & Hsome & Hx & Ht)]);
             [congruence|].
           rewrite Hv in Hsome. injection Hsome as ->. simpl. by rewrite Hx.
      * split; [|done]. intros _. exists p. auto.
    + apply truthy_str_false in Hp. split; [done|]. by intros (p' & [= <-] & ? & _).
  - split; [done|]. by intros (p' & ? & _).
Qed.

Lemma get_by_id_run {D : Type} (findById : string → M (option D))
    (wrap : string → option D → Data)
    (not_found : string) (id : string) (raw : option string) (s : Store) :
  let m := get_by_id JSON_parse engine findById wrap not_found id raw in
  let sel := if_truthy (parseJSONParam JSON_parse raw) in
  (offending JSON_parse raw = true →
     m s = (Some (sendResponse 400 "Invalid JSON in select parameter" DObj), s))
  ∧ (offending JSON_parse raw = false →
     (∀ v, sel = Some v → findById_select engine D v = None → m s = (None, s))
     ∧ (∀ projection,
          match sel with
          | Some v => findById_select engine D v
          | None => Some (fun doc => doc)
          end = Some projection →
          exec m s = exec (findById id) s
          ∧ eval m s =
              Some (match eval (findById id) s with
                    | None => sendResponse 404 not_found DObj
                    | Some doc => sendResponse 200 "OK" (wrap id (Some (projection doc)))
                    end))).
Proof.
  intros m sel. subst m sel. unfold get_by_id, offending.
  split; intros ->; [done|]. split.
  - intros v -> ->. done.
  - intros projection ->.
    rewrite exec_bind, eval_bind. by destruct (eval (findById id) s).
Qed.

Lemma get_by_id_reads {D : Type} (findById : string → M (option D))
    (wrap : string → option D → Data)
    (not_found : string) (id : string) (raw : option string) (s : Store) :
  let m := get_by_id JSON_parse engine findById wrap not_found id raw in
  (users (exec (findById id) s) = users s ∧ tasks (exec (findById id) s) = tasks s) →
  users (exec m s) = users s ∧ tasks (exec m s) = tasks s.
Proof.
  intros m Hfind. subst m. unfold get_by_id.
  destruct (has_parseError _); [done|].
  destruct (if_truthy _) as [v|]; [destruct (findById_select engine D v); [|done]|];
    rewrite exec_bind; by destruct (eval (findById id) s).
Qed.


Lemma list_endpoint_run {D : Type} (coll : Store → gmap string D)
    (cfind ccount : StoreCall) (wrap : list (string * D) → Data)
    (q : Query) (s : Store) :
  let m := list_endpoint JSON_parse parseInt engine coll cfind ccount wrap q in
  let where_ := parseJSONParam JSON_parse (q_where q) in
  let built := build_query engine where_ (parseJSONParam JSON_parse (q_select q))
                 (parseJSONParam JSON_parse (q_sort q))
                 (parse_page parseInt (q_skip q)) (parse_page parseInt (q_limit q)) in
  offending JSON_parse (q_where q) = false →
  offending JSON_parse (q_sort q) = false →
  offending JSON_parse (q_select q) = false →
  m s =
    match built with
    | None => (None, s)
    | Some query =>
        if bool_decide (q_count q = Some "true")
        then ((fun cnt => sendResponse 200 "OK" (DCount cnt))
                <$> Model_countDocuments engine D (or_empty where_)
                      (coll (mkStore (users s) (tasks s) (calls s ++ [ccount]))),
              mkStore (users s) (tasks s) (calls s ++ [ccount]))
        else ((fun docs => sendResponse 200 "OK" (wrap docs))
                <$> Query_exec engine D query
                      (coll (mkStore (users s) (tasks s) (calls s ++ [cfind]))),
              mkStore (users s) (tasks s) (calls s ++ [cfind]))
    end.
Proof.
  intros m where_ built. subst m where_ built. unfold list_endpoint, offending.
  intros -> -> ->. destruct (build_query _ _ _ _ _ _); [|done].
  by destruct (bool_decide _).
Qed.


End GetHandlers.

(** ** Repeating and undoing an operation *)

Lemma put_tasks_id_accepts (s : Store) (id : string) (body : TaskBody) (t : Task) :
  tb_name body ≠ "" → tb_deadline body ≠ "" →
  tasks s !! id = Some t → t_completed t = false →
  (tb_assignedUser body ≠ "" →
   ∃ doc, users s !! tb_assignedUser body = Some doc
          ∧ name_mismatch (tb_assignedUserName body) (u_name doc) = false) →
  status_of (eval (put_tasks_id id body) s) = 200.
Proof.
  intros Hn Hd Ht Hc Hdoc. unfold put_tasks_id.
  apply truthy_str_true in Hn, Hd. rewrite Hn, Hd. simpl. mstep. rewrite Ht, Hc.
  destruct (truthy_str (tb_assignedUser body)) eqn:Ha; [|by mstep].
  apply truthy_str_true in Ha. destruct (Hdoc Ha) as (doc & Hu & Hm).
  mstep. rewrite Hu, Hm. by mstep.
Qed.

(** In a consistent store a PUT /tasks/:id that answers 200 and leaves the
    Task not completed can be repeated: the same request answers 200 again
    and leaves the Users and the Tasks as the first one left them. *)
Theorem put_tasks_id_repeated (s : Store) (id : string) (body : TaskBody) :
  Consistent s →
  status_of (eval (put_tasks_id id body) s) = 200 →
  is_true (tb_completed body) = false →
  let s1 := exec (put_tasks_id id body) s in
  let s2 := exec (put_tasks_id id body) s1 in
  status_of (eval (put_tasks_id id body) s1) = 200
  ∧ users s2 = users s1 ∧ tasks s2 = tasks s1.
Proof.
  intros Hs Hok Hc s1 s2.
  pose proof (put_tasks_id_consistent _ _ _ Hs Hok) as Hs1. fold s1 in Hs1.
  pose proof Hok as Hok0.
  apply put_tasks_id_ok in Hok as (task & uname & Ht & Hct & Hname & Hts & Hus).
  fold s1 in Hts, Hus.
  assert (Ht1 : tasks s1 !! id = Some (updated_task body uname))
    by (by rewrite Hts, lookup_insert_eq).
  assert (Hvalid : tb_name body ≠ "" ∧ tb_deadline body ≠ "").
  { revert Hok0. unfold put_tasks_id.
    destruct (truthy_str (tb_name body)) eqn:Hn; simpl; [|by mstep].
    destruct (truthy_str (tb_deadline body)) eqn:Hd; simpl; [|by mstep].
    intros _. by apply truthy_str_true in Hn, Hd. }
  destruct Hvalid as [Hn Hd].
  assert (Hdoc1 : tb_assignedUser body ≠ "" →
            ∃ doc1, users s1 !! tb_assignedUser body = Some doc1 ∧ u_name doc1 = uname
                    ∧ name_mismatch (tb_assignedUserName body) (u_name doc1) = false
                    ∧ id ∈ u_pendingTasks doc1 ∧ NoDup (u_pendingTasks doc1)).
  { intros Ha. rewrite (proj2 (truthy_str_true _) Ha) in Hname.
    destruct Hname as (doc & Hdoc & -> & Hm).
    destruct (cons_complete _ Hs1 id _ Ht1) as (doc1 & Hdoc1 & Hin); [done|done|].
    simpl in Hdoc1. exists doc1. split; [done|].
    assert (Hsame : u_name doc1 = u_name doc).
    { revert Hdoc1. rewrite Hus, lookup_cascade_users, Hdoc. simpl. intros [= <-].
      apply keeps_identity_cascade_users_doc. }
    split; [done|]. split; [by rewrite Hsame|]. split; [done|].
    by eapply cons_nodup. }
  assert (Hok1 : status_of (eval (put_tasks_id id body) s1) = 200).
  { apply (put_tasks_id_accepts s1 id body (updated_task body uname)); try done.
    intros Ha. destruct (Hdoc1 Ha) as (doc1 & ? & _ & ? & _). by exists doc1. }
  split; [done|].
  apply put_tasks_id_ok in Hok1 as (task1 & uname1 & Ht1' & _ & Hname1 & Hts2 & Hus2).
  fold s2 in Hts2, Hus2. rewrite Ht1 in Ht1'. injection Ht1' as <-.
  assert (Huname : uname1 = uname).
  { destruct (truthy_str (tb_assignedUser body)) eqn:Ha.
    - apply truthy_str_true in Ha. destruct (Hdoc1 Ha) as (doc1 & Hd1 & Hnm & _).
      destruct Hname1 as (doc' & Hd' & -> & _). congruence.
    - destruct Hname1. by destruct Hname. }
  subst uname1. split.
  - rewrite Hus2. unfold cascade_users. simpl.
    rewrite (bool_decide_eq_false_2 (tb_assignedUser body ≠ tb_assignedUser body))
      by (intros Hne; by apply Hne).
    rewrite andb_false_r, Hc.
    destruct (truthy_str (tb_assignedUser body)) eqn:Ha; [|done].
    apply truthy_str_true in Ha. destruct (Hdoc1 Ha) as (doc1 & Hd1 & _ & _ & Hin & Hnd).
    rewrite alter_id.
    + apply alter_id. intros u Hu. rewrite Hd1 in Hu. injection Hu as <-.
      unfold addToSet, apply_user_update. rewrite bool_decide_eq_true_2 by done.
      apply set_pendingTasks_same.
    + intros u. rewrite lookup_alter_eq, Hd1. simpl. intros [= <-].
      unfold addToSet, apply_user_update. rewrite bool_decide_eq_true_2 by done.
      rewrite set_pendingTasks_same. unfold normalize_user.
      rewrite dedup_first_NoDup by done. apply set_pendingTasks_same.
  - rewrite Hts2, Hts. apply insert_insert_eq.
Qed.

(** A DELETE that answered 204 cannot be repeated: the same request then
    answers 404 and leaves the Users and the Tasks as the first one left
    them. *)
Theorem delete_twice (s : Store) (id : string) :
  (status_of (eval (delete_users_id id) s) = 204 →
     let s1 := exec (delete_users_id id) s in
     eval (delete_users_id id) s1 = sendResponse 404 "User not found" DObj
     ∧ users (exec (delete_users_id id) s1) = users s1
     ∧ tasks (exec (delete_users_id id) s1) = tasks s1)
  ∧ (status_of (eval (delete_tasks_id id) s) = 204 →
     let s1 := exec (delete_tasks_id id) s in
     eval (delete_tasks_id id) s1 = sendResponse 404 "Task not found" DObj
     ∧ users (exec (delete_tasks_id id) s1) = users s1
     ∧ tasks (exec (delete_tasks_id id) s1) = tasks s1).
Proof.
  split; intros Hok s1.
  - apply delete_users_id_ok in Hok as (u & _ & Hus & _). fold s1 in Hus.
    assert (Hnone : users s1 !! id = None) by (rewrite Hus; apply lookup_delete_eq).
    unfold delete_users_id. mstep. rewrite Hnone. by mstep.
  - apply delete_tasks_id_ok in Hok as (t & _ & Hts & _). fold s1 in Hts.
    assert (Hnone : tasks s1 !! id = None) by (rewrite Hts; apply lookup_delete_eq).
    unfold delete_tasks_id. mstep. rewrite Hnone. by mstep.
Qed.

(** A POST /users that answers 201 followed by the DELETE of the new User
    is a round trip: the DELETE answers 204, updates no Task, and the Users
    and the Tasks are as they were before the creation. *)
Theorem create_then_delete_user (s : Store) (oid : string) (body : UserBody) :
  status_of (eval (post_users oid body) s) = 201 →
  let s1 := exec (post_users oid body) s in
  let s2 := exec (delete_users_id oid) s1 in
  eval (delete_users_id oid) s1 = End 204
  ∧ users s2 = users s ∧ tasks s2 = tasks s
  ∧ calls_since s1 s2 [CUserFindById oid; CUserDeleteOne oid].
Proof.
  intros Hok s1 s2. apply post_users_ok in Hok as (Hfresh & Hus & Hts).
  fold s1 in Hus, Hts.
  assert (Hu1 : users s1 !! oid = Some (mkUser (ub_name body) (ub_email body) []))
    by (by rewrite Hus, lookup_insert_eq).
  subst s2. unfold delete_users_id, calls_since. mstep. rewrite Hu1. mstep.
  rewrite Hus, Hts, <- app_assoc. by rewrite delete_insert_id.
Qed.

(** ** emailContainsAt *)

Lemma includes_char_iff (c : ascii) (s : string) :
  includes_char c s = true ↔ ∃ a b, s = (a ++ String c b)%string.
Proof.
  induction s as [|c' s IH]; simpl.
  - split; [done|]. intros (a & b & Heq). by destruct a.
  - rewrite orb_true_iff, bool_decide_eq_true, IH. split.
    + intros [->|(a & b & ->)]; [by exists EmptyString, s|].
      by exists (String c' a), b.
    + intros (a & b & Heq). destruct a as [|c'' a].
      * left. change (String c' s = String c b) in Heq. congruence.
      * right. change (String c' s = String c'' (a ++ String c b)%string) in Heq.
        injection Heq as -> ->. by exists a, b.
Qed.

(** [emailContainsAt] accepts exactly the strings that hold an [@], wherever
    it stands and whatever stands around it, and no value of another type. *)
Theorem emailContainsAt_iff (e : jsval) :
  emailContainsAt e = true ↔ ∃ a b, e = JsStr (a ++ String "@"%char b)%string.
Proof.
  destruct e as [| |b|n|x|l|len]; simpl;
    try (split; [done|]; by intros (? & ? & ?)).
  rewrite includes_char_iff. split.
  - intros (a & b & ->). by exists a, b.
  - intros (a & b & [= ->]). by exists a, b.
Qed.

(** * Worked instances *)

Lemma consistent_b_sound (s : Store) : consistent_b s = true → Consistent s.
Proof.
  unfold consistent_b. rewrite !andb_true_iff, !forallb_forall.
  intros [[Hids Hus] Hts]. apply bool_decide_eq_true in Hids.
  assert (Hu : ∀ uid u, users s !! uid = Some u →
            NoDup (u_pendingTasks u) ∧
            ∀ tid, tid ∈ u_pendingTasks u →
              ∃ t, tasks s !! tid = Some t ∧ t_assignedUser t = uid ∧ t_completed t = false).
  { intros uid u Hlook.
    assert (In (uid, u) (map_to_list (users s))) as Hin
      by (by apply list_elem_of_In, elem_of_map_to_list).
    apply Hus in Hin. simpl in Hin. apply andb_true_iff in Hin as [Hnd Hall].
    apply bool_decide_eq_true in Hnd. split; [done|].
    intros tid Htid. rewrite forallb_forall in Hall.
    apply list_elem_of_In, Hall in Htid.
    destruct (tasks s !! tid) as [t|]; [|done].
    apply andb_true_iff in Htid as [Ha%bool_decide_eq_true Hc%negb_true_iff]. eauto. }
  constructor.
  - done.
  - intros uid u Hlook. by apply (Hu uid u).
  - intros uid u tid Hlook. by apply (Hu uid u).
  - intros tid t Hlook Hc Ha.
    assert (In (tid, t) (map_to_list (tasks s))) as Hin
      by (by apply list_elem_of_In, elem_of_map_to_list).
    apply Hts in Hin. simpl in Hin. rewrite Hc in Hin. simpl in Hin.
    rewrite bool_decide_eq_false_2 in Hin by done. simpl in Hin.
    destruct (users s !! t_assignedUser t) as [u|]; [|done].
    apply bool_decide_eq_true in Hin. eauto.
Qed.

Lemma store0_consistent : Consistent store0.
Proof. apply consistent_b_sound. by vm_compute. Qed.

(** *** The normalizer on a list with a repeated id *)

Lemma normalize_writes_iff_changed_witness :
  users store_dup !! "u3" = Some dee ∧
  calls_since store_dup (exec (normalizePendingTasksForUser "u3") store_dup)
    [CUserFindById "u3"; CUserUpdateOne "u3" (SetPendingTasks ["t1"; "t2"])].
Proof.
  assert (H : users store_dup !! "u3" = Some dee) by (vm_compute; reflexivity).
  split; [exact H|].
  pose proof (normalize_writes_iff_changed store_dup "u3" dee H) as Hn.
  cbv zeta in Hn. destruct Hn as (_ & _ & _ & Hw & _).
  apply Hw. left. vm_compute. discriminate.
Defined.

(** *** Deleting Ann, deleting her Task *)

Lemma delete_cascades_witness :
  users store0 !! "u1" = Some ann ∧ tasks store0 !! "t1" = Some task1 ∧
  eval (delete_users_id "u1") store0 = End 204 ∧
  eval (delete_tasks_id "t1") store0 = End 204.
Proof.
  assert (Hu : users store0 !! "u1" = Some ann) by (vm_compute; reflexivity).
  assert (Ht : tasks store0 !! "t1" = Some task1) by (vm_compute; reflexivity).
  assert (Ha : t_assignedUser task1 ≠ "") by discriminate.
  destruct delete_cascades as [HU HT].
  split; [exact Hu|]. split; [exact Ht|]. split.
  - exact (proj1 (HU store0 "u1" ann Hu)).
  - exact (proj1 (HT store0 "t1" task1 Ht Ha)).
Defined.

(** *** Moving Ann's Task to Bob *)

Lemma assignedUserName_mismatch_iff_witness :
  users store0 !! "u2" = Some bob ∧
  eval (put_tasks_id "t1" (move_to_bob JsUndefined (Some "Carol"))) store0 =
    sendResponse 400 "assignedUserName does not match user record" DObj.
Proof.
  assert (Hu : users store0 !! "u2" = Some bob) by (vm_compute; reflexivity).
  assert (Ht : tasks store0 !! "t1" = Some task1) by (vm_compute; reflexivity).
  split; [exact Hu|].
  apply (proj1 (assignedUserName_mismatch_iff store0 "t1"
                  (move_to_bob JsUndefined (Some "Carol")) task1 bob "Carol"
                  ltac:(discriminate) ltac:(discriminate) Ht eq_refl
                  ltac:(discriminate) Hu eq_refl)).
  split; [vm_compute; discriminate | discriminate].
Defined.

(** C8, as stated, fails: "UNASSIGNED" is not the literal "unassigned" and
    is not Bob's name, and the update is not rejected. *)
Lemma uppercase_unassigned_not_rejected :
  "UNASSIGNED" ≠ "unassigned" ∧ "UNASSIGNED" ≠ u_name bob ∧
  users store0 !! "u2" = Some bob ∧
  eval (put_tasks_id "t1" (move_to_bob JsUndefined (Some "UNASSIGNED"))) store0 =
    sendResponse 200 "Task updated"
      (DTaskDoc "t1" (Some (mkTask "Write" "" "2025-01-01" false "u2" "Bob"))).
Proof.
  split; [discriminate|]. split; [discriminate|].
  split; vm_compute; reflexivity.
Qed.

Lemma reassignment_moves_pending_witness :
  status_of (eval (put_tasks_id "t1" (move_to_bob JsUndefined None)) store0) = 200 ∧
  ∃ u1', users (exec (put_tasks_id "t1" (move_to_bob JsUndefined None)) store0) !! "u1"
           = Some u1' ∧ "t1" ∉ u_pendingTasks u1'.
Proof.
  assert (Hok : status_of (eval (put_tasks_id "t1" (move_to_bob JsUndefined None)) store0)
                = 200) by (vm_compute; reflexivity).
  assert (Hu1 : users store0 !! "u1" = Some ann) by (vm_compute; reflexivity).
  assert (Hu2 : users store0 !! "u2" = Some bob) by (vm_compute; reflexivity).
  assert (Ht : tasks store0 !! "t1" = Some task1) by (vm_compute; reflexivity).
  split; [exact Hok|].
  exact (proj1 (reassignment_moves_pending store0 "t1" (move_to_bob JsUndefined None)
                  task1 ann bob Ht eq_refl ltac:(discriminate) Hu1
                  ltac:(discriminate) ltac:(discriminate) Hu2 Hok)).
Defined.

(** C4, as stated, fails: the Task is not completed and is Ann's, the update
    names Bob and answers 200, and Bob's pendingTasks stays empty, because
    the same update completes the Task. *)
Lemma reassign_and_complete_not_added :
  tasks store0 !! "t1" = Some task1 ∧ t_completed task1 = false ∧
  t_assignedUser task1 = "u1" ∧ users store0 !! "u1" = Some ann ∧
  users store0 !! "u2" = Some bob ∧
  status_of (eval (put_tasks_id "t1" (move_to_bob (JsBool true) None)) store0) = 200 ∧
  users (exec (put_tasks_id "t1" (move_to_bob (JsBool true) None)) store0) !! "u2"
    = Some (mkUser "Bob" "bob@example.org" []).
Proof. repeat split; vm_compute; reflexivity. Qed.

(** *** A new Task for Bob, then completed *)

Lemma create_then_complete_witness :
  users store0 !! "u2" = Some bob ∧ tasks store0 !! "t9" = None ∧
  tb_completed new_for_bob = JsUndefined ∧ tb_completed complete_new = JsBool true ∧
  status_of (eval (post_tasks "t9" new_for_bob) store0) = 201 ∧
  (∃ u1, users (exec (post_tasks "t9" new_for_bob) store0) !! "u2" = Some u1
         ∧ "t9" ∈ u_pendingTasks u1 ∧ occurrences "t9" (u_pendingTasks u1) = 1) ∧
  status_of (eval (put_tasks_id "t9" complete_new)
               (exec (post_tasks "t9" new_for_bob) store0)) = 200 ∧
  (∃ u2, users (exec (put_tasks_id "t9" complete_new)
                  (exec (post_tasks "t9" new_for_bob) store0)) !! "u2" = Some u2
         ∧ "t9" ∉ u_pendingTasks u2).
Proof.
  assert (Hu : users store0 !! "u2" = Some bob) by (vm_compute; reflexivity).
  assert (Hf : tasks store0 !! "t9" = None) by (vm_compute; reflexivity).
  split; [exact Hu|]. split; [exact Hf|]. split; [reflexivity|]. split; [reflexivity|].
  pose proof (create_then_complete store0 "t9" new_for_bob bob
                ltac:(discriminate) ltac:(discriminate) ltac:(discriminate)
                Hu ltac:(discriminate) ltac:(discriminate) (or_introl eq_refl) Hf) as Hc.
  cbv zeta in Hc. destruct Hc as (H1 & H2 & H3 & H4).
  pose proof (H4 complete_new ltac:(discriminate) ltac:(discriminate) eq_refl eq_refl)
    as Hok.
  split; [exact H1|]. split; [exact H2|]. split; [exact Hok|].
  exact (proj1 (H3 complete_new (or_introl eq_refl) Hok)).
Defined.

(** *** Updating Ann *)

Lemma completed_pending_rejected_witness :
  "t3" ∈ new_pending (JsArr ["t3"; "t2"]) ∧ tasks store0 !! "t3" = Some task3 ∧
  t_completed task3 = true ∧
  users (exec (put_users_id "u1" (ann_with (JsArr ["t3"; "t2"]))) store0) = users store0 ∧
  tasks (exec (put_users_id "u1" (ann_with (JsArr ["t3"; "t2"]))) store0) = tasks store0.
Proof.
  assert (Hin : "t3" ∈ new_pending (ub_pendingTasks (ann_with (JsArr ["t3"; "t2"]))))
    by by_computation.
  assert (Ht : tasks store0 !! "t3" = Some task3) by (vm_compute; reflexivity).
  split; [exact Hin|]. split; [exact Ht|]. split; [reflexivity|].
  pose proof (completed_pending_rejected store0 "u1" (ann_with (JsArr ["t3"; "t2"]))
                "t3" task3 Hin Ht eq_refl) as Hc.
  cbv zeta in Hc. destruct Hc as (_ & H1 & H2 & _). split; [exact H1 | exact H2].
Defined.

(** C2, as stated, fails: the list holds the id of the completed Task [t3],
    and the answer is 404, for the id [zz] that is no Task's. *)
Lemma completed_and_missing_answers_404 :
  "t3" ∈ new_pending (JsArr ["t3"; "zz"]) ∧ tasks store0 !! "t3" = Some task3 ∧
  t_completed task3 = true ∧
  eval (put_users_id "u1" (ann_with (JsArr ["t3"; "zz"]))) store0 =
    sendResponse 404 "One or more tasks not found" (DMissing ["zz"]).
Proof.
  split; [by_computation|]. repeat split; vm_compute; reflexivity.
Qed.



Lemma non_array_pending_is_empty_witness :
  status_of (eval (put_users_id "u1" (ann_with (JsStr "t1"))) store0) = 200 ∧
  new_pending (JsStr "t1") = [] ∧
  ∃ u, users store0 !! "u1" = Some u ∧
    users (exec (put_users_id "u1" (ann_with (JsStr "t1"))) store0) !! "u1" =
      Some (mkUser "Ann" "ann@example.org" []) ∧
    ∀ tid t, tid ∈ u_pendingTasks u → tasks store0 !! tid = Some t →
      t_completed t = false →
      tasks (exec (put_users_id "u1" (ann_with (JsStr "t1"))) store0) !! tid
        = Some (unassign t)
      ∧ t_assignedUser (unassign t) = ""
      ∧ t_assignedUserName (unassign t) = "unassigned".
Proof.
  assert (Hok : status_of (eval (put_users_id "u1" (ann_with (JsStr "t1"))) store0) = 200)
    by (vm_compute; reflexivity).
  split; [exact Hok|].
  exact (non_array_pending_is_empty store0 "u1" (ann_with (JsStr "t1"))
           ltac:(discriminate) ltac:(discriminate) Hok).
Defined.

(** *** The list endpoints *)

Lemma invalid_json_rejected_witness :
  parse_empty_object "{oops" = None ∧
  get_users_list parse_empty_object (fun _ => None) plain_engine broken_sort store0
  = (Some (sendResponse 400 "Invalid JSON in sort parameter" DObj), store0).
Proof.
  split; [reflexivity|].
  destruct (invalid_json_rejected parse_empty_object (fun _ => None) plain_engine)
    as [Hmarker Hlist].
  destruct (Hmarker "{oops" ltac:(discriminate) eq_refl) as [_ Hsort].
  destruct (Hlist broken_sort store0) as (_ & Hs & _).
  exact (proj1 (Hs eq_refl Hsort)).
Defined.

(** C9, as stated, fails: the empty string is a present value that is not
    valid JSON, and [parseJSONParam] returns [undefined] for it without
    calling [JSON.parse], whatever [JSON.parse] is; GET /users handles an
    empty where as an absent one, whatever [JSON.parse], [parseInt] and
    Mongoose are, and answers 200 when Mongoose accepts the query. *)
Lemma empty_value_is_not_marked :
  (fun parse : string → option json => parseJSONParam parse (Some ""))
    = (fun _ => None)
  ∧ (fun parse pint engine =>
       get_users_list parse pint engine (mkQuery (Some "") None None None None None))
    = (fun parse pint engine =>
       get_users_list parse pint engine (mkQuery None None None None None None))
  ∧ status_of <$> eval (get_users_list parse_empty_object (fun _ => None) plain_engine
                          (mkQuery (Some "") None None None None None)) store0
    = Some 200.
Proof. split; [reflexivity|]. split; [reflexivity|]. vm_compute. reflexivity. Qed.

(** *** The invariants *)

Lemma operations_keep_invariants_witness :
  Consistent store0 ∧
  succeeded (eval (run (OpTaskUpdate "t1" (move_to_bob JsUndefined None))) store0) ∧
  invariant1 (exec (run (OpTaskUpdate "t1" (move_to_bob JsUndefined None))) store0) ∧
  invariant2 (exec (run (OpTaskUpdate "t1" (move_to_bob JsUndefined None))) store0).
Proof.
  assert (Hok : succeeded (eval (run (OpTaskUpdate "t1" (move_to_bob JsUndefined None)))
                             store0)).
  { unfold succeeded.
    assert (status_of (eval (run (OpTaskUpdate "t1" (move_to_bob JsUndefined None))) store0)
            = 200) as -> by (vm_compute; reflexivity).
    lia. }
  split; [exact store0_consistent|]. split; [exact Hok|].
  exact (proj2 (operations_keep_invariants store0
                  (OpTaskUpdate "t1" (move_to_bob JsUndefined None))
                  store0_consistent I Hok)).
Defined.

(** C1, as stated, fails: the five invariants of the data model hold of a
    store in which Wes lists a Task that is Vic's; completing that Task
    answers 200, pulls its id from Vic's list alone, and leaves Wes listing
    a completed Task. *)
Lemma listed_by_another_user_breaks_invariant2 :
  invariant1 store_shared ∧ invariant2 store_shared ∧ invariant3 store_shared ∧
  invariant4 store_shared ∧ invariant5 store_shared ∧
  eval (run (OpTaskUpdate "t1" complete_it)) store_shared =
    sendResponse 200 "Task updated"
      (DTaskDoc "t1" (Some (mkTask "Write" "" "2025-01-01" true "v1" "Vic"))) ∧
  ¬ invariant2 (exec (run (OpTaskUpdate "t1" complete_it)) store_shared).
Proof.
  assert (Htask : ∀ tid t, tasks store_shared !! tid = Some t →
            tid = "t1" ∧ t = shared_task).
  { intros tid t Ht. unfold store_shared in Ht. simpl in Ht.
    apply lookup_insert_Some in Ht as [[<- <-] | [_ Ht]]; [done|].
    by rewrite lookup_empty in Ht. }
  assert (Hvic : users store_shared !! "v1" = Some vic) by (vm_compute; reflexivity).
  split; [|split; [|split; [|split; [|split; [|split]]]]].
  - intros tid t [-> ->]%Htask _ _. exists vic. split; [exact Hvic|].
    vm_compute. reflexivity.
  - intros tid t [-> ->]%Htask [Hc|Ha]; discriminate.
  - intros tid t [-> ->]%Htask. rewrite bool_decide_eq_false_2 by discriminate.
    exists vic. split; [exact Hvic | reflexivity].
  - intros uid u Hu. unfold store_shared in Hu. simpl in Hu.
    apply lookup_insert_Some in Hu as [[_ <-] | [_ Hu]]; [by_computation|].
    apply lookup_insert_Some in Hu as [[_ <-] | [_ Hu]]; [by_computation|].
    by rewrite lookup_empty in Hu.
  - intros tid t [-> ->]%Htask _. exists vic. exact Hvic.
  - vm_compute. reflexivity.
  - intros Hinv.
    apply (Hinv "t1" (mkTask "Write" "" "2025-01-01" true "v1" "Vic")
             ltac:(vm_compute; reflexivity) (or_introl eq_refl)
             "w1" wes ltac:(vm_compute; reflexivity)).
    by_computation.
Qed.

(** ** Worked instances of the further properties *)

Lemma users_valid_store0 : users_valid store0.
Proof.
  match goal with
  | |- ?P =>
      apply (bool_decide_unpack
               (map_Forall (fun (_ : string) u =>
                  u_name u ≠ "" ∧ includes_char "@"%char (u_email u) = true)
                  (users store0)))
  end.
  vm_compute. exact I.
Qed.

Lemma invariants_after_any_sequence_witness :
  Forall well_formed sample_ops ∧
  invariant1 (run_all sample_ops empty_store) ∧
  invariant2 (run_all sample_ops empty_store).
Proof.
  assert (H : Forall well_formed sample_ops).
  { repeat constructor. discriminate. }
  split; [exact H|].
  pose proof (invariants_after_any_sequence sample_ops H) as Hc.
  cbv zeta in Hc. destruct Hc as (_ & H1 & H2 & _). split; [exact H1 | exact H2].
Defined.

Lemma completed_task_is_frozen_witness :
  tasks store0 !! "t3" = Some task3 ∧ t_completed task3 = true ∧
  ∃ t', tasks (exec (run (OpUserDelete "u1")) store0) !! "t3" = Some t'
        ∧ t_completed t' = true.
Proof.
  assert (Ht : tasks store0 !! "t3" = Some task3) by (vm_compute; reflexivity).
  split; [exact Ht|]. split; [reflexivity|].
  destruct (completed_task_is_frozen store0 (OpUserDelete "u1") "t3" task3 Ht eq_refl)
    as [[Hop _]|(t' & H1 & H2 & _)]; [discriminate Hop|].
  exists t'. split; [exact H1 | exact H2].
Defined.

Lemma user_identity_is_kept_witness :
  users store0 !! "u1" = Some ann ∧
  status_of (eval (put_users_id "u1" (mkUserBody "Anna" "anna@example.org" (JsArr ["t1"])))
               store0) = 200 ∧
  (∃ u', users (exec (put_users_id "u1"
                        (mkUserBody "Anna" "anna@example.org" (JsArr ["t1"]))) store0) !! "u1"
           = Some u'
         ∧ u_name u' = "Anna" ∧ u_email u' = "anna@example.org") ∧
  users (exec (delete_users_id "u1") store0) !! "u1" = None ∧
  (∃ u', users (exec (delete_tasks_id "t1") store0) !! "u1" = Some u'
         ∧ u_name u' = "Ann" ∧ u_email u' = "ann@example.org").
Proof.
  assert (Hu : users store0 !! "u1" = Some ann) by (vm_compute; reflexivity).
  assert (Hok : status_of (eval (put_users_id "u1"
                  (mkUserBody "Anna" "anna@example.org" (JsArr ["t1"]))) store0) = 200)
    by (vm_compute; reflexivity).
  split; [exact Hu|]. split; [exact Hok|]. split; [|split].
  - pose proof (user_identity_is_kept store0
                  (OpUserUpdate "u1" (mkUserBody "Anna" "anna@example.org" (JsArr ["t1"])))
                  "u1" ann Hu) as Hc.
    cbv zeta in Hc. simpl in Hc. exact (proj1 Hc Hok).
  - pose proof (user_identity_is_kept store0 (OpUserDelete "u1") "u1" ann Hu) as Hc.
    cbv zeta in Hc. simpl in Hc. exact (proj2 Hc).
  - exact (user_identity_is_kept store0 (OpTaskDelete "t1") "u1" ann Hu).
Defined.

Lemma users_stay_valid_witness :
  users_valid store0 ∧ users_valid (run_all sample_ops store0).
Proof.
  split; [exact users_valid_store0|].
  exact (users_stay_valid sample_ops store0 users_valid_store0).
Defined.







Lemma put_users_refreshes_names_witness :
  status_of (eval (put_users_id "u1" (mkUserBody "Anna" "ann@example.org" (JsArr ["t1"])))
               store0) = 200 ∧
  tasks (exec (put_users_id "u1" (mkUserBody "Anna" "ann@example.org" (JsArr ["t1"])))
           store0) !! "t3" = Some (mkTask "Done" "" "2025-03-01" true "u1" "Anna") ∧
  t_assignedUserName (mkTask "Done" "" "2025-03-01" true "u1" "Anna") = "Anna".
Proof.
  assert (Hok : status_of (eval (put_users_id "u1"
                  (mkUserBody "Anna" "ann@example.org" (JsArr ["t1"]))) store0) = 200)
    by (vm_compute; reflexivity).
  assert (Ht : tasks (exec (put_users_id "u1"
                  (mkUserBody "Anna" "ann@example.org" (JsArr ["t1"]))) store0) !! "t3"
               = Some (mkTask "Done" "" "2025-03-01" true "u1" "Anna"))
    by (vm_compute; reflexivity).
  split; [exact Hok|]. split; [exact Ht|].
  exact (put_users_refreshes_names store0 "u1"
           (mkUserBody "Anna" "ann@example.org" (JsArr ["t1"])) "t3" _ Hok Ht eq_refl).
Defined.

Lemma put_users_takes_from_previous_owner_witness :
  status_of (eval (put_users_id "u2" (bob_with (JsArr ["t1"]))) store0) = 200 ∧
  tasks store0 !! "t1" = Some task1 ∧ users store0 !! "u1" = Some ann ∧
  ∃ uv', users (exec (put_users_id "u2" (bob_with (JsArr ["t1"]))) store0) !! "u1" = Some uv'
         ∧ "t1" ∉ u_pendingTasks uv'.
Proof.
  assert (Hok : status_of (eval (put_users_id "u2" (bob_with (JsArr ["t1"]))) store0) = 200)
    by (vm_compute; reflexivity).
  assert (Hin : "t1" ∈ new_pending (ub_pendingTasks (bob_with (JsArr ["t1"]))))
    by by_computation.
  assert (Ht : tasks store0 !! "t1" = Some task1) by (vm_compute; reflexivity).
  assert (Hu : users store0 !! "u1" = Some ann) by (vm_compute; reflexivity).
  split; [exact Hok|]. split; [exact Ht|]. split; [exact Hu|].
  destruct (put_users_takes_from_previous_owner store0 "u2" (bob_with (JsArr ["t1"]))
              "t1" task1 "u1" ann Hok Hin Ht eq_refl ltac:(discriminate)
              ltac:(discriminate) Hu) as (uv' & H1 & H2 & _).
  exists uv'. split; [exact H1 | exact H2].
Defined.

Lemma put_tasks_unassigns_witness :
  status_of (eval (put_tasks_id "t1" release_it) store0) = 200 ∧
  ∃ t', tasks (exec (put_tasks_id "t1" release_it) store0) !! "t1" = Some t'
        ∧ t_assignedUser t' = "" ∧ t_assignedUserName t' = "unassigned".
Proof.
  assert (Hok : status_of (eval (put_tasks_id "t1" release_it) store0) = 200)
    by (vm_compute; reflexivity).
  split; [exact Hok|].
  destruct (put_tasks_unassigns store0 "t1" release_it eq_refl Hok)
    as (task & t' & _ & H1 & H2 & H3 & _).
  exists t'. split; [exact H1|]. split; [exact H2 | exact H3].
Defined.

Lemma create_then_delete_task_witness :
  Consistent store0 ∧
  status_of (eval (post_tasks "t9" new_for_bob) store0) = 201 ∧
  users (exec (delete_tasks_id "t9") (exec (post_tasks "t9" new_for_bob) store0))
    = users store0 ∧
  tasks (exec (delete_tasks_id "t9") (exec (post_tasks "t9" new_for_bob) store0))
    = tasks store0.
Proof.
  assert (Hok : status_of (eval (post_tasks "t9" new_for_bob) store0) = 201)
    by (vm_compute; reflexivity).
  split; [exact store0_consistent|]. split; [exact Hok|].
  pose proof (create_then_delete_task store0 "t9" new_for_bob store0_consistent Hok) as Hc.
  cbv zeta in Hc. exact (proj2 Hc).
Defined.

Lemma delete_user_keeps_completed_tasks_witness :
  Consistent store0 ∧ users store0 !! "u1" = Some ann ∧
  tasks store0 !! "t3" = Some task3 ∧
  users (exec (delete_users_id "u1") store0) !! "u1" = None ∧
  tasks (exec (delete_users_id "u1") store0) !! "t3" = Some task3.
Proof.
  assert (Hu : users store0 !! "u1" = Some ann) by (vm_compute; reflexivity).
  assert (Ht : tasks store0 !! "t3" = Some task3) by (vm_compute; reflexivity).
  split; [exact store0_consistent|]. split; [exact Hu|]. split; [exact Ht|].
  exact (delete_user_keeps_completed_tasks store0 "u1" ann "t3" task3
           store0_consistent Hu Ht eq_refl eq_refl).
Defined.

Lemma normalize_touches_one_user_witness :
  users store0 !! "u9" = None ∧
  users (exec (normalizePendingTasksForUser "u9") store0) = users store0 ∧
  calls_since store0 (exec (normalizePendingTasksForUser "u9") store0)
    [CUserFindById "u9"].
Proof.
  assert (Hu : users store0 !! "u9" = None) by (vm_compute; reflexivity).
  split; [exact Hu|].
  pose proof (normalize_touches_one_user store0 "u9") as Hc.
  cbv zeta in Hc. destruct Hc as (_ & _ & Hc & _). exact (Hc Hu).
Defined.

Lemma put_tasks_id_repeated_witness :
  Consistent store0 ∧
  status_of (eval (put_tasks_id "t1" (move_to_bob JsUndefined None)) store0) = 200 ∧
  status_of (eval (put_tasks_id "t1" (move_to_bob JsUndefined None))
               (exec (put_tasks_id "t1" (move_to_bob JsUndefined None)) store0)) = 200.
Proof.
  assert (Hok : status_of (eval (put_tasks_id "t1" (move_to_bob JsUndefined None)) store0)
                = 200) by (vm_compute; reflexivity).
  split; [exact store0_consistent|]. split; [exact Hok|].
  pose proof (put_tasks_id_repeated store0 "t1" (move_to_bob JsUndefined None)
                store0_consistent Hok eq_refl) as Hc.
  cbv zeta in Hc. exact (proj1 Hc).
Defined.

Lemma delete_twice_witness :
  status_of (eval (delete_users_id "u1") store0) = 204 ∧
  eval (delete_users_id "u1") (exec (delete_users_id "u1") store0) =
    sendResponse 404 "User not found" DObj.
Proof.
  assert (Hok : status_of (eval (delete_users_id "u1") store0) = 204)
    by (vm_compute; reflexivity).
  split; [exact Hok|].
  pose proof (proj1 (delete_twice store0 "u1") Hok) as Hc.
  cbv zeta in Hc. exact (proj1 Hc).
Defined.

Lemma create_then_delete_user_witness :
  status_of (eval (post_users "u5" new_cal) store0) = 201 ∧
  users (exec (delete_users_id "u5") (exec (post_users "u5" new_cal) store0))
    = users store0.
Proof.
  assert (Hok : status_of (eval (post_users "u5" new_cal) store0) = 201)
    by (vm_compute; reflexivity).
  split; [exact Hok|].
  pose proof (create_then_delete_user store0 "u5" new_cal Hok) as Hc.
  cbv zeta in Hc. exact (proj1 (proj2 Hc)).
Defined.


